(** * Exam portal backend (backend/uploads/server.js): a shallow embedding

    The server is an Express application over three Mongoose collections
    (User, Material, Chat).  Every route handler is embedded as a function
    from the request and the current collections to a response and the new
    collections; a collection is the list of its documents in natural
    (insertion) order.

    Conventions of the model:
    - text is a byte string, and toLowerCase and trim act on ASCII;
    - a number is an integer (the range in which a JavaScript number is an
      exact integer) or NaN; a date is its epoch milliseconds;
    - identifiers in requests and tokens are well-formed ObjectIds;
    - bcryptjs and jsonwebtoken are symbolic;
    - the schemas are those of models/Material.js and models/Chat.js, and
      of models/User.js as the code walkthrough lists it;
    - the wording of the messages of library errors is indicative. *)

From Stdlib Require Import List String Ascii ZArith Lia Bool Arith.
From Stdlib Require Import Permutation Sorted.
From Stdlib Require DecimalString HexadecimalString DecimalZ HexadecimalNat.
From Stdlib Require HexadecimalFacts.
Import ListNotations.

Set Warnings "-register-all".

Local Open Scope string_scope.
Local Open Scope Z_scope.

(** ** JavaScript primitives used by the handlers *)

Module Js.

(** The result of parseInt and friends: an integer or NaN. *)
Inductive number : Type :=
| NaN : number
| Num : Z -> number.

Definition code (c : ascii) : Z := Z.of_nat (nat_of_ascii c).

Definition is_upper (c : ascii) : bool := (65 <=? code c) && (code c <=? 90).

Definition lower_char (c : ascii) : ascii :=
  if is_upper c then ascii_of_nat (nat_of_ascii c + 32) else c.

(** String.prototype.toLowerCase *)
Fixpoint toLowerCase (s : string) : string :=
  match s with
  | EmptyString => EmptyString
  | String c r => String (lower_char c) (toLowerCase r)
  end.

(** White space as String.prototype.trim and parseInt skip it. *)
Definition is_space (c : ascii) : bool :=
  ((9 <=? code c) && (code c <=? 13)) || (code c =? 32).

Fixpoint trimStart (s : string) : string :=
  match s with
  | EmptyString => EmptyString
  | String c r => if is_space c then trimStart r else s
  end.

Fixpoint trimEnd (s : string) : string :=
  match s with
  | EmptyString => EmptyString
  | String c r =>
      match trimEnd r with
      | EmptyString => if is_space c then EmptyString else String c EmptyString
      | r' => String c r'
      end
  end.

(** String.prototype.trim *)
Definition trim (s : string) : string := trimEnd (trimStart s).

(** String.prototype.includes *)
Fixpoint includes (s sub : string) : bool :=
  if prefix sub s then true
  else match s with
       | EmptyString => false
       | String _ r => includes r sub
       end.

(** Truthiness of a string, and of a value that may be undefined. *)
Definition truthy (s : string) : bool :=
  match s with EmptyString => false | _ => true end.

Definition truthy_opt (v : option string) : bool :=
  match v with Some s => truthy s | None => false end.

(** [v || d] on a possibly undefined string. *)
Definition or_else (v : option string) (d : string) : string :=
  match v with
  | Some s => if truthy s then s else d
  | None => d
  end.

(** The value of a digit in the given radix (10 or 16). *)
Definition digit (radix : Z) (c : ascii) : option Z :=
  let n := code c in
  let v := if (48 <=? n) && (n <=? 57) then n - 48
           else if (97 <=? n) && (n <=? 122) then n - 87
           else if (65 <=? n) && (n <=? 90) then n - 55
           else radix in
  if v <? radix then Some v else None.

(** The longest prefix of digits, read in the radix; [acc] is the value
    read so far, [None] while no digit has been seen. *)
Fixpoint digits (radix : Z) (s : string) (acc : option Z) : option Z :=
  match s with
  | EmptyString => acc
  | String c r =>
      match digit radix c with
      | Some d =>
          digits radix r
            (Some (match acc with Some a => a * radix + d | None => d end))
      | None => acc
      end
  end.

(** parseInt(s) with no radix argument: leading white space, a sign, an
    optional 0x prefix, then the longest run of digits; NaN if none. *)
Definition parseInt (s : string) : number :=
  let s1 := trimStart s in
  let '(sign, s2) :=
    match s1 with
    | String "-"%char r => (-1, r)
    | String "+"%char r => (1, r)
    | _ => (1, s1)
    end in
  let '(radix, s3) :=
    match s2 with
    | String "0"%char (String "x"%char r) => (16, r)
    | String "0"%char (String "X"%char r) => (16, r)
    | _ => (10, s2)
    end in
  match digits radix s3 None with
  | Some v => Num (sign * v)
  | None => NaN
  end.

(** parseInt of a value that may be undefined ("undefined" has no digit). *)
Definition parseInt_opt (v : option string) : number :=
  match v with Some s => parseInt s | None => NaN end.

(** [n || d] on numbers: NaN and 0 are falsy. *)
Definition num_or (n : number) (d : Z) : Z :=
  match n with
  | NaN => d
  | Num z => if z =? 0 then d else z
  end.

(** The double quote character, as a string. *)
Definition dq : string := String (ascii_of_nat 34) EmptyString.

(** Number to decimal text, as string concatenation renders it. *)
Definition toString (z : Z) : string := DecimalString.NilZero.string_of_int (Z.to_int z).

End Js.


(** ** Regular expressions of the store's $regex operator

    The fragment of the pattern language that is modelled: ordinary
    characters, the dot, and a backslash before a character that is
    neither a letter nor a digit.  [compile] answers [None] on any other
    pattern; nothing is stated about those. *)

Module Regex.

Inductive atom : Type :=
| Lit : ascii -> atom
| AnyChar : atom.

Definition metachars : list ascii :=
  list_ascii_of_string "\^$.[|()?*+{".

Definition metachar (c : ascii) : bool := existsb (Ascii.eqb c) metachars.

Definition alnum (c : ascii) : bool :=
  let n := Js.code c in
  ((48 <=? n) && (n <=? 57)) || ((65 <=? n) && (n <=? 90))
  || ((97 <=? n) && (n <=? 122)).

Fixpoint compile (p : string) : option (list atom) :=
  match p with
  | EmptyString => Some []
  | String c r =>
      if Ascii.eqb c "."%char then option_map (cons AnyChar) (compile r)
      else if Ascii.eqb c "\"%char then
        match r with
        | String d r' =>
            if alnum d then None else option_map (cons (Lit d)) (compile r')
        | EmptyString => None
        end
      else if metachar c then None
      else option_map (cons (Lit c)) (compile r)
  end.

Definition newline : ascii := ascii_of_nat 10.

(** One atom against one character, under the option i. *)
Definition atom_matches (a : atom) (c : ascii) : bool :=
  match a with
  | Lit l => Ascii.eqb (Js.lower_char l) (Js.lower_char c)
  | AnyChar => negb (Ascii.eqb c newline)
  end.

Fixpoint matches_here (p : list atom) (s : string) : bool :=
  match p with
  | [] => true
  | a :: p' =>
      match s with
      | EmptyString => false
      | String c r => atom_matches a c && matches_here p' r
      end
  end.

(** An unanchored pattern matches when it matches at some position. *)
Fixpoint search (p : list atom) (s : string) : bool :=
  matches_here p s
  || match s with
     | EmptyString => false
     | String _ r => search p r
     end.

(** { $regex: pattern, $options: 'i' } against a string field. *)
Definition test_i (pattern s : string) : option bool :=
  option_map (fun p => search p s) (compile pattern).

End Regex.

(** ** Documents *)

Definition ObjectId : Type := nat.

Module Oid.
(** ObjectId.prototype.toString: the hexadecimal rendering. *)
Definition toString (o : ObjectId) : string :=
  HexadecimalString.NilZero.string_of_uint (Nat.to_hex_uint o).
End Oid.

(** bcryptjs, symbolically: a hash records the cost, the salt and the
    password it was made from; nothing reads the password back except
    [compare]. *)
Module Bcrypt.
Inductive digest : Type :=
| Digest : Z -> string -> string -> digest.

Definition hash (password : string) (rounds : Z) (salt : string) : digest :=
  Digest rounds salt password.

Definition compare (password : string) (h : digest) : bool :=
  match h with Digest _ _ p => String.eqb password p end.
End Bcrypt.

(** jsonwebtoken, symbolically: a token carries its payload, the issue and
    expiry times in seconds, and whether its signature is the server's. *)
Module Jwt.
Record claims : Type := {
  userId : ObjectId;
  role : string;
  email : string
}.

Record token : Type := {
  payload : claims;
  iat : Z;
  exp : Z;
  genuine : bool
}.

Definition seconds (now : Z) : Z := now / 1000.

Definition seven_days : Z := 7 * 24 * 60 * 60.

(** jwt.sign(payload, secret, { expiresIn: '7d' }) *)
Definition sign (p : claims) (now : Z) : token :=
  {| payload := p; iat := seconds now;
     exp := seconds now + seven_days; genuine := true |}.

(** jwt.verify(token, secret): the payload, or [None] when it throws. *)
Definition verify (t : token) (now : Z) : option claims :=
  if genuine t && (seconds now <? exp t) then Some (payload t) else None.
End Jwt.

(** Response bodies. *)
Inductive json : Type :=
| JNull : json
| JBool : bool -> json
| JNum : Z -> json
| JStr : string -> json
| JTok : Jwt.token -> json
| JArr : list json -> json
| JObj : list (string * json) -> json.

Module User.
Record t : Type := {
  _id : ObjectId;
  name : string;
  email : string;
  password : Bcrypt.digest;
  role : string;
  department : string;
  semester : Z;
  createdAt : Z;
  updatedAt : Z
}.
End User.

Module Material.
Record t : Type := {
  _id : ObjectId;
  title : string;
  description : string;
  subject : string;
  department : string;
  semester : Z;
  type : string;
  year : option Z;
  fileUrl : string;
  fileName : string;
  uploadedBy : ObjectId;
  uploadedByName : string;
  likes : list ObjectId;
  downloads : Z;
  createdAt : Z;
  updatedAt : Z
}.

Definition set_likes (l : list ObjectId) (m : t) : t :=
  {| _id := _id m; title := title m; description := description m;
     subject := subject m; department := department m;
     semester := semester m; type := type m; year := year m;
     fileUrl := fileUrl m; fileName := fileName m;
     uploadedBy := uploadedBy m; uploadedByName := uploadedByName m;
     likes := l; downloads := downloads m;
     createdAt := createdAt m; updatedAt := updatedAt m |}.

Definition set_downloads (d : Z) (m : t) : t :=
  {| _id := _id m; title := title m; description := description m;
     subject := subject m; department := department m;
     semester := semester m; type := type m; year := year m;
     fileUrl := fileUrl m; fileName := fileName m;
     uploadedBy := uploadedBy m; uploadedByName := uploadedByName m;
     likes := likes m; downloads := d;
     createdAt := createdAt m; updatedAt := updatedAt m |}.

Definition set_updatedAt (u : Z) (m : t) : t :=
  {| _id := _id m; title := title m; description := description m;
     subject := subject m; department := department m;
     semester := semester m; type := type m; year := year m;
     fileUrl := fileUrl m; fileName := fileName m;
     uploadedBy := uploadedBy m; uploadedByName := uploadedByName m;
     likes := likes m; downloads := downloads m;
     createdAt := createdAt m; updatedAt := u |}.

(** The plain object of a document (lean, toJSON); the version key is
    left out. *)
Definition fields (m : t) : list (string * json) :=
  [ ("_id", JStr (Oid.toString (_id m)));
    ("title", JStr (title m));
    ("description", JStr (description m));
    ("subject", JStr (subject m));
    ("department", JStr (department m));
    ("semester", JNum (semester m));
    ("type", JStr (type m));
    ("year", match year m with Some y => JNum y | None => JNull end);
    ("fileUrl", JStr (fileUrl m));
    ("fileName", JStr (fileName m));
    ("uploadedBy", JStr (Oid.toString (uploadedBy m)));
    ("uploadedByName", JStr (uploadedByName m));
    ("likes", JArr (map (fun u => JStr (Oid.toString u)) (likes m)));
    ("downloads", JNum (downloads m));
    ("createdAt", JNum (createdAt m));
    ("updatedAt", JNum (updatedAt m)) ].
End Material.

Module Chat.
Record t : Type := {
  _id : ObjectId;
  userId : ObjectId;
  message : string;
  response : string;
  createdAt : Z;
  updatedAt : Z
}.

Definition fields (c : t) : list (string * json) :=
  [ ("_id", JStr (Oid.toString (_id c)));
    ("userId", JStr (Oid.toString (userId c)));
    ("message", JStr (message c));
    ("response", JStr (response c));
    ("createdAt", JNum (createdAt c));
    ("updatedAt", JNum (updatedAt c)) ].
End Chat.

(** The three collections, each in its natural (insertion) order, and the
    next identifier the driver hands out. *)
Record Db : Type := {
  Users : list User.t;
  Materials : list Material.t;
  Chats : list Chat.t;
  fresh : ObjectId
}.

Definition empty_db : Db :=
  {| Users := []; Materials := []; Chats := []; fresh := 0%nat |}.

(** ** The Mongoose layer: schemas, casting, validation, queries *)

Module Mongoose.

(** Why a path fails validation. *)
Inductive reason : Type :=
| Required : reason
| NotInEnum : string -> reason
| NotANumber : reason.

Inductive exception : Type :=
| ValidationError : string -> string -> reason -> exception
| CastError : string -> string -> string -> string -> exception
| MongoServerError : string -> exception.

Definition cast_text (kind value path : string) : string :=
"Cast to " ++ kind ++ " failed for value " ++ Js.dq ++ value ++ Js.dq
++ " (type number) at path " ++ Js.dq ++ path ++ Js.dq.

(** error.message; a validation error names the first failing path. *)
Definition message (e : exception) : string :=
match e with
| ValidationError model path why =>
    model ++ " validation failed: " ++ path ++ ": "
    ++ match why with
       | Required => "Path `" ++ path ++ "` is required."
       | NotInEnum v =>
           "`" ++ v ++ "` is not a valid enum value for path `" ++ path ++ "`."
       | NotANumber => cast_text "Number" "NaN" path
       end
| CastError kind value path model =>
    cast_text kind value path ++ " for model " ++ Js.dq ++ model ++ Js.dq
| MongoServerError msg => msg
end.

Inductive result (A : Type) : Type :=
| Ok : A -> result A
| Throw : exception -> result A.
Arguments Ok {A} _.
Arguments Throw {A} _.

(** The required validator of a String path rejects the empty string. *)
Definition required (v : string) : bool := Js.truthy v.

Definition enum (allowed : list string) (v : string) : bool :=
  existsb (String.eqb v) allowed.

(** sort({ key: -1 }): documents with the larger key first; documents
    with equal keys keep their natural order. *)
Section Sort.
Context {A : Type} (key : A -> Z).

Fixpoint insert_desc (x : A) (l : list A) : list A :=
  match l with
  | [] => [x]
  | y :: r => if key x <? key y then y :: insert_desc x r else x :: l
  end.

Fixpoint sort_desc (l : list A) : list A :=
  match l with
  | [] => []
  | x :: r => insert_desc x (sort_desc r)
  end.
End Sort.

(** skip(k) then limit(n) on a cursor.  The server refuses a negative
    skip; the driver sends a negative limit as its absolute value. *)
Definition skip_limit {A : Type} (k n : Z) (l : list A) : result (list A) :=
  if k <? 0 then Throw (MongoServerError "Skip value must be non-negative")
  else Ok (firstn (Z.abs_nat n) (skipn (Z.to_nat k) l)).

Module Users.
Record doc : Type := {
  name : string;
  email : string;
  password : Bcrypt.digest;
  role : string;
  department : string;
  semester : Js.number
}.

Definition roles : list string := ["student"; "faculty"].

Definition findOne_email (e : string) (c : list User.t) : option User.t :=
  List.find (fun u => String.eqb (User.email u) e) c.

Definition findById (i : ObjectId) (c : list User.t) : option User.t :=
  List.find (fun u => Nat.eqb (User._id u) i) c.

Definition countDocuments_role (r : string) (c : list User.t) : Z :=
  Z.of_nat (List.length (filter (fun u => String.eqb (User.role u) r) c)).

(** User.create: setters (trim, lowercase), casting, validators, then
    the insert, which the unique index on email may refuse. *)
Definition create (now : Z) (i : ObjectId) (d : doc) (c : list User.t)
  : result (User.t * list User.t) :=
  let name' := Js.trim (name d) in
  let email' := Js.trim (Js.toLowerCase (email d)) in
  match semester d with
  | Js.NaN => Throw (ValidationError "User" "semester" NotANumber)
  | Js.Num sem =>
      if negb (required name') then
        Throw (ValidationError "User" "name" Required)
      else if negb (required email') then
        Throw (ValidationError "User" "email" Required)
      else if negb (enum roles (role d)) then
        Throw (ValidationError "User" "role" (NotInEnum (role d)))
      else
        match findOne_email email' c with
        | Some _ =>
            Throw (MongoServerError "E11000 duplicate key error: email")
        | None =>
            let u := {| User._id := i; User.name := name';
                        User.email := email';
                        User.password := password d;
                        User.role := role d;
                        User.department := department d;
                        User.semester := sem;
                        User.createdAt := now; User.updatedAt := now |} in
            Ok (u, (c ++ [u])%list)
        end
  end.
End Users.

Module Materials.
Record doc : Type := {
  title : option string;
  description : string;
  subject : option string;
  department : option string;
  semester : Js.number;
  type : option string;
  year : option Js.number;
  fileUrl : string;
  fileName : string;
  uploadedBy : ObjectId;
  uploadedByName : string;
  likes : list ObjectId;
  downloads : Z
}.

Definition types : list string := ["notes"; "pyq"; "syllabus"; "reference"].

Definition findById (i : ObjectId) (c : list Material.t) : option Material.t :=
  List.find (fun m => Nat.eqb (Material._id m) i) c.

(** A required String path: defined and not empty. *)
Definition required_path (v : option string) : option string :=
  match v with
  | Some s => if required s then Some s else None
  | None => None
  end.

(** Material.create *)
Definition create (now : Z) (i : ObjectId) (d : doc) (c : list Material.t)
  : result (Material.t * list Material.t) :=
  match required_path (option_map Js.trim (title d)) with
  | None => Throw (ValidationError "Material" "title" Required)
  | Some title' =>
  match required_path (subject d) with
  | None => Throw (ValidationError "Material" "subject" Required)
  | Some subject' =>
  match required_path (department d) with
  | None => Throw (ValidationError "Material" "department" Required)
  | Some department' =>
  match semester d with
  | Js.NaN => Throw (ValidationError "Material" "semester" NotANumber)
  | Js.Num semester' =>
  match required_path (type d) with
  | None => Throw (ValidationError "Material" "type" Required)
  | Some type' =>
  if negb (enum types type') then
    Throw (ValidationError "Material" "type" (NotInEnum type'))
  else
  match year d with
  | Some Js.NaN => Throw (ValidationError "Material" "year" NotANumber)
  | year' =>
  if negb (required (fileUrl d)) then
    Throw (ValidationError "Material" "fileUrl" Required)
  else if negb (required (fileName d)) then
    Throw (ValidationError "Material" "fileName" Required)
  else
    let m := {| Material._id := i; Material.title := title';
                Material.description := description d;
                Material.subject := subject';
                Material.department := department';
                Material.semester := semester';
                Material.type := type';
                Material.year :=
                  match year' with Some (Js.Num y) => Some y | _ => None end;
                Material.fileUrl := fileUrl d;
                Material.fileName := fileName d;
                Material.uploadedBy := uploadedBy d;
                Material.uploadedByName := uploadedByName d;
                Material.likes := likes d;
                Material.downloads := downloads d;
                Material.createdAt := now; Material.updatedAt := now |} in
    Ok (m, (c ++ [m])%list)
  end end end end end end.

(** document.save(): the stored document with this _id is replaced in
    place and its updatedAt is refreshed. *)
Fixpoint save (now : Z) (m : Material.t) (c : list Material.t)
  : list Material.t :=
  match c with
  | [] => []
  | x :: r =>
      if Nat.eqb (Material._id x) (Material._id m)
      then Material.set_updatedAt now m :: r
      else x :: save now m r
  end.

(** Material.findByIdAndDelete *)
Fixpoint findByIdAndDelete (i : ObjectId) (c : list Material.t)
  : list Material.t :=
  match c with
  | [] => []
  | x :: r =>
      if Nat.eqb (Material._id x) i then r else x :: findByIdAndDelete i r
  end.

(** The query object that GET /api/materials builds. *)
Inductive text_path : Type := Title | Description | Subject.

Record query : Type := {
  q_department : option string;
  q_semester : option Js.number;
  q_type : option string;
  q_subject : option string;
  q_or : option (list (text_path * string))
}.

Definition get (p : text_path) (m : Material.t) : string :=
  match p with
  | Title => Material.title m
  | Description => Material.description m
  | Subject => Material.subject m
  end.

(** The query after casting against the schema and compiling its
    regular expressions. *)
Record compiled : Type := {
  c_department : option string;
  c_semester : option Z;
  c_type : option string;
  c_subject : option (list Regex.atom);
  c_or : option (list (text_path * list Regex.atom))
}.

(** Casting: NaN is not a Number. *)
Definition cast_semester (v : option Js.number) : result (option Z) :=
  match v with
  | None => Ok None
  | Some (Js.Num z) => Ok (Some z)
  | Some Js.NaN => Throw (CastError "Number" "NaN" "semester" "Material")
  end.

Fixpoint compile_alts (l : list (text_path * string))
  : option (list (text_path * list Regex.atom)) :=
  match l with
  | [] => Some []
  | (p, pat) :: r =>
      match Regex.compile pat, compile_alts r with
      | Some a, Some r' => Some ((p, a) :: r')
      | _, _ => None
      end
  end.

Definition opt_compile {A B : Type} (f : A -> option B) (v : option A)
  : option (option B) :=
  match v with
  | None => Some None
  | Some a => option_map Some (f a)
  end.

Definition matches (q : compiled) (m : Material.t) : bool :=
  match c_department q with
  | Some d => String.eqb (Material.department m) d | None => true end
  && match c_semester q with
     | Some z => Material.semester m =? z | None => true end
  && match c_type q with
     | Some t => String.eqb (Material.type m) t | None => true end
  && match c_subject q with
     | Some p => Regex.search p (Material.subject m) | None => true end
  && match c_or q with
     | Some alts =>
         existsb (fun '(p, a) => Regex.search a (get p m)) alts
     | None => true
     end.

(** Material.find(query): [None] when a pattern is outside the
    modelled fragment of regular expressions. *)
Definition find (q : query) (c : list Material.t)
  : option (result (list Material.t)) :=
  match cast_semester (q_semester q) with
  | Throw e => Some (Throw e)
  | Ok sem =>
      match opt_compile Regex.compile (q_subject q),
            opt_compile compile_alts (q_or q) with
      | Some subj, Some alts =>
          let cq := {| c_department := q_department q; c_semester := sem;
                       c_type := q_type q; c_subject := subj;
                       c_or := alts |} in
          Some (Ok (filter (matches cq) c))
      | _, _ => None
      end
  end.
End Materials.

Module Chats.
(** Chat.create *)
Definition create (now : Z) (i : ObjectId) (userId : ObjectId)
  (message response : string) (c : list Chat.t)
  : result (Chat.t * list Chat.t) :=
  if negb (required message) then
    Throw (ValidationError "Chat" "message" Required)
  else if negb (required response) then
    Throw (ValidationError "Chat" "response" Required)
  else
    let e := {| Chat._id := i; Chat.userId := userId;
                Chat.message := message; Chat.response := response;
                Chat.createdAt := now; Chat.updatedAt := now |} in
    Ok (e, (c ++ [e])%list).

Definition find_userId (u : ObjectId) (c : list Chat.t) : list Chat.t :=
  filter (fun e => Nat.eqb (Chat.userId e) u) c.
End Chats.

End Mongoose.

(** ** The Express application *)

Module Server.

Record response : Type := {
  status : Z;
  body : json
}.

(** res.status(code).json(value) and res.json(value) *)
Definition reply (code : Z) (value : json) : response :=
  {| status := code; body := value |}.

Definition error (code : Z) (msg : string) : response :=
  reply code (JObj [("error", JStr msg)]).

(** A middleware either answers the request or calls next(). *)
Inductive stage (A : Type) : Type :=
| Responded : response -> stage A
| Next : A -> stage A.
Arguments Responded {A} _.
Arguments Next {A} _.

Definition chain {A : Type} (s : stage A) (db : Db)
  (k : A -> response * Db) : response * Db :=
  match s with
  | Responded r => (r, db)
  | Next a => k a
  end.

(** The Authorization header after the Bearer prefix is removed: absent
    (or empty), or a token. *)
Definition authMiddleware (now : Z) (authorization : option Jwt.token)
  : stage Jwt.claims :=
  match authorization with
  | None => Responded (error 401 "Access denied. No token provided.")
  | Some token =>
      match Jwt.verify token now with
      | Some decoded => Next decoded
      | None => Responded (error 400 "Invalid token.")
      end
  end.

Definition facultyOnly (user : Jwt.claims) : stage unit :=
  if negb (String.eqb (Jwt.role user) "faculty")
  then Responded (error 403 "Access denied. Faculty only.")
  else Next tt.

(** multer: the uploaded file, if any. *)
Module File.
Record t : Type := {
  originalname : string;
  size : Z
}.
End File.

Definition fileSize_limit : Z := 50 * 1024 * 1024.

(** upload.single('file'): req.file.filename, or undefined without a file;
    a file over the limit goes to the default error handler. *)
Definition upload_single (now : Z) (file : option File.t)
  : stage (option (string * File.t)) :=
  match file with
  | None => Next None
  | Some f =>
      if fileSize_limit <? File.size f
      then Responded (reply 500 (JStr "MulterError: File too large"))
      else Next (Some (Js.toString now ++ "-" ++ File.originalname f, f))
  end.

Definition utf8 (bytes : list nat) : string :=
  string_of_list_ascii (map ascii_of_nat bytes).

Definition dq : string := Js.dq.
Definition nl : string := utf8 [10%nat].
Definition bullet : string := utf8 [226; 128; 162]%nat.
Definition rocket : string := utf8 [240; 159; 154; 128]%nat.
Definition wave : string := utf8 [240; 159; 145; 139]%nat.
Definition smile : string := utf8 [240; 159; 152; 138]%nat.

(** GET / *)
Definition get_root (now : Z) : response :=
  reply 200 (JObj [
    ("message", JStr (rocket ++ " Exam Portal Backend is Running! (MongoDB)"));
    ("timestamp", JNum now);
    ("status", JStr "active");
    ("database", JStr "MongoDB") ]).

Module RegisterBody.
Record t : Type := {
  name : option string;
  email : option string;
  password : option string;
  role : option string;
  department : option string;
  semester : option string
}.
End RegisterBody.

(** A body field that passes the test [!field] is false. *)
Definition present (v : option string) : option string :=
  match v with
  | Some s => if Js.truthy s then Some s else None
  | None => None
  end.

(** POST /api/auth/register *)
Definition post_auth_register (now : Z) (salt : string) (b : RegisterBody.t)
  (db : Db) : response * Db :=
  match present (RegisterBody.name b), present (RegisterBody.email b),
        present (RegisterBody.password b), present (RegisterBody.role b) with
  | Some name, Some email, Some password, Some role =>
      let existingUser :=
        Mongoose.Users.findOne_email (Js.trim (Js.toLowerCase email)) (Users db) in
      match existingUser with
      | Some _ => (error 400 "User already exists with this email", db)
      | None =>
          let hashedPassword := Bcrypt.hash password 10 salt in
          match Mongoose.Users.create now (fresh db)
                  {| Mongoose.Users.name := Js.trim name;
                     Mongoose.Users.email := Js.trim (Js.toLowerCase email);
                     Mongoose.Users.password := hashedPassword;
                     Mongoose.Users.role := role;
                     Mongoose.Users.department :=
                       Js.or_else (RegisterBody.department b) "Computer Science";
                     Mongoose.Users.semester :=
                       if Js.truthy_opt (RegisterBody.semester b)
                       then Js.parseInt_opt (RegisterBody.semester b)
                       else Js.Num 1 |}
                  (Users db) with
          | Mongoose.Throw _ =>
              (error 500 "Registration failed. Please try again.", db)
          | Mongoose.Ok (user, users') =>
              let token :=
                Jwt.sign {| Jwt.userId := User._id user;
                            Jwt.role := User.role user;
                            Jwt.email := User.email user |} now in
              (reply 201 (JObj [
                 ("message", JStr "User registered successfully!");
                 ("token", JTok token);
                 ("user", JObj [
                    ("id", JStr (Oid.toString (User._id user)));
                    ("name", JStr (User.name user));
                    ("email", JStr (User.email user));
                    ("role", JStr (User.role user));
                    ("department", JStr (User.department user));
                    ("semester", JNum (User.semester user)) ]) ]),
               {| Users := users'; Materials := Materials db;
                  Chats := Chats db; fresh := S (fresh db) |})
          end
      end
  | _, _, _, _ => (error 400 "All fields are required", db)
  end.

Module LoginBody.
Record t : Type := {
  email : option string;
  password : option string
}.
End LoginBody.

(** POST /api/auth/login *)
Definition post_auth_login (now : Z) (b : LoginBody.t) (db : Db)
  : response * Db :=
  match present (LoginBody.email b), present (LoginBody.password b) with
  | Some email, Some password =>
      match Mongoose.Users.findOne_email (Js.trim (Js.toLowerCase email))
              (Users db) with
      | None => (error 400 "Invalid email or password", db)
      | Some user =>
          let isMatch := Bcrypt.compare password (User.password user) in
          if negb isMatch then (error 400 "Invalid email or password", db)
          else
            let token :=
              Jwt.sign {| Jwt.userId := User._id user;
                          Jwt.role := User.role user;
                          Jwt.email := User.email user |} now in
            (reply 200 (JObj [
               ("message", JStr "Login successful!");
               ("token", JTok token);
               ("user", JObj [
                  ("id", JStr (Oid.toString (User._id user)));
                  ("name", JStr (User.name user));
                  ("email", JStr (User.email user));
                  ("role", JStr (User.role user));
                  ("department", JStr (User.department user));
                  ("semester", JNum (User.semester user)) ]) ]),
             db)
      end
  | _, _ => (error 400 "Email and password are required", db)
  end.

(** GET /api/auth/me *)
Definition get_auth_me (now : Z) (authorization : option Jwt.token) (db : Db)
  : response * Db :=
  chain (authMiddleware now authorization) db (fun req_user =>
    match Mongoose.Users.findById (Jwt.userId req_user) (Users db) with
    | None => (error 404 "User not found", db)
    | Some user =>
        (reply 200 (JObj [
           ("id", JStr (Oid.toString (User._id user)));
           ("name", JStr (User.name user));
           ("email", JStr (User.email user));
           ("role", JStr (User.role user));
           ("department", JStr (User.department user));
           ("semester", JNum (User.semester user)) ]),
         db)
    end).

Module UploadBody.
Record t : Type := {
  title : option string;
  description : option string;
  subject : option string;
  department : option string;
  semester : option string;
  type : option string;
  year : option string
}.
End UploadBody.

(** { id: material._id.toString(), ...material } *)
Definition with_id (m : Material.t) : json :=
  JObj (("id", JStr (Oid.toString (Material._id m))) :: Material.fields m).

(** POST /api/materials *)
Definition post_materials (now : Z) (authorization : option Jwt.token)
  (file : option File.t) (b : UploadBody.t) (db : Db) : response * Db :=
  chain (authMiddleware now authorization) db (fun req_user =>
  chain (facultyOnly req_user) db (fun _ =>
  chain (upload_single now file) db (fun req_file =>
    match req_file with
    | None => (error 400 "No file uploaded", db)
    | Some (filename, f) =>
        let user := Mongoose.Users.findById (Jwt.userId req_user) (Users db) in
        match Mongoose.Materials.create now (fresh db)
                {| Mongoose.Materials.title := UploadBody.title b;
                   Mongoose.Materials.description :=
                     Js.or_else (UploadBody.description b) EmptyString;
                   Mongoose.Materials.subject := UploadBody.subject b;
                   Mongoose.Materials.department := UploadBody.department b;
                   Mongoose.Materials.semester :=
                     Js.parseInt_opt (UploadBody.semester b);
                   Mongoose.Materials.type := UploadBody.type b;
                   Mongoose.Materials.year :=
                     if Js.truthy_opt (UploadBody.year b)
                     then Some (Js.parseInt_opt (UploadBody.year b))
                     else None;
                   Mongoose.Materials.fileUrl := "/uploads/" ++ filename;
                   Mongoose.Materials.fileName := File.originalname f;
                   Mongoose.Materials.uploadedBy := Jwt.userId req_user;
                   Mongoose.Materials.uploadedByName :=
                     Js.or_else (option_map User.name user) "Faculty";
                   Mongoose.Materials.likes := [];
                   Mongoose.Materials.downloads := 0 |}
                (Materials db) with
        | Mongoose.Throw e => (error 500 (Mongoose.message e), db)
        | Mongoose.Ok (material, materials') =>
            (reply 201 (JObj [
               ("message", JStr "Material uploaded successfully!");
               ("material", with_id material) ]),
             {| Users := Users db; Materials := materials';
                Chats := Chats db; fresh := S (fresh db) |})
        end
    end))).

Module ListQuery.
Record t : Type := {
  department : option string;
  semester : option string;
  subject : option string;
  type : option string;
  search : option string;
  limit : option string;
  page : option string
}.
End ListQuery.

(** The query object built from req.query: a key is set only when its
    parameter is truthy. *)
Definition build_query (q : ListQuery.t) : Mongoose.Materials.query :=
  {| Mongoose.Materials.q_department := present (ListQuery.department q);
     Mongoose.Materials.q_semester :=
       option_map Js.parseInt (present (ListQuery.semester q));
     Mongoose.Materials.q_type := present (ListQuery.type q);
     Mongoose.Materials.q_subject := present (ListQuery.subject q);
     Mongoose.Materials.q_or :=
       option_map (fun search =>
           [ (Mongoose.Materials.Title, search);
             (Mongoose.Materials.Description, search);
             (Mongoose.Materials.Subject, search) ])
         (present (ListQuery.search q)) |}.

(** GET /api/materials; [None] when a pattern is outside the modelled
    fragment of regular expressions. *)
Definition get_materials (now : Z) (authorization : option Jwt.token)
  (q : ListQuery.t) (db : Db) : option response :=
  match authMiddleware now authorization with
  | Responded r => Some r
  | Next _ =>
      let query := build_query q in
      let pageNum := Js.num_or (Js.parseInt_opt (ListQuery.page q)) 1 in
      let limitNum := Js.num_or (Js.parseInt_opt (ListQuery.limit q)) 100 in
      let skip := (pageNum - 1) * limitNum in
      match Mongoose.Materials.find query (Materials db) with
      | None => None
      | Some (Mongoose.Throw e) => Some (error 500 (Mongoose.message e))
      | Some (Mongoose.Ok found) =>
          match Mongoose.skip_limit skip limitNum
                  (Mongoose.sort_desc Material.createdAt found) with
          | Mongoose.Throw e => Some (error 500 (Mongoose.message e))
          | Mongoose.Ok materials =>
              let formattedMaterials := map with_id materials in
              Some (reply 200 (JArr formattedMaterials))
          end
      end
  end.

(** GET /api/materials/:id *)
Definition get_material (now : Z) (authorization : option Jwt.token)
  (id : ObjectId) (db : Db) : response * Db :=
  chain (authMiddleware now authorization) db (fun _ =>
    match Mongoose.Materials.findById id (Materials db) with
    | None => (error 404 "Material not found", db)
    | Some material => (reply 200 (with_id material), db)
    end).

(** Array.prototype.findIndex, splice(i, 1), push, some *)
Fixpoint findIndex {A : Type} (p : A -> bool) (l : list A) : Z :=
  match l with
  | [] => -1
  | x :: r =>
      if p x then 0
      else let i := findIndex p r in if i <? 0 then -1 else i + 1
  end.

Definition splice1 {A : Type} (i : Z) (l : list A) : list A :=
  (firstn (Z.to_nat i) l ++ skipn (S (Z.to_nat i)) l)%list.

Definition push {A : Type} (l : list A) (x : A) : list A := (l ++ [x])%list.

Definition with_materials (ms : list Material.t) (db : Db) : Db :=
  {| Users := Users db; Materials := ms; Chats := Chats db;
     fresh := fresh db |}.

(** likeId.toString() === userId.toString() *)
Definition same_id (userId likeId : ObjectId) : bool :=
  String.eqb (Oid.toString likeId) (Oid.toString userId).

(** POST /api/materials/:id/like *)
Definition post_material_like (now : Z) (authorization : option Jwt.token)
  (id : ObjectId) (db : Db) : response * Db :=
  chain (authMiddleware now authorization) db (fun req_user =>
    match Mongoose.Materials.findById id (Materials db) with
    | None => (error 404 "Material not found", db)
    | Some material =>
        let userId := Jwt.userId req_user in
        let likeIndex := findIndex (same_id userId) (Material.likes material) in
        let likes' :=
          if -1 <? likeIndex then splice1 likeIndex (Material.likes material)
          else push (Material.likes material) userId in
        let material' := Material.set_likes likes' material in
        (reply 200 (JObj [
           ("message", JStr "Like updated");
           ("likes", JNum (Z.of_nat (List.length (Material.likes material'))));
           ("isLiked", JBool (existsb (same_id userId) (Material.likes material'))) ]),
         with_materials (Mongoose.Materials.save now material' (Materials db)) db)
    end).

(** POST /api/materials/:id/download *)
Definition post_material_download (now : Z) (authorization : option Jwt.token)
  (id : ObjectId) (db : Db) : response * Db :=
  chain (authMiddleware now authorization) db (fun _ =>
    match Mongoose.Materials.findById id (Materials db) with
    | None => (error 404 "Material not found", db)
    | Some material =>
        let material' :=
          Material.set_downloads
            (Js.num_or (Js.Num (Material.downloads material)) 0 + 1) material in
        (reply 200 (JObj [
           ("message", JStr "Download count updated");
           ("downloads", JNum (Material.downloads material')) ]),
         with_materials (Mongoose.Materials.save now material' (Materials db)) db)
    end).

(** DELETE /api/materials/:id *)
Definition delete_material (now : Z) (authorization : option Jwt.token)
  (id : ObjectId) (db : Db) : response * Db :=
  chain (authMiddleware now authorization) db (fun req_user =>
  chain (facultyOnly req_user) db (fun _ =>
    match Mongoose.Materials.findById id (Materials db) with
    | None => (error 404 "Material not found", db)
    | Some _ =>
        (reply 200 (JObj [("message", JStr "Material deleted successfully")]),
         with_materials
           (Mongoose.Materials.findByIdAndDelete id (Materials db)) db)
    end)).

(** The canned answers of the chatbot. *)
Definition answer_pyq : string :=
  "You can find previous year question papers in the Materials section. Filter by "
  ++ dq ++ "PYQ" ++ dq ++
  " type to see all available papers. Would you like me to help you find papers for a specific subject?".

Definition answer_notes : string :=
  "Study notes are available in the Materials section. You can filter by subject, semester, and department to find relevant notes for your courses. Just click on Materials in the navigation menu!".

Definition answer_syllabus : string :=
  "Syllabus documents are available in the Materials section. Filter by "
  ++ dq ++ "Syllabus" ++ dq ++
  " type to view the curriculum for different courses. This will help you plan your studies better!".

Definition answer_exam : string :=
  "I can help you with exam preparation! We have notes, PYQs, and reference materials. What subject are you preparing for? I can guide you to the right materials.".

Definition answer_download : string :=
  "To download materials: 1) Go to the Materials page, 2) Find the document you need using filters or search, 3) Click the green "
  ++ dq ++ "Download" ++ dq ++ " button. Make sure you're logged in!".

Definition answer_upload : string :=
  "Only faculty members can upload materials. If you're a faculty member, use the Upload button in the navigation menu to share notes, PYQs, or other study materials with students.".

Definition answer_greeting : string :=
  "Hello! " ++ wave ++
  " I'm your AI study assistant. I can help you find study materials, PYQs, and answer questions about using the portal. What would you like to know?".

Definition answer_thanks : string :=
  "You're welcome! " ++ smile ++
  " Feel free to ask if you need any other help with your studies or using the portal.".

Definition answer_menu : string :=
  "I'm here to help with your academic queries! You can ask me about:" ++ nl
  ++ bullet ++ " Finding study materials and notes" ++ nl
  ++ bullet ++ " Previous year question papers (PYQs)" ++ nl
  ++ bullet ++ " Exam preparation tips" ++ nl
  ++ bullet ++ " How to download or upload materials" ++ nl
  ++ bullet ++ " Using the portal features" ++ nl ++ nl
  ++ "What would you like to know?".

(** The keyword cascade of POST /api/chat on the lower-cased message. *)
Definition chat_response (lowerMessage : string) : string :=
  if Js.includes lowerMessage "pyq" || Js.includes lowerMessage "previous year"
     || Js.includes lowerMessage "question paper"
  then answer_pyq
  else if Js.includes lowerMessage "notes"
          || Js.includes lowerMessage "study material"
  then answer_notes
  else if Js.includes lowerMessage "syllabus" then answer_syllabus
  else if Js.includes lowerMessage "exam"
          || Js.includes lowerMessage "preparation"
  then answer_exam
  else if Js.includes lowerMessage "download"
          || Js.includes lowerMessage "how to download"
  then answer_download
  else if Js.includes lowerMessage "upload" then answer_upload
  else if Js.includes lowerMessage "hello" || Js.includes lowerMessage "hi"
          || Js.includes lowerMessage "hey"
  then answer_greeting
  else if Js.includes lowerMessage "thank" then answer_thanks
  else answer_menu.

(** POST /api/chat *)
Definition post_chat (now : Z) (authorization : option Jwt.token)
  (req_body_message : option string) (db : Db) : response * Db :=
  chain (authMiddleware now authorization) db (fun req_user =>
    match present req_body_message with
    | None => (error 400 "Message is required", db)
    | Some message =>
        let lowerMessage := Js.toLowerCase message in
        let response := chat_response lowerMessage in
        match Mongoose.Chats.create now (fresh db) (Jwt.userId req_user)
                message response (Chats db) with
        | Mongoose.Throw e => (error 500 (Mongoose.message e), db)
        | Mongoose.Ok (_, chats') =>
            (reply 200 (JObj [("response", JStr response)]),
             {| Users := Users db; Materials := Materials db;
                Chats := chats'; fresh := S (fresh db) |})
        end
    end).

(** GET /api/chat/history *)
Definition get_chat_history (now : Z) (authorization : option Jwt.token)
  (db : Db) : response * Db :=
  chain (authMiddleware now authorization) db (fun req_user =>
    let history :=
      firstn 50 (Mongoose.sort_desc Chat.createdAt
                   (Mongoose.Chats.find_userId (Jwt.userId req_user) (Chats db))) in
    let formattedHistory :=
      map (fun chat =>
             JObj (("id", JStr (Oid.toString (Chat._id chat))) :: Chat.fields chat))
          history in
    (reply 200 (JArr formattedHistory), db)).

(** Array.prototype.slice(a, b) *)
Definition slice {A : Type} (a b : nat) (l : list A) : list A :=
  firstn (b - a) (skipn a l).

Definition sum_downloads (materials : list Material.t) : Z :=
  fold_left (fun sum m => sum + Js.num_or (Js.Num (Material.downloads m)) 0)
    materials 0.

(** GET /api/dashboard *)
Definition get_dashboard (now : Z) (authorization : option Jwt.token)
  (db : Db) : response * Db :=
  chain (authMiddleware now authorization) db (fun _ =>
    let materials := Materials db in
    let totalMaterials := Z.of_nat (List.length materials) in
    let totalPYQs :=
      Z.of_nat (List.length
        (filter (fun m => String.eqb (Material.type m) "pyq") materials)) in
    let totalDownloads := sum_downloads materials in
    let totalStudents := Mongoose.Users.countDocuments_role "student" (Users db) in
    let totalFaculty := Mongoose.Users.countDocuments_role "faculty" (Users db) in
    let recentMaterials :=
      map (fun m =>
             JObj [ ("id", JStr (Oid.toString (Material._id m)));
                    ("title", JStr (Material.title m));
                    ("subject", JStr (Material.subject m));
                    ("type", JStr (Material.type m));
                    ("createdAt", JNum (Material.createdAt m)) ])
          (slice 0 5 materials) in
    (reply 200 (JObj [
       ("stats", JObj [
          ("totalMaterials", JNum totalMaterials);
          ("totalPYQs", JNum totalPYQs);
          ("totalDownloads", JNum totalDownloads);
          ("totalStudents", JNum totalStudents);
          ("totalFaculty", JNum totalFaculty) ]);
       ("recentMaterials", JArr recentMaterials) ]),
     db)).

(** GET /api/stats *)
Definition get_stats (now : Z) (authorization : option Jwt.token)
  (db : Db) : response * Db :=
  chain (authMiddleware now authorization) db (fun _ =>
    let totalMaterials := Z.of_nat (List.length (Materials db)) in
    let totalStudents := Mongoose.Users.countDocuments_role "student" (Users db) in
    let totalFaculty := Mongoose.Users.countDocuments_role "faculty" (Users db) in
    let totalDownloads := sum_downloads (Materials db) in
    (reply 200 (JObj [
       ("totalMaterials", JNum totalMaterials);
       ("totalStudents", JNum totalStudents);
       ("totalFaculty", JNum totalFaculty);
       ("totalDownloads", JNum totalDownloads) ]),
     db)).

(** The routes of the application. *)
Inductive request : Type :=
| GET_root : request
| POST_auth_register : string -> RegisterBody.t -> request
| POST_auth_login : LoginBody.t -> request
| GET_auth_me : option Jwt.token -> request
| POST_materials : option Jwt.token -> option File.t -> UploadBody.t -> request
| GET_materials : option Jwt.token -> ListQuery.t -> request
| GET_material : option Jwt.token -> ObjectId -> request
| POST_material_like : option Jwt.token -> ObjectId -> request
| POST_material_download : option Jwt.token -> ObjectId -> request
| DELETE_material : option Jwt.token -> ObjectId -> request
| POST_chat : option Jwt.token -> option string -> request
| GET_chat_history : option Jwt.token -> request
| GET_dashboard : option Jwt.token -> request
| GET_stats : option Jwt.token -> request.

Definition answered (p : response * Db) : option response * Db :=
  (Some (fst p), snd p).

(** One request served at time [now]. *)
Definition handle (now : Z) (r : request) (db : Db) : option response * Db :=
  match r with
  | GET_root => (Some (get_root now), db)
  | POST_auth_register salt b => answered (post_auth_register now salt b db)
  | POST_auth_login b => answered (post_auth_login now b db)
  | GET_auth_me a => answered (get_auth_me now a db)
  | POST_materials a f b => answered (post_materials now a f b db)
  | GET_materials a q => (get_materials now a q db, db)
  | GET_material a i => answered (get_material now a i db)
  | POST_material_like a i => answered (post_material_like now a i db)
  | POST_material_download a i => answered (post_material_download now a i db)
  | DELETE_material a i => answered (delete_material now a i db)
  | POST_chat a m => answered (post_chat now a m db)
  | GET_chat_history a => answered (get_chat_history now a db)
  | GET_dashboard a => answered (get_dashboard now a db)
  | GET_stats a => answered (get_stats now a db)
  end.

(** Requests served one after the other, each with its arrival time. *)
Fixpoint serve (rs : list (Z * request)) (db : Db) : Db :=
  match rs with
  | [] => db
  | (now, r) :: rest => serve rest (snd (handle now r db))
  end.

End Server.

(** * Vocabulary of the properties *)

Import Server.

Module MM := Mongoose.Materials.
Module MU := Mongoose.Users.

(** The request passed authMiddleware with these claims. *)
Definition authenticated (now : Z) (authorization : option Jwt.token)
  (user : Jwt.claims) : Prop :=
  authMiddleware now authorization = Next user.

Definition ids (c : list Material.t) : list ObjectId := map Material._id c.

(** The store's guarantee on the materials collection: _id is unique, and
    every _id in use is older than the next one to be handed out. *)
Definition wf (db : Db) : Prop :=
  NoDup (ids (Materials db))
  /\ Forall (fun i => (i < fresh db)%nat) (ids (Materials db)).

(** What one request can do to the materials collection. *)
Inductive material_step (db db' : Db) : Prop :=
| step_same :
    Materials db' = Materials db -> (fresh db <= fresh db')%nat ->
    material_step db db'
| step_save : forall now m m',
    MM.findById (Material._id m) (Materials db) = Some m ->
    Material._id m' = Material._id m ->
    Material.downloads m <= Material.downloads m' ->
    (NoDup (Material.likes m) -> NoDup (Material.likes m')) ->
    Materials db' = MM.save now m' (Materials db) ->
    fresh db' = fresh db ->
    material_step db db'
| step_delete : forall i,
    Materials db' = MM.findByIdAndDelete i (Materials db) ->
    fresh db' = fresh db ->
    material_step db db'
| step_create : forall m,
    Materials db' = (Materials db ++ [m])%list ->
    Material._id m = fresh db ->
    Material.likes m = [] ->
    fresh db' = S (fresh db) ->
    material_step db db'.

(** The invariant of the likes: no user twice in the likes of a material. *)
Definition likes_nodup (db : Db) : Prop :=
  Forall (fun m => NoDup (Material.likes m)) (Materials db).

(** The likes array after the like route has toggled [userId] in it. *)
Definition toggled (userId : ObjectId) (likes : list ObjectId) : list ObjectId :=
  if -1 <? findIndex (same_id userId) likes
  then splice1 (findIndex (same_id userId) likes) likes
  else push likes userId.

(** The body of the like route's answer for a likes array. *)
Definition like_body (userId : ObjectId) (likes : list ObjectId) : json :=
  JObj [ ("message", JStr "Like updated");
         ("likes", JNum (Z.of_nat (List.length likes)));
         ("isLiked", JBool (existsb (Nat.eqb userId) likes)) ].

(** RecordDownload calls on one material, each with its time and token. *)
Definition downloads_of (id : ObjectId) (calls : list (Z * option Jwt.token))
  : list (Z * request) :=
  map (fun c => (fst c, POST_material_download (snd c) id)) calls.

Definition all_authenticated (calls : list (Z * option Jwt.token)) : Prop :=
  Forall (fun c => exists user, authenticated (fst c) (snd c) user) calls.

(** A Register body with its four required fields. *)
Definition complete (b : RegisterBody.t) : bool :=
  Js.truthy_opt (RegisterBody.name b) && Js.truthy_opt (RegisterBody.email b)
  && Js.truthy_opt (RegisterBody.password b)
  && Js.truthy_opt (RegisterBody.role b).

(** The keyword occurs in the text as a substring. *)
Definition occurs_in (keyword text : string) : Prop :=
  exists a b, text = a ++ keyword ++ b.

(** The keyword groups of the chat responder, in priority order, each with
    its canned answer. *)
Definition keyword_groups : list (list string * string) :=
  [ (["pyq"; "previous year"; "question paper"], answer_pyq);
    (["notes"; "study material"], answer_notes);
    (["syllabus"], answer_syllabus);
    (["exam"; "preparation"], answer_exam);
    (["download"], answer_download);
    (["upload"], answer_upload);
    (["hello"; "hi"; "hey"], answer_greeting);
    (["thank"], answer_thanks) ].

Definition group_matches (text : string) (g : list string * string) : Prop :=
  exists keyword, In keyword (fst g) /\ occurs_in keyword text.

(** [selects text groups answer]: the answer is the one of the first group,
    in order, with a keyword in the text, and the menu if there is none. *)
Inductive selects (text : string)
  : list (list string * string) -> string -> Prop :=
| selects_menu : selects text [] answer_menu
| selects_here : forall g rest,
    group_matches text g -> selects text (g :: rest) (snd g)
| selects_later : forall g rest answer,
    ~ group_matches text g -> selects text rest answer ->
    selects text (g :: rest) answer.

(** The same selection, computed. *)
Fixpoint select (text : string) (groups : list (list string * string))
  : string :=
  match groups with
  | [] => answer_menu
  | g :: rest =>
      if existsb (Js.includes text) (fst g) then snd g else select text rest
  end.

(** Every key of a body, at any depth; a token shows the keys of its
    payload. *)
Fixpoint all_keys (j : json) : list string :=
  match j with
  | JObj fields =>
      flat_map (fun kv : string * json =>
                  match kv with (k, v) => k :: all_keys v end) fields
  | JArr items => flat_map all_keys items
  | JTok _ => ["userId"; "role"; "email"; "iat"; "exp"]
  | _ => []
  end.

Definition field (key : string) (j : json) : option json :=
  match j with
  | JObj fields =>
      option_map snd (List.find (fun kv => String.eqb (fst kv) key) fields)
  | _ => None
  end.

(** The user summary of the interface: six fields of the record. *)
Definition summary (u : User.t) : json :=
  JObj [ ("id", JStr (Oid.toString (User._id u)));
         ("name", JStr (User.name u));
         ("email", JStr (User.email u));
         ("role", JStr (User.role u));
         ("department", JStr (User.department u));
         ("semester", JNum (User.semester u)) ].

(** Register, Login and GetSelf are the operations that return a user
    summary: under the key user for the first two, as the body for the
    third. *)
Definition returns_summary (r : request) : bool :=
  match r with
  | POST_auth_register _ _ | POST_auth_login _ | GET_auth_me _ => true
  | _ => false
  end.

Definition summary_of (r : request) (b : json) : option json :=
  match r with
  | GET_auth_me _ => Some b
  | _ => field "user" b
  end.

(** The whole outbound payload of a successful Register, Login or GetSelf,
    written from the six fields that the interface shows and the time of
    the call: a message and a token for the id, role and address beside
    the summary for the first two, the summary alone for the third.  The
    stored hash is no argument of it. *)
Definition outbound (now : Z) (r : request) (id : ObjectId)
  (name email role department : string) (semester : Z) : json :=
  let user :=
    JObj [ ("id", JStr (Oid.toString id)); ("name", JStr name);
           ("email", JStr email); ("role", JStr role);
           ("department", JStr department); ("semester", JNum semester) ] in
  let token :=
    JTok (Jwt.sign {| Jwt.userId := id; Jwt.role := role;
                      Jwt.email := email |} now) in
  match r with
  | POST_auth_register _ _ =>
      JObj [ ("message", JStr "User registered successfully!");
             ("token", token); ("user", user) ]
  | POST_auth_login _ =>
      JObj [ ("message", JStr "Login successful!");
             ("token", token); ("user", user) ]
  | _ => user
  end.

(** The fixed texts with which Register, Login and GetSelf refuse. *)
Definition refusals : list string :=
  [ "All fields are required"; "User already exists with this email";
    "Registration failed. Please try again.";
    "Email and password are required"; "Invalid email or password";
    "Access denied. No token provided."; "Invalid token.";
    "User not found" ].

(** A filter value without any metacharacter of regular expressions. *)
Definition literal (s : string) : bool :=
  forallb (fun c => negb (Regex.metachar c)) (list_ascii_of_string s).

Definition literal_opt (v : option string) : bool :=
  match v with Some s => literal s | None => true end.

(** The needle occurs in the text, letter case aside. *)
Definition ci_substring (needle text : string) : bool :=
  Js.includes (Js.toLowerCase text) (Js.toLowerCase needle).

(** The filters of ListMaterials as the specification words them; a filter
    is supplied when its parameter is present and not empty, and a
    semester that does not parse constrains nothing. *)
Definition satisfies (q : ListQuery.t) (m : Material.t) : bool :=
  match present (ListQuery.department q) with
  | Some d => String.eqb (Material.department m) d
  | None => true
  end
  && match option_map Js.parseInt (present (ListQuery.semester q)) with
     | Some (Js.Num z) => Material.semester m =? z
     | _ => true
     end
  && match present (ListQuery.type q) with
     | Some t => String.eqb (Material.type m) t
     | None => true
     end
  && match present (ListQuery.subject q) with
     | Some s => ci_substring s (Material.subject m)
     | None => true
     end
  && match present (ListQuery.search q) with
     | Some s => ci_substring s (Material.title m)
                 || ci_substring s (Material.description m)
                 || ci_substring s (Material.subject m)
     | None => true
     end.

(** Page and limit of a request, with their defaults. *)
Definition page_of (q : ListQuery.t) : Z :=
  Js.num_or (Js.parseInt_opt (ListQuery.page q)) 1.

Definition limit_of (q : ListQuery.t) : Z :=
  Js.num_or (Js.parseInt_opt (ListQuery.limit q)) 100.

(** The semester parameter is absent, empty, or parses as an integer. *)
Definition semester_parses (q : ListQuery.t) : bool :=
  match option_map Js.parseInt (present (ListQuery.semester q)) with
  | Some Js.NaN => false
  | _ => true
  end.

(** Newest first. *)
Definition newest_first (l : list Material.t) : Prop :=
  StronglySorted (fun a b => Material.createdAt b <= Material.createdAt a) l.

(** The same request without its semester parameter. *)
Definition without_semester (q : ListQuery.t) : ListQuery.t :=
  {| ListQuery.department := ListQuery.department q;
     ListQuery.semester := None;
     ListQuery.subject := ListQuery.subject q;
     ListQuery.type := ListQuery.type q;
     ListQuery.search := ListQuery.search q;
     ListQuery.limit := ListQuery.limit q;
     ListQuery.page := ListQuery.page q |}.

(** The projection of a material in the dashboard. *)
Definition recent_projection (m : Material.t) : json :=
  JObj [ ("id", JStr (Oid.toString (Material._id m)));
         ("title", JStr (Material.title m));
         ("subject", JStr (Material.subject m));
         ("type", JStr (Material.type m));
         ("createdAt", JNum (Material.createdAt m)) ].

(** The five most recently created materials, newest first, as the
    specification words the dashboard. *)
Definition five_most_recent (c : list Material.t) : list Material.t :=
  firstn 5 (Mongoose.sort_desc Material.createdAt c).

(** A running example: a faculty member and a student register, the
    faculty member uploads. *)
Module Example.

Definition faculty : RegisterBody.t :=
  {| RegisterBody.name := Some "Fay"; RegisterBody.email := Some "f@x.com";
     RegisterBody.password := Some "pw1"; RegisterBody.role := Some "faculty";
     RegisterBody.department := None; RegisterBody.semester := None |}.

Definition student : RegisterBody.t :=
  {| RegisterBody.name := Some "Sam"; RegisterBody.email := Some "s@x.com";
     RegisterBody.password := Some "pw2"; RegisterBody.role := Some "student";
     RegisterBody.department := Some "CS"; RegisterBody.semester := Some "3" |}.

(** The tokens the two registrations return. *)
Definition faculty_token : Jwt.token :=
  Jwt.sign {| Jwt.userId := 0%nat; Jwt.role := "faculty";
              Jwt.email := "f@x.com" |} 1000.

Definition student_token : Jwt.token :=
  Jwt.sign {| Jwt.userId := 1%nat; Jwt.role := "student";
              Jwt.email := "s@x.com" |} 2000.

Definition notes (title subject : string) : UploadBody.t :=
  {| UploadBody.title := Some title; UploadBody.description := None;
     UploadBody.subject := Some subject; UploadBody.department := Some "CS";
     UploadBody.semester := Some "2"; UploadBody.type := Some "notes";
     UploadBody.year := None |}.

Definition pdf : File.t := {| File.originalname := "a.pdf"; File.size := 10 |}.

Definition upload (now : Z) (title subject : string) : Z * request :=
  (now, POST_materials (Some faculty_token) (Some pdf) (notes title subject)).

Definition registered : Db :=
  serve [ (1000, POST_auth_register "salt1" faculty);
          (2000, POST_auth_register "salt2" student) ] empty_db.

(** One material, with _id 2. *)
Definition one_material : Db :=
  serve [ upload 3000 "Calc Notes" "Math" ] registered.

(** Six materials uploaded one after the other, with _id 2 to 7. *)
Definition six_materials : Db :=
  serve [ upload 3000 "Calc Notes" "Math"; upload 4000 "Algebra" "Math";
          upload 5000 "Python" "Programming"; upload 6000 "Graphs" "Math";
          upload 7000 "Logic" "Math"; upload 8000 "Sets" "Math" ] registered.

(** The material of [one_material]. *)
Definition calc_notes : Material.t :=
  {| Material._id := 2%nat; Material.title := "Calc Notes";
     Material.description := EmptyString; Material.subject := "Math";
     Material.department := "CS"; Material.semester := 2;
     Material.type := "notes"; Material.year := None;
     Material.fileUrl := "/uploads/3000-a.pdf"; Material.fileName := "a.pdf";
     Material.uploadedBy := 0%nat; Material.uploadedByName := "Fay";
     Material.likes := []; Material.downloads := 0;
     Material.createdAt := 3000; Material.updatedAt := 3000 |}.

Definition student_claims : Jwt.claims := Jwt.payload student_token.
Definition faculty_claims : Jwt.claims := Jwt.payload faculty_token.

(** A ListMaterials request with a semester and a subject filter only. *)
Definition list_by (semester subject : option string) : ListQuery.t :=
  {| ListQuery.department := None; ListQuery.semester := semester;
     ListQuery.subject := subject; ListQuery.type := None;
     ListQuery.search := None; ListQuery.limit := None;
     ListQuery.page := None |}.

(** A second registration under the address of the faculty member, in
    other letter case, with another password and an empty name. *)
Definition nameless : RegisterBody.t :=
  {| RegisterBody.name := Some EmptyString;
     RegisterBody.email := Some " F@X.com ";
     RegisterBody.password := Some "another"; RegisterBody.role := Some "student";
     RegisterBody.department := None; RegisterBody.semester := None |}.

Definition impostor : RegisterBody.t :=
  {| RegisterBody.name := Some "Eve";
     RegisterBody.email := Some " F@X.com ";
     RegisterBody.password := Some "another"; RegisterBody.role := Some "student";
     RegisterBody.department := None; RegisterBody.semester := None |}.

(** The faculty member logs in, her address in other letter case. *)
Definition faculty_login : LoginBody.t :=
  {| LoginBody.email := Some "F@x.com"; LoginBody.password := Some "pw1" |}.

(** The faculty member's address with a password that is not theirs. *)
Definition wrong_password : LoginBody.t :=
  {| LoginBody.email := Some "f@x.com"; LoginBody.password := Some "guess" |}.

End Example.

(** * Vocabulary of the further properties *)

(** An address in the form the store keeps: lower case, trimmed. *)
Definition normal (e : string) : Prop := Js.trim (Js.toLowerCase e) = e.

(** What one request served at [now] can do to the store: nothing, or
    append one user, one material or one chat entry under the next
    identifier, or save a material with its likes toggled or its downloads
    incremented, or delete a material. *)
Inductive effect (now : Z) (db db' : Db) : Prop :=
| effect_none : db' = db -> effect now db db'
| effect_user : forall u,
    db' = {| Users := (Users db ++ [u])%list; Materials := Materials db;
             Chats := Chats db; fresh := S (fresh db) |} ->
    User._id u = fresh db ->
    MU.findOne_email (User.email u) (Users db) = None ->
    normal (User.email u) ->
    User.email u <> EmptyString ->
    Mongoose.enum MU.roles (User.role u) = true ->
    effect now db db'
| effect_material : forall m,
    db' = {| Users := Users db; Materials := (Materials db ++ [m])%list;
             Chats := Chats db; fresh := S (fresh db) |} ->
    Material._id m = fresh db ->
    Material.likes m = [] ->
    Material.downloads m = 0 ->
    Mongoose.enum MM.types (Material.type m) = true ->
    Material.title m <> EmptyString ->
    Material.createdAt m = now ->
    effect now db db'
| effect_like : forall m u,
    MM.findById (Material._id m) (Materials db) = Some m ->
    db' = with_materials
            (MM.save now (Material.set_likes (toggled u (Material.likes m)) m)
               (Materials db)) db ->
    effect now db db'
| effect_download : forall m,
    MM.findById (Material._id m) (Materials db) = Some m ->
    db' = with_materials
            (MM.save now (Material.set_downloads (Material.downloads m + 1) m)
               (Materials db)) db ->
    effect now db db'
| effect_delete : forall i m,
    MM.findById i (Materials db) = Some m ->
    db' = with_materials (MM.findByIdAndDelete i (Materials db)) db ->
    effect now db db'
| effect_chat : forall e,
    db' = {| Users := Users db; Materials := Materials db;
             Chats := (Chats db ++ [e])%list; fresh := S (fresh db) |} ->
    Chat._id e = fresh db ->
    Chat.message e <> EmptyString ->
    Chat.response e = chat_response (Js.toLowerCase (Chat.message e)) ->
    Chat.createdAt e = now ->
    effect now db db'.

(** The routes that can write to the store. *)
Definition mutating (r : request) : bool :=
  match r with
  | POST_auth_register _ _ | POST_materials _ _ _ | POST_material_like _ _
  | POST_material_download _ _ | DELETE_material _ _ | POST_chat _ _ => true
  | _ => false
  end.

(** The Authorization header of a request to a route behind
    authMiddleware; [None] for the three open routes. *)
Definition authorization_of (r : request) : option (option Jwt.token) :=
  match r with
  | GET_root | POST_auth_register _ _ | POST_auth_login _ => None
  | GET_auth_me a | POST_materials a _ _ | GET_materials a _
  | GET_material a _ | POST_material_like a _ | POST_material_download a _
  | DELETE_material a _ | POST_chat a _ | GET_chat_history a
  | GET_dashboard a | GET_stats a => Some a
  end.

(** The users collection as the server keeps it: addresses distinct, in
    normal form and not empty, roles among the two of the schema, and every
    _id older than the next one. *)
Definition users_ok (db : Db) : Prop :=
  NoDup (map User.email (Users db))
  /\ Forall (fun u => normal (User.email u) /\ User.email u <> EmptyString)
       (Users db)
  /\ Forall (fun u => User.role u = "student" \/ User.role u = "faculty")
       (Users db)
  /\ Forall (fun u => (User._id u < fresh db)%nat) (Users db).

(** The materials collection as the server keeps it. *)
Definition materials_ok (db : Db) : Prop :=
  Forall (fun m => 0 <= Material.downloads m
                   /\ Mongoose.enum MM.types (Material.type m) = true
                   /\ Material.title m <> EmptyString)
    (Materials db).

(** The chat log as the server keeps it: every entry holds a message and
    the answer of the responder to it. *)
Definition chats_ok (db : Db) : Prop :=
  Forall (fun e => Chat.message e <> EmptyString
                   /\ Chat.response e
                      = chat_response (Js.toLowerCase (Chat.message e)))
    (Chats db).

(** Two ListMaterials requests with the same filters. *)
Definition same_filters (q1 q2 : ListQuery.t) : Prop :=
  ListQuery.department q1 = ListQuery.department q2
  /\ ListQuery.semester q1 = ListQuery.semester q2
  /\ ListQuery.subject q1 = ListQuery.subject q2
  /\ ListQuery.type q1 = ListQuery.type q2
  /\ ListQuery.search q1 = ListQuery.search q2.

(** The entry of the chat history for a stored chat. *)
Definition history_entry (chat : Chat.t) : json :=
  JObj (("id", JStr (Oid.toString (Chat._id chat))) :: Chat.fields chat).

Definition newest_chat_first (l : list Chat.t) : Prop :=
  StronglySorted (fun a b => Chat.createdAt b <= Chat.createdAt a) l.

(** A number read in a body, when the key holds one. *)
Definition number_at (key : string) (j : json) : option Z :=
  match field key j with
  | Some (JNum z) => Some z
  | _ => None
  end.

(** The counts of the dashboard and of the statistics route. *)
Definition dashboard_stat (key : string) (now : Z)
  (authorization : option Jwt.token) (db : Db) : option Z :=
  match field "stats" (body (fst (get_dashboard now authorization db))) with
  | Some stats => number_at key stats
  | None => None
  end.

Definition stat (key : string) (now : Z) (authorization : option Jwt.token)
  (db : Db) : option Z :=
  number_at key (body (fst (get_stats now authorization db))).

(** The request carries a token that authMiddleware accepts and whose role
    is faculty. *)
Definition from_faculty (now : Z) (r : request) : bool :=
  match authorization_of r with
  | Some (Some t) =>
      match Jwt.verify t now with
      | Some user => String.eqb (Jwt.role user) "faculty"
      | None => false
      end
  | _ => false
  end.

(** What the User schema asks of a Register body beyond the presence of
    its four fields: a name and an address that are not white space only,
    a role of the enumeration, a semester that parses when there is one. *)
Definition schema_accepts (b : RegisterBody.t) : bool :=
  match RegisterBody.name b, RegisterBody.email b, RegisterBody.role b with
  | Some name, Some e, Some role =>
      Js.truthy (Js.trim name)
      && Js.truthy (Js.trim (Js.toLowerCase e))
      && Mongoose.enum MU.roles role
      && match (if Js.truthy_opt (RegisterBody.semester b)
                then Js.parseInt_opt (RegisterBody.semester b)
                else Js.Num 1) with
         | Js.NaN => false
         | Js.Num _ => true
         end
  | _, _, _ => false
  end.

(** Further requests on the running example. *)
Module Tour.

(** Two pages of one material each. *)
Definition page (p : string) : ListQuery.t :=
  {| ListQuery.department := None; ListQuery.semester := None;
     ListQuery.subject := None; ListQuery.type := None;
     ListQuery.search := None; ListQuery.limit := Some "1";
     ListQuery.page := Some p |}.

(** A token that was never signed by the server. *)
Definition forged : Jwt.token :=
  {| Jwt.payload := Example.faculty_claims; Jwt.iat := 1; Jwt.exp := 604801;
     Jwt.genuine := false |}.

(** A Register body whose name is white space only. *)
Definition blank_name : RegisterBody.t :=
  {| RegisterBody.name := Some "  "; RegisterBody.email := Some "b@x.com";
     RegisterBody.password := Some "pw3"; RegisterBody.role := Some "student";
     RegisterBody.department := None; RegisterBody.semester := None |}.

(** The student has asked the chatbot once. *)
Definition chatted : Db :=
  serve [ (9000, POST_chat (Some Example.student_token) (Some "Any notes?")) ]
Example.one_material.

End Tour.

(** * The primitives on examples *)

Example parseInt_digits : Js.parseInt "  42abc" = Js.Num 42.
Proof. reflexivity. Qed.

Example parseInt_letters : Js.parseInt "abc" = Js.NaN.
Proof. reflexivity. Qed.

Example parseInt_hex : Js.parseInt "-0x1f" = Js.Num (-31).
Proof. reflexivity. Qed.

Example trim_both_ends : Js.trim "  a b  " = "a b".
Proof. reflexivity. Qed.

Example toLowerCase_ascii : Js.toLowerCase "Hello, World" = "hello, world".
Proof. reflexivity. Qed.

Example includes_hi :
  Js.includes "this" "hi" = true /\ Js.includes "this" "hey" = false.
Proof. split; reflexivity. Qed.

Example regex_dot : Regex.test_i "m.th" "Math" = Some true.
Proof. reflexivity. Qed.

Example regex_escaped_dot : Regex.test_i "m\.th" "Math" = Some false.
Proof. reflexivity. Qed.

Example regex_outside_fragment : Regex.test_i "c++" "C++ notes" = None.
Proof. reflexivity. Qed.

Example chat_priority :
  chat_response "notes for the exam" = answer_notes
  /\ chat_response "this is it" = answer_greeting.
Proof. split; reflexivity. Qed.

(** * Lemmas on the store *)

Lemma to_hex_uint_nonnil (n : nat) : Nat.to_hex_uint n <> Hexadecimal.Nil.
Proof.
  rewrite <- (HexadecimalNat.Unsigned.of_to n) at 1.
  rewrite HexadecimalNat.Unsigned.to_of.
  apply HexadecimalFacts.unorm_nonnil.
Qed.

Lemma Oid_toString_inj (a b : ObjectId) :
  Oid.toString a = Oid.toString b -> a = b.
Proof.
  unfold Oid.toString. intros H.
  apply HexadecimalNat.Unsigned.to_uint_inj.
  pose proof (HexadecimalString.NilZero.usu _ (to_hex_uint_nonnil a)) as Ha.
  pose proof (HexadecimalString.NilZero.usu _ (to_hex_uint_nonnil b)) as Hb.
  rewrite H in Ha. congruence.
Qed.

Lemma same_id_eqb (u l : ObjectId) : same_id u l = Nat.eqb u l.
Proof.
  unfold same_id.
  destruct (String.eqb_spec (Oid.toString l) (Oid.toString u)) as [E | E];
    destruct (Nat.eqb_spec u l) as [F | F]; try reflexivity.
  - apply Oid_toString_inj in E. congruence.
  - subst. congruence.
Qed.

Lemma existsb_same_id (u : ObjectId) (l : list ObjectId) :
  existsb (same_id u) l = existsb (Nat.eqb u) l.
Proof.
  induction l as [| x l IH]; simpl; [reflexivity |].
  now rewrite same_id_eqb, IH.
Qed.

Lemma existsb_eqb_In (u : ObjectId) (l : list ObjectId) :
  existsb (Nat.eqb u) l = true <-> In u l.
Proof.
  rewrite existsb_exists. split.
  - intros [x [Hin Hx]]. apply Nat.eqb_eq in Hx. now subst.
  - intros Hin. exists u. split; [assumption | apply Nat.eqb_refl].
Qed.

(** ** findById, save, findByIdAndDelete *)

Lemma findById_id (i : ObjectId) (c : list Material.t) (m : Material.t) :
  MM.findById i c = Some m -> Material._id m = i.
Proof.
  unfold MM.findById. intros H. apply find_some in H.
  destruct H as [_ H]. now apply Nat.eqb_eq in H.
Qed.

Lemma findById_In (i : ObjectId) (c : list Material.t) (m : Material.t) :
  MM.findById i c = Some m -> In i (ids c).
Proof.
  intros H. pose proof (findById_id _ _ _ H) as Hid.
  apply find_some in H. destruct H as [H _].
  subst i. unfold ids. now apply in_map.
Qed.

Lemma findById_None (i : ObjectId) (c : list Material.t) :
  MM.findById i c = None <-> ~ In i (ids c).
Proof.
  unfold MM.findById, ids. induction c as [| x c IH]; simpl.
  - split; [intros _ [] | reflexivity].
  - destruct (Nat.eqb_spec (Material._id x) i) as [E | E].
    + split; [discriminate | intros H; exfalso; apply H; now left].
    + rewrite IH. split.
      * intros H [F | F]; [now apply E | now apply H].
      * intros H F. apply H. now right.
Qed.

Lemma findById_app (i : ObjectId) (c : list Material.t) (m : Material.t) :
  MM.findById i (c ++ [m]) =
  match MM.findById i c with
  | Some x => Some x
  | None => if Nat.eqb (Material._id m) i then Some m else None
  end.
Proof.
  unfold MM.findById. induction c as [| x c IH]; simpl.
  - reflexivity.
  - destruct (Nat.eqb (Material._id x) i); [reflexivity | exact IH].
Qed.

Lemma ids_save (now : Z) (m : Material.t) (c : list Material.t) :
  ids (MM.save now m c) = ids c.
Proof.
  unfold ids. induction c as [| x c IH]; simpl; [reflexivity |].
  destruct (Nat.eqb_spec (Material._id x) (Material._id m)) as [E | E]; simpl.
  - now rewrite E.
  - now rewrite IH.
Qed.

Lemma findById_save_same (now : Z) (m m' : Material.t) (c : list Material.t) :
  MM.findById (Material._id m') c = Some m ->
  MM.findById (Material._id m') (MM.save now m' c)
  = Some (Material.set_updatedAt now m').
Proof.
  unfold MM.findById. induction c as [| x c IH]; simpl; [discriminate |].
  destruct (Nat.eqb_spec (Material._id x) (Material._id m')) as [E | E]; simpl.
  - intros _. now rewrite Nat.eqb_refl.
  - intros H. destruct (Nat.eqb_spec (Material._id x) (Material._id m'));
      [contradiction | now apply IH].
Qed.

Lemma findById_save_found (now : Z) (i : ObjectId) (m m' : Material.t)
  (c : list Material.t) :
  MM.findById i c = Some m -> Material._id m' = i ->
  MM.findById i (MM.save now m' c) = Some (Material.set_updatedAt now m').
Proof.
  intros H <-. now apply (findById_save_same now m).
Qed.

Lemma findById_save_other (now : Z) (j : ObjectId) (m' : Material.t)
  (c : list Material.t) :
  j <> Material._id m' ->
  MM.findById j (MM.save now m' c) = MM.findById j c.
Proof.
  unfold MM.findById. intros Hj. induction c as [| x c IH]; simpl; [reflexivity |].
  destruct (Nat.eqb_spec (Material._id x) (Material._id m')) as [E | E]; simpl.
  - destruct (Nat.eqb_spec (Material._id m') j) as [F | F]; [congruence |].
    destruct (Nat.eqb_spec (Material._id x) j); [congruence | reflexivity].
  - destruct (Nat.eqb (Material._id x) j); [reflexivity | exact IH].
Qed.

Lemma delete_incl (i j : ObjectId) (c : list Material.t) :
  In j (ids (MM.findByIdAndDelete i c)) -> In j (ids c).
Proof.
  unfold ids. induction c as [| x c IH]; simpl; [tauto |].
  destruct (Nat.eqb (Material._id x) i); simpl; tauto.
Qed.

Lemma delete_NoDup (i : ObjectId) (c : list Material.t) :
  NoDup (ids c) -> NoDup (ids (MM.findByIdAndDelete i c)).
Proof.
  unfold ids. induction c as [| x c IH]; simpl; intros H; [constructor |].
  inversion H as [| ? ? Hx Hc]; subst.
  destruct (Nat.eqb (Material._id x) i); simpl; [assumption |].
  constructor; [| now apply IH].
  intros F. apply Hx. now apply (delete_incl i).
Qed.

Lemma findById_delete_same (i : ObjectId) (c : list Material.t) :
  NoDup (ids c) -> MM.findById i (MM.findByIdAndDelete i c) = None.
Proof.
  unfold ids, MM.findById. induction c as [| x c IH]; simpl; intros H;
    [reflexivity |].
  inversion H as [| ? ? Hx Hc]; subst.
  destruct (Nat.eqb_spec (Material._id x) i) as [E | E]; simpl.
  - apply findById_None. now rewrite <- E.
  - destruct (Nat.eqb_spec (Material._id x) i); [contradiction | now apply IH].
Qed.

Lemma findById_delete_other (i j : ObjectId) (c : list Material.t) :
  j <> i -> MM.findById j (MM.findByIdAndDelete i c) = MM.findById j c.
Proof.
  unfold MM.findById. intros Hj. induction c as [| x c IH]; simpl; [reflexivity |].
  destruct (Nat.eqb_spec (Material._id x) i) as [E | E]; simpl.
  - destruct (Nat.eqb_spec (Material._id x) j); [congruence | reflexivity].
  - destruct (Nat.eqb (Material._id x) j); [reflexivity | exact IH].
Qed.

(** ** findIndex and splice *)

Lemma findIndex_spec {A : Type} (p : A -> bool) (l : list A) :
  (existsb p l = false /\ findIndex p l = -1)
  \/ (exists a x b, l = (a ++ x :: b)%list /\ p x = true
        /\ existsb p a = false /\ findIndex p l = Z.of_nat (List.length a)).
Proof.
  induction l as [| y l IH]; simpl.
  - left. split; reflexivity.
  - destruct (p y) eqn:Py.
    + right. exists [], y, l. repeat split; assumption.
    + destruct IH as [[He Hi] | (a & x & b & -> & Px & Ha & Hi)].
      * left. rewrite He, Hi. split; reflexivity.
      * right. exists (y :: a), x, b. simpl. rewrite Py, Ha, Hi.
        repeat split; try assumption.
        destruct (Z.ltb_spec (Z.of_nat (List.length a)) 0); lia.
Qed.

Lemma splice1_middle {A : Type} (a b : list A) (x : A) :
  splice1 (Z.of_nat (List.length a)) (a ++ x :: b) = (a ++ b)%list.
Proof.
  unfold splice1. rewrite Nat2Z.id.
  induction a as [| y a IH]; simpl; [reflexivity |].
  f_equal. exact IH.
Qed.

Lemma existsb_eqb_false (u : ObjectId) (l : list ObjectId) :
  existsb (Nat.eqb u) l = false <-> ~ In u l.
Proof.
  rewrite <- existsb_eqb_In. destruct (existsb (Nat.eqb u) l); split;
    congruence.
Qed.

(** Toggling a user who is not in the array appends the user. *)
Lemma toggled_absent (u : ObjectId) (l : list ObjectId) :
  ~ In u l -> toggled u l = (l ++ [u])%list.
Proof.
  intros H. apply existsb_eqb_false in H. rewrite <- existsb_same_id in H.
  unfold toggled.
  destruct (findIndex_spec (same_id u) l) as [[_ Hi] | (a & x & b & _ & _ & _ & Hi)].
  - rewrite Hi. reflexivity.
  - exfalso.
    destruct (findIndex_spec (same_id u) l) as [[He' Hi'] | (a' & x' & b' & -> & Px & _ & _)].
    + lia.
    + rewrite existsb_app in H. simpl in H. rewrite Px in H.
      rewrite orb_true_r in H. discriminate.
Qed.

(** Toggling a user who is in the array removes the first occurrence. *)
Lemma toggled_present (u : ObjectId) (l : list ObjectId) :
  In u l ->
  exists a b, l = (a ++ u :: b)%list /\ ~ In u a /\ toggled u l = (a ++ b)%list.
Proof.
  intros H. apply existsb_eqb_In in H. rewrite <- existsb_same_id in H.
  unfold toggled.
  destruct (findIndex_spec (same_id u) l) as [[He _] | (a & x & b & -> & Px & Ha & Hi)].
  - congruence.
  - rewrite Hi. rewrite same_id_eqb in Px. apply Nat.eqb_eq in Px. subst x.
    exists a, b. repeat split.
    + apply existsb_eqb_false. now rewrite <- existsb_same_id.
    + destruct (Z.ltb_spec (-1) (Z.of_nat (List.length a))); [| lia].
      apply splice1_middle.
Qed.

(** Toggling twice: the array is back, up to the position of the user. *)
Lemma toggled_twice (u : ObjectId) (l : list ObjectId) :
  NoDup l ->
  Permutation (toggled u (toggled u l)) l
  /\ (~ In u l -> toggled u (toggled u l) = l).
Proof.
  intros Hnd. destruct (in_dec Nat.eq_dec u l) as [Hin | Hout].
  - split; [| contradiction].
    destruct (toggled_present u l Hin) as (a & b & -> & Ha & ->).
    apply NoDup_remove_2 in Hnd.
    rewrite (toggled_absent u (a ++ b) Hnd).
    rewrite <- app_assoc. apply Permutation_app_head.
    apply Permutation_sym, Permutation_cons_append.
  - assert (E : toggled u (toggled u l) = l).
    { rewrite (toggled_absent u l Hout).
      destruct (toggled_present u (l ++ [u])) as (a & b & Heq & Ha & ->).
      { apply in_or_app. right. now left. }
      assert (Hb : b = [] /\ a = l).
      { destruct b as [| y b].
        - apply app_inj_tail in Heq. destruct Heq as [-> _]. now split.
        - exfalso. change (u :: y :: b) with ([u] ++ y :: b)%list in Heq.
          rewrite app_assoc in Heq.
          destruct (exists_last (l := y :: b)) as (b' & z & Hz); [discriminate |].
          rewrite Hz, app_assoc in Heq.
          apply app_inj_tail in Heq. destruct Heq as [Heq _].
          apply Hout. rewrite Heq. apply in_or_app. left.
          apply in_or_app. right. now left. }
      destruct Hb as [-> ->]. apply app_nil_r. }
    split; [rewrite E; apply Permutation_refl | intros _; exact E].
Qed.

(** Toggling keeps the likes free of duplicates. *)
Lemma toggled_NoDup (u : ObjectId) (l : list ObjectId) :
  NoDup l -> NoDup (toggled u l).
Proof.
  intros Hnd. destruct (in_dec Nat.eq_dec u l) as [Hin | Hout].
  - destruct (toggled_present u l Hin) as (a & b & -> & _ & ->).
    now apply NoDup_remove_1 in Hnd.
  - rewrite (toggled_absent u l Hout).
    apply NoDup_app; [assumption | repeat constructor; simpl; tauto |].
    intros x Hx [<- | []]. contradiction.
Qed.

Lemma toggled_unfold (u : ObjectId) (l : list ObjectId) :
  (if -1 <? findIndex (same_id u) l
   then splice1 (findIndex (same_id u) l) l
   else push l u) = toggled u l.
Proof. reflexivity. Qed.

(** ** Every request is a step on the materials collection *)

Ltac break_goal :=
  match goal with
  | |- context [match ?x with _ => _ end] => destruct x eqn:?
  end.

(** A leaf of a handler: either a success, which is no refusal, or one of
    the fixed error texts. *)
Ltac refused :=
  first [ intros F; exfalso; apply F; simpl; lia
        | intros _; eexists; split; [| reflexivity];
          unfold refusals; simpl;
          repeat (first [left; reflexivity | right]) ].

Ltac break_hyp H :=
  match type of H with
  | context [match ?x with _ => _ end] => destruct x eqn:?
  end.

Lemma create_material_inv (now : Z) (i : ObjectId) (d : MM.doc)
  (c c' : list Material.t) (m : Material.t) :
  MM.create now i d c = Mongoose.Ok (m, c') ->
  c' = (c ++ [m])%list /\ Material._id m = i
  /\ Material.downloads m = MM.downloads d
  /\ Material.likes m = MM.likes d
  /\ Material.createdAt m = now.
Proof.
  unfold MM.create. intros H.
  repeat (break_hyp H; try discriminate).
  all: injection H as <- <-; simpl; repeat split; reflexivity.
Qed.

Lemma chain_step {A : Type} (s : stage A) (db : Db) (k : A -> response * Db) :
  (forall a, material_step db (snd (k a))) ->
  material_step db (snd (chain s db k)).
Proof.
  intros H. destruct s as [r | a]; simpl; [| apply H].
  apply step_same; [reflexivity | apply Nat.le_refl].
Qed.

Lemma step_refl (db : Db) : material_step db db.
Proof. apply step_same; [reflexivity | apply Nat.le_refl]. Qed.

Lemma handle_step (now : Z) (r : request) (db : Db) :
  material_step db (snd (handle now r db)).
Proof.
  destruct r as [| salt b | b | tok | tok f b | tok q | tok i | tok i | tok i
                 | tok i | tok msg | tok | tok | tok];
    simpl; try apply step_refl.
  - (* register *)
    unfold post_auth_register.
    repeat (break_goal; simpl; try apply step_refl).
    all: apply step_same; simpl; [reflexivity | apply Nat.le_succ_diag_r].
  - (* login *)
    unfold post_auth_login.
    repeat (break_goal; simpl; try apply step_refl).
  - unfold get_auth_me. apply chain_step. intros a.
    break_goal; apply step_refl.
  - (* upload *)
    unfold post_materials.
    apply chain_step; intros a. apply chain_step; intros _.
    apply chain_step; intros rf.
    destruct rf as [[filename rf] |]; [| apply step_refl].
    destruct (MM.create _ _ _ _) as [[m c'] | e] eqn:E; [| apply step_refl].
    apply create_material_inv in E. destruct E as (-> & Hid & _ & Hl & _).
    now apply (step_create _ _ m).
  - unfold get_material. apply chain_step. intros a.
    break_goal; apply step_refl.
  - (* like *)
    unfold post_material_like. apply chain_step. intros a.
    destruct (MM.findById i (Materials db)) as [m |] eqn:E; [| apply step_refl].
    pose proof (findById_id _ _ _ E) as Hid. subst i.
    eapply (step_save _ _ now m).
    5: simpl; reflexivity.
    all: simpl; try reflexivity; try assumption; try lia.
    rewrite toggled_unfold. apply toggled_NoDup.
  - (* download *)
    unfold post_material_download. apply chain_step. intros a.
    destruct (MM.findById i (Materials db)) as [m |] eqn:E; [| apply step_refl].
    pose proof (findById_id _ _ _ E) as Hid. subst i.
    eapply (step_save _ _ now m).
    5: simpl; reflexivity.
    all: simpl; try reflexivity; try assumption; try tauto.
    destruct (Material.downloads m =? 0) eqn:Z0; [apply Z.eqb_eq in Z0 |]; lia.
  - (* delete *)
    unfold delete_material. apply chain_step; intros a.
    apply chain_step; intros _.
    break_goal; [| apply step_refl].
    now apply (step_delete _ _ i).
  - (* chat *)
    unfold post_chat. apply chain_step; intros a.
    repeat (break_goal; simpl; try apply step_refl).
    all: apply step_same; simpl; [reflexivity | apply Nat.le_succ_diag_r].
  - unfold get_chat_history. apply chain_step; intros a. apply step_refl.
  - unfold get_dashboard. apply chain_step; intros a. apply step_refl.
  - unfold get_stats. apply chain_step; intros a. apply step_refl.
Qed.

Lemma step_wf (db db' : Db) : wf db -> material_step db db' -> wf db'.
Proof.
  intros [Hnd Hfr] Hstep. unfold wf.
  destruct Hstep as [Hm Hf | now m m' Hfind Hid Hd Hl Hm Hf | i Hm Hf | m Hm Hid Hl Hf];
    rewrite Hm.
  - split; [assumption |].
    eapply Forall_impl; [| exact Hfr]. simpl. intros. lia.
  - rewrite ids_save, Hf. now split.
  - split; [now apply delete_NoDup |].
    rewrite Hf. apply Forall_forall. intros j Hj.
    apply delete_incl in Hj. rewrite Forall_forall in Hfr. now apply Hfr.
  - unfold ids in *. rewrite map_app. simpl. rewrite Hid, Hf. split.
    + apply NoDup_app; [assumption | repeat constructor; simpl; tauto |].
      intros j Hj [F | []]. subst j.
      rewrite Forall_forall in Hfr. apply Hfr in Hj. lia.
    + apply Forall_app. split.
      * eapply Forall_impl; [| exact Hfr]. simpl. intros. lia.
      * repeat constructor.
Qed.

Lemma step_fresh (db db' : Db) :
  material_step db db' -> (fresh db <= fresh db')%nat.
Proof.
  intros [Hm Hf | now m m' Hfind Hid Hd Hl Hm Hf | i Hm Hf | m Hm Hid Hl Hf]; lia.
Qed.

(** An identifier already handed out and not in the collection stays out. *)
Lemma step_absent (db db' : Db) (i : ObjectId) :
  material_step db db' -> (i < fresh db)%nat ->
  MM.findById i (Materials db) = None ->
  MM.findById i (Materials db') = None.
Proof.
  intros Hstep Hi Hnone.
  destruct Hstep as [Hm Hf | now m m' Hfind Hid Hd Hl Hm Hf | j Hm Hf | m Hm Hid Hl Hf];
    rewrite Hm.
  - assumption.
  - destruct (Nat.eq_dec i (Material._id m')) as [E | E].
    + rewrite E, Hid in Hnone. congruence.
    + now rewrite findById_save_other.
  - apply findById_None. intros F. apply delete_incl in F.
    now apply findById_None in Hnone.
  - rewrite findById_app, Hnone.
    destruct (Nat.eqb_spec (Material._id m) i); [lia | reflexivity].
Qed.

(** A material that survives a request has not lost downloads. *)
Lemma step_downloads (db db' : Db) (i : ObjectId) (m m' : Material.t) :
  wf db -> material_step db db' ->
  MM.findById i (Materials db) = Some m ->
  MM.findById i (Materials db') = Some m' ->
  Material.downloads m <= Material.downloads m'.
Proof.
  intros [Hnd Hfr] Hstep Hm Hm'.
  destruct Hstep as [Hmat Hf | now x x' Hfind Hid Hd Hl Hmat Hf | j Hmat Hf | x Hmat Hid Hl Hf];
    rewrite Hmat in Hm'.
  - assert (m' = m) by congruence. subst. lia.
  - destruct (Nat.eq_dec i (Material._id x')) as [E | E].
    + subst i. rewrite (findById_save_same now m x' _ Hm) in Hm'.
      injection Hm' as <-. simpl.
      rewrite Hid in Hm. assert (x = m) by congruence. now subst.
    + rewrite findById_save_other in Hm' by assumption.
      assert (m' = m) by congruence. subst. lia.
  - destruct (Nat.eq_dec i j) as [E | E].
    + subst j. rewrite findById_delete_same in Hm' by assumption. discriminate.
    + rewrite findById_delete_other in Hm' by assumption.
      assert (m' = m) by congruence. subst. lia.
  - rewrite findById_app, Hm in Hm'.
    assert (m' = m) by congruence. subst. lia.
Qed.

Lemma serve_wf (rs : list (Z * request)) (db : Db) : wf db -> wf (serve rs db).
Proof.
  revert db. induction rs as [| [now r] rs IH]; simpl; intros db H; [assumption |].
  apply IH. eapply step_wf; [exact H | apply handle_step].
Qed.

Lemma serve_fresh (rs : list (Z * request)) (db : Db) :
  (fresh db <= fresh (serve rs db))%nat.
Proof.
  revert db. induction rs as [| [now r] rs IH]; simpl; intros db; [lia |].
  pose proof (step_fresh _ _ (handle_step now r db)). specialize (IH (snd (handle now r db))). lia.
Qed.

Lemma serve_absent (rs : list (Z * request)) (db : Db) (i : ObjectId) :
  (i < fresh db)%nat ->
  MM.findById i (Materials db) = None ->
  MM.findById i (Materials (serve rs db)) = None.
Proof.
  revert db. induction rs as [| [now r] rs IH]; simpl; intros db Hi H;
    [assumption |].
  pose proof (handle_step now r db) as Hstep.
  apply IH.
  - pose proof (step_fresh _ _ Hstep). lia.
  - now apply (step_absent db).
Qed.

Lemma serve_downloads (rs : list (Z * request)) (db : Db) (i : ObjectId)
  (m m' : Material.t) :
  wf db ->
  MM.findById i (Materials db) = Some m ->
  MM.findById i (Materials (serve rs db)) = Some m' ->
  Material.downloads m <= Material.downloads m'.
Proof.
  revert db m. induction rs as [| [now r] rs IH]; simpl; intros db m Hwf Hm Hm'.
  - assert (m' = m) by congruence. subst. lia.
  - pose proof (handle_step now r db) as Hstep.
    destruct (MM.findById i (Materials (snd (handle now r db)))) as [m1 |] eqn:E.
    + pose proof (step_downloads _ _ _ _ _ Hwf Hstep Hm E).
      pose proof (IH _ m1 (step_wf _ _ Hwf Hstep) E Hm'). lia.
    + assert (Hi : (i < fresh (snd (handle now r db)))%nat).
      { destruct Hwf as [_ Hfr]. rewrite Forall_forall in Hfr.
        pose proof (Hfr _ (findById_In _ _ _ Hm)).
        pose proof (step_fresh _ _ Hstep). lia. }
      rewrite (serve_absent rs _ i Hi E) in Hm'. discriminate.
Qed.

(** ** The invariants hold in every state the server reaches *)

Lemma save_Forall (P : Material.t -> Prop) (now : Z) (m m' : Material.t)
  (c : list Material.t) :
  MM.findById (Material._id m') c = Some m ->
  (P m -> P (Material.set_updatedAt now m')) ->
  Forall P c -> Forall P (MM.save now m' c).
Proof.
  unfold MM.findById. intros Hm Hp Hall.
  induction c as [| x c IH]; simpl in *; [constructor |].
  inversion Hall as [| ? ? Hx Hc]; subst.
  destruct (Nat.eqb (Material._id x) (Material._id m')).
  - injection Hm as <-. constructor; [now apply Hp | assumption].
  - constructor; [assumption | now apply IH].
Qed.

Lemma delete_Forall (P : Material.t -> Prop) (i : ObjectId)
  (c : list Material.t) :
  Forall P c -> Forall P (MM.findByIdAndDelete i c).
Proof.
  induction c as [| x c IH]; simpl; intros H; [constructor |].
  inversion H; subst.
  destruct (Nat.eqb (Material._id x) i); [assumption |].
  constructor; [assumption | now apply IH].
Qed.

Lemma step_likes (db db' : Db) :
  likes_nodup db -> material_step db db' -> likes_nodup db'.
Proof.
  unfold likes_nodup. intros H Hstep.
  destruct Hstep as [Hm Hf | now m m' Hfind Hid Hd Hl Hm Hf | i Hm Hf | m Hm Hid Hl Hf];
    rewrite Hm.
  - assumption.
  - rewrite <- Hid in Hfind.
    apply (save_Forall _ now m m' _ Hfind); [exact Hl | assumption].
  - now apply delete_Forall.
  - apply Forall_app. split; [assumption |].
    constructor; [rewrite Hl; constructor | constructor].
Qed.

Lemma serve_likes (rs : list (Z * request)) (db : Db) :
  likes_nodup db -> likes_nodup (serve rs db).
Proof.
  revert db. induction rs as [| [now r] rs IH]; simpl; intros db H; [assumption |].
  apply IH. eapply step_likes; [exact H | apply handle_step].
Qed.

(** From the empty store, the server only reaches states in which _id is
    unique and fresh, and no likes array holds a user twice. *)
Lemma reachable_invariants (rs : list (Z * request)) :
  wf (serve rs empty_db) /\ likes_nodup (serve rs empty_db).
Proof.
  split.
  - apply serve_wf. split; constructor.
  - apply serve_likes. constructor.
Qed.

(** ** The download and like routes on an existing material *)

Lemma num_or_zero (d : Z) : Js.num_or (Js.Num d) 0 = d.
Proof.
  unfold Js.num_or. destruct (Z.eqb_spec d 0); congruence.
Qed.

Lemma download_found (now : Z) (authorization : option Jwt.token)
  (user : Jwt.claims) (id : ObjectId) (db : Db) (m : Material.t) :
  authenticated now authorization user ->
  MM.findById id (Materials db) = Some m ->
  post_material_download now authorization id db =
  (reply 200 (JObj [ ("message", JStr "Download count updated");
                     ("downloads", JNum (Material.downloads m + 1)) ]),
   with_materials
     (MM.save now (Material.set_downloads (Material.downloads m + 1) m)
        (Materials db)) db).
Proof.
  intros Hauth Hm. unfold post_material_download.
  rewrite Hauth. unfold chain. rewrite Hm, num_or_zero. reflexivity.
Qed.

Lemma like_found (now : Z) (authorization : option Jwt.token)
  (user : Jwt.claims) (id : ObjectId) (db : Db) (m : Material.t) :
  authenticated now authorization user ->
  MM.findById id (Materials db) = Some m ->
  post_material_like now authorization id db =
  (reply 200 (like_body (Jwt.userId user)
                (toggled (Jwt.userId user) (Material.likes m))),
   with_materials
     (MM.save now
        (Material.set_likes (toggled (Jwt.userId user) (Material.likes m)) m)
        (Materials db)) db).
Proof.
  intros Hauth Hm. unfold post_material_like.
  rewrite Hauth. unfold chain. rewrite Hm.
  unfold like_body, toggled. cbn [Material.likes Material.set_likes].
  now rewrite existsb_same_id.
Qed.

Lemma delete_found (now : Z) (authorization : option Jwt.token)
  (user : Jwt.claims) (id : ObjectId) (db : Db) (m : Material.t) :
  authenticated now authorization user ->
  Jwt.role user = "faculty" ->
  MM.findById id (Materials db) = Some m ->
  delete_material now authorization id db =
  (reply 200 (JObj [("message", JStr "Material deleted successfully")]),
   with_materials (MM.findByIdAndDelete id (Materials db)) db).
Proof.
  intros Hauth Hrole Hm. unfold delete_material.
  rewrite Hauth. unfold chain, facultyOnly. rewrite Hrole, Hm. reflexivity.
Qed.

(** * Lemmas on strings *)

Ltac ascii_cases c := destruct c as [[] [] [] [] [] [] [] []].

Lemma lower_char_idem (c : ascii) :
  Js.lower_char (Js.lower_char c) = Js.lower_char c.
Proof. ascii_cases c; reflexivity. Qed.

Lemma is_space_lower_char (c : ascii) :
  Js.is_space (Js.lower_char c) = Js.is_space c.
Proof. ascii_cases c; reflexivity. Qed.

Lemma toLowerCase_idem (s : string) :
  Js.toLowerCase (Js.toLowerCase s) = Js.toLowerCase s.
Proof.
  induction s as [| c s IH]; simpl; [reflexivity |].
  now rewrite lower_char_idem, IH.
Qed.

Lemma toLowerCase_app (a b : string) :
  Js.toLowerCase (a ++ b) = Js.toLowerCase a ++ Js.toLowerCase b.
Proof.
  induction a as [| c a IH]; simpl; [reflexivity | now rewrite IH].
Qed.

Lemma toLowerCase_trimStart (s : string) :
  Js.toLowerCase (Js.trimStart s) = Js.trimStart (Js.toLowerCase s).
Proof.
  induction s as [| c s IH]; simpl; [reflexivity |].
  rewrite is_space_lower_char. destruct (Js.is_space c); [exact IH | reflexivity].
Qed.

Lemma toLowerCase_trimEnd (s : string) :
  Js.toLowerCase (Js.trimEnd s) = Js.trimEnd (Js.toLowerCase s).
Proof.
  induction s as [| c s IH]; simpl; [reflexivity |].
  rewrite <- IH, is_space_lower_char.
  destruct (Js.trimEnd s); simpl; [| reflexivity].
  destruct (Js.is_space c); reflexivity.
Qed.

Lemma toLowerCase_trim (s : string) :
  Js.toLowerCase (Js.trim s) = Js.trim (Js.toLowerCase s).
Proof.
  unfold Js.trim. now rewrite toLowerCase_trimEnd, toLowerCase_trimStart.
Qed.

Lemma trimEnd_idem (s : string) : Js.trimEnd (Js.trimEnd s) = Js.trimEnd s.
Proof.
  induction s as [| c s IH]; simpl; [reflexivity |].
  destruct (Js.trimEnd s) as [| d r] eqn:E.
  - destruct (Js.is_space c) eqn:Sp; simpl; [reflexivity | now rewrite Sp].
  - simpl in IH. simpl. destruct (Js.trimEnd r) as [| d' r'] eqn:E'.
    + destruct (Js.is_space d); [discriminate | now rewrite IH].
    + now rewrite IH.
Qed.

(** A left-trimmed string is empty or begins with a visible character. *)
Lemma trimStart_head (s : string) :
  match Js.trimStart s with
  | EmptyString => True
  | String c _ => Js.is_space c = false
  end.
Proof.
  induction s as [| c s IH]; simpl; [exact I |].
  destruct (Js.is_space c) eqn:Sp; [exact IH | exact Sp].
Qed.

Lemma trimStart_visible (c : ascii) (s : string) :
  Js.is_space c = false -> Js.trimStart (Js.trimEnd (String c s)) = Js.trimEnd (String c s).
Proof.
  intros Sp. simpl.
  destruct (Js.trimEnd s); rewrite ?Sp; simpl; rewrite Sp; reflexivity.
Qed.

Lemma trim_idem (s : string) : Js.trim (Js.trim s) = Js.trim s.
Proof.
  unfold Js.trim. pose proof (trimStart_head s) as H.
  destruct (Js.trimStart s) as [| c r]; [reflexivity |].
  rewrite (trimStart_visible c r H). apply trimEnd_idem.
Qed.

(** The normal form of an email address: lower case, trimmed. *)
Lemma normalise_idem (e : string) :
  Js.trim (Js.toLowerCase (Js.trim (Js.toLowerCase e)))
  = Js.trim (Js.toLowerCase e).
Proof.
  now rewrite toLowerCase_trim, toLowerCase_idem, trim_idem.
Qed.

(** ** includes is the substring relation *)

Lemma prefix_spec (p s : string) :
  prefix p s = true <-> exists b, s = p ++ b.
Proof.
  revert s. induction p as [| c p IH]; intros s; simpl.
  - split; [intros _; now exists s | intros _; destruct s; reflexivity].
  - destruct s as [| d s]; simpl.
    + split; [discriminate | intros [b Hb]; discriminate].
    + destruct (ascii_dec c d) as [-> | Hne].
      * rewrite IH. split; intros [b Hb]; exists b; congruence.
      * split; [discriminate | intros [b Hb]; congruence].
Qed.

Lemma includes_eq (s sub : string) :
  Js.includes s sub =
  if prefix sub s then true
  else match s with
       | EmptyString => false
       | String _ r => Js.includes r sub
       end.
Proof. destruct s; reflexivity. Qed.

Lemma includes_spec (s sub : string) :
  Js.includes s sub = true <-> exists a b, s = a ++ sub ++ b.
Proof.
  induction s as [| c s IH]; rewrite includes_eq.
  - destruct (prefix sub EmptyString) eqn:P.
    + apply prefix_spec in P. destruct P as [b Hb].
      split; [intros _; now exists EmptyString, b | reflexivity].
    + split; [discriminate |].
      intros (a & b & H). destruct a; simpl in H.
      * assert (prefix sub EmptyString = true) by (apply prefix_spec; now exists b).
        congruence.
      * discriminate.
  - destruct (prefix sub (String c s)) eqn:P.
    + apply prefix_spec in P. destruct P as [b Hb].
      split; [intros _; now exists EmptyString, b | reflexivity].
    + rewrite IH. split.
      * intros (a & b & ->). now exists (String c a), b.
      * intros (a & b & H). destruct a as [| d a]; simpl in H.
        -- assert (prefix sub (String c s) = true)
             by (apply prefix_spec; now exists b).
           congruence.
        -- injection H as _ ->. now exists a, b.
Qed.

Lemma string_app_assoc (a b c : string) : (a ++ b) ++ c = a ++ b ++ c.
Proof.
  induction a as [| x a IH]; simpl; [reflexivity | now rewrite IH].
Qed.

(** A text that includes a phrase includes every tail of the phrase. *)
Lemma includes_tail (s p q : string) :
  Js.includes s (p ++ q) = true -> Js.includes s q = true.
Proof.
  rewrite !includes_spec. intros (a & b & ->).
  exists (a ++ p), b. now rewrite !string_app_assoc.
Qed.

(** * Lemmas on the users collection *)

Lemma create_user_inv (now : Z) (i : ObjectId) (d : MU.doc)
  (c c' : list User.t) (u : User.t) :
  MU.create now i d c = Mongoose.Ok (u, c') ->
  c' = (c ++ [u])%list
  /\ User.email u = Js.trim (Js.toLowerCase (MU.email d))
  /\ User._id u = i.
Proof.
  unfold MU.create. intros H.
  repeat (break_hyp H; try discriminate).
  injection H as <- <-. simpl. repeat split; reflexivity.
Qed.

Lemma findOne_email_app (e : string) (c extra : list User.t) (u : User.t) :
  MU.findOne_email e c = Some u -> MU.findOne_email e (c ++ extra) = Some u.
Proof.
  unfold MU.findOne_email. induction c as [| x c IH]; simpl; [discriminate |].
  destruct (String.eqb (User.email x) e); [easy | exact IH].
Qed.

Lemma findOne_email_last (c : list User.t) (u : User.t) :
  exists v, MU.findOne_email (User.email u) (c ++ [u]) = Some v.
Proof.
  unfold MU.findOne_email. induction c as [| x c IH]; simpl.
  - rewrite String.eqb_refl. now exists u.
  - destruct (String.eqb (User.email x) (User.email u)); [now exists x | exact IH].
Qed.

(** A registration answered 201 has stored a user under the normal form
    of the address it was given. *)
Lemma register_created (now : Z) (salt : string) (b : RegisterBody.t) (db : Db) :
  status (fst (post_auth_register now salt b db)) = 201 ->
  exists e u,
    present (RegisterBody.email b) = Some e
    /\ User.email u = Js.trim (Js.toLowerCase e)
    /\ Users (snd (post_auth_register now salt b db)) = (Users db ++ [u])%list.
Proof.
  unfold post_auth_register. intros H.
  repeat (break_hyp H; simpl in H; try discriminate).
  match goal with
  | E : MU.create _ _ _ _ = Mongoose.Ok _ |- _ =>
      apply create_user_inv in E; destruct E as (-> & Hemail & _)
  end.
  simpl in Hemail. rewrite normalise_idem in Hemail.
  eexists _, _. simpl. repeat split; [exact Hemail].
Qed.

Lemma chain_users {A : Type} (s : stage A) (db : Db) (k : A -> response * Db) :
  (forall a, exists extra, Users (snd (k a)) = (Users db ++ extra)%list) ->
  exists extra, Users (snd (chain s db k)) = (Users db ++ extra)%list.
Proof.
  intros H. destruct s as [r | a]; simpl; [| apply H].
  exists []. now rewrite app_nil_r.
Qed.

Ltac users_same := exists []; simpl; now rewrite app_nil_r.

(** No request removes or changes a user. *)
Lemma handle_users (now : Z) (r : request) (db : Db) :
  exists extra, Users (snd (handle now r db)) = (Users db ++ extra)%list.
Proof.
  destruct r as [| salt b | b | tok | tok f b | tok q | tok i | tok i | tok i
                 | tok i | tok msg | tok | tok | tok];
    simpl; try users_same.
  - unfold post_auth_register.
    repeat (break_goal; simpl; try users_same).
    all: match goal with
         | E : MU.create _ _ _ _ = Mongoose.Ok _ |- _ =>
             apply create_user_inv in E; destruct E as (-> & _ & _)
         end; now eexists.
  - unfold post_auth_login. repeat (break_goal; simpl; try users_same).
  - unfold get_auth_me. apply chain_users; intros a.
    break_goal; users_same.
  - unfold post_materials.
    apply chain_users; intros a. apply chain_users; intros _.
    apply chain_users; intros rf.
    repeat (break_goal; simpl; try users_same).
  - unfold get_material. apply chain_users; intros a. break_goal; users_same.
  - unfold post_material_like. apply chain_users; intros a.
    break_goal; users_same.
  - unfold post_material_download. apply chain_users; intros a.
    break_goal; users_same.
  - unfold delete_material. apply chain_users; intros a.
    apply chain_users; intros _. break_goal; users_same.
  - unfold post_chat. apply chain_users; intros a.
    repeat (break_goal; simpl; try users_same).
  - unfold get_chat_history. apply chain_users; intros a. users_same.
  - unfold get_dashboard. apply chain_users; intros a. users_same.
  - unfold get_stats. apply chain_users; intros a. users_same.
Qed.

Lemma serve_users (rs : list (Z * request)) (db : Db) :
  exists extra, Users (serve rs db) = (Users db ++ extra)%list.
Proof.
  revert db. induction rs as [| [now r] rs IH]; intros db; simpl.
  - users_same.
  - destruct (handle_users now r db) as [e1 H1].
    destruct (IH (snd (handle now r db))) as [e2 H2].
    exists (e1 ++ e2)%list. now rewrite H2, H1, app_assoc.
Qed.

(** * Lemmas on the chat responder *)

Lemma existsb_includes (text : string) (keywords : list string) :
  existsb (Js.includes text) keywords = true
  <-> exists keyword, In keyword keywords /\ occurs_in keyword text.
Proof.
  rewrite existsb_exists. split; intros (k & Hin & H); exists k; split;
    try assumption; now apply includes_spec.
Qed.

Lemma select_selects (text : string) (groups : list (list string * string)) :
  selects text groups (select text groups).
Proof.
  induction groups as [| g rest IH]; simpl.
  - constructor.
  - destruct (existsb (Js.includes text) (fst g)) eqn:E.
    + apply selects_here. now apply existsb_includes.
    + apply selects_later; [| exact IH].
      intros H. apply existsb_includes in H. congruence.
Qed.

(** The second test of the download branch never decides. *)
Lemma download_branch (text : string) :
  Js.includes text "download" || Js.includes text "how to download"
  = Js.includes text "download".
Proof.
  destruct (Js.includes text "download") eqn:E; [reflexivity |].
  destruct (Js.includes text "how to download") eqn:F; [| reflexivity].
  apply (includes_tail text "how to " "download") in F. congruence.
Qed.

Lemma chat_response_select (text : string) :
  chat_response text = select text keyword_groups.
Proof.
  unfold chat_response. rewrite download_branch.
  unfold select, keyword_groups. cbn [existsb fst snd].
  rewrite !orb_false_r, !orb_assoc. reflexivity.
Qed.

Lemma chat_response_required (text : string) :
  Mongoose.required (chat_response text) = true.
Proof.
  unfold chat_response. repeat break_goal; reflexivity.
Qed.

Lemma toLowerCase_empty (s : string) :
  Js.toLowerCase s = EmptyString -> s = EmptyString.
Proof. destruct s; [reflexivity | discriminate]. Qed.

Lemma present_some (s : string) : s <> EmptyString -> present (Some s) = Some s.
Proof. destruct s; [congruence | reflexivity]. Qed.

Lemma chat_answered (now : Z) (authorization : option Jwt.token)
  (user : Jwt.claims) (message : string) (db : Db) :
  authenticated now authorization user ->
  message <> EmptyString ->
  post_chat now authorization (Some message) db =
  (reply 200 (JObj [("response", JStr (chat_response (Js.toLowerCase message)))]),
   {| Users := Users db; Materials := Materials db;
      Chats := (Chats db ++
                [ {| Chat._id := fresh db; Chat.userId := Jwt.userId user;
                     Chat.message := message;
                     Chat.response := chat_response (Js.toLowerCase message);
                     Chat.createdAt := now; Chat.updatedAt := now |} ])%list;
      fresh := S (fresh db) |}).
Proof.
  intros Hauth Hmsg. unfold post_chat. rewrite Hauth. unfold chain.
  rewrite (present_some _ Hmsg). unfold Mongoose.Chats.create.
  rewrite chat_response_required.
  destruct message; [congruence | reflexivity].
Qed.

(** * Lemmas on regular expressions and sorting *)

Lemma literal_cons (c : ascii) (s : string) :
  literal (String c s) = negb (Regex.metachar c) && literal s.
Proof. reflexivity. Qed.

Lemma literal_not_special (c : ascii) :
  Regex.metachar c = false ->
  Ascii.eqb c "."%char = false /\ Ascii.eqb c "\"%char = false.
Proof. ascii_cases c; intros H; try discriminate H; split; reflexivity. Qed.

(** A literal pattern compiles to its characters. *)
Lemma compile_literal (p : string) :
  literal p = true ->
  Regex.compile p = Some (map Regex.Lit (list_ascii_of_string p)).
Proof.
  induction p as [| c p IH]; [reflexivity |].
  rewrite literal_cons. intros H. apply andb_prop in H. destruct H as [Hc Hp].
  apply negb_true_iff in Hc.
  destruct (literal_not_special c Hc) as [Hdot Hbs].
  simpl. rewrite Hdot, Hbs, Hc, (IH Hp). reflexivity.
Qed.

Lemma matches_here_literal (p s : string) :
  Regex.matches_here (map Regex.Lit (list_ascii_of_string p)) s
  = prefix (Js.toLowerCase p) (Js.toLowerCase s).
Proof.
  revert s. induction p as [| c p IH]; intros s; simpl.
  - destruct s; reflexivity.
  - destruct s as [| d s]; simpl; [reflexivity |].
    rewrite IH.
    destruct (ascii_dec (Js.lower_char c) (Js.lower_char d)) as [E | E].
    + rewrite E, Ascii.eqb_refl. reflexivity.
    + apply Ascii.eqb_neq in E. rewrite E. reflexivity.
Qed.

(** Searching a literal pattern is the case-insensitive substring test. *)
Lemma search_literal (p s : string) :
  Regex.search (map Regex.Lit (list_ascii_of_string p)) s = ci_substring p s.
Proof.
  unfold ci_substring. induction s as [| d s IH].
  - cbn [Regex.search]. rewrite matches_here_literal, orb_false_r, includes_eq.
    cbn [Js.toLowerCase].
    destruct (prefix (Js.toLowerCase p) EmptyString); reflexivity.
  - cbn [Regex.search]. rewrite matches_here_literal, IH.
    rewrite (includes_eq (Js.toLowerCase (String d s))).
    destruct (prefix (Js.toLowerCase p) (Js.toLowerCase (String d s)));
      reflexivity.
Qed.

Lemma test_i_literal (p s : string) :
  literal p = true -> Regex.test_i p s = Some (ci_substring p s).
Proof.
  intros H. unfold Regex.test_i. rewrite (compile_literal p H). simpl.
  now rewrite search_literal.
Qed.

Section SortFacts.
Context {A : Type} (key : A -> Z).

Lemma insert_desc_perm (x : A) (l : list A) :
    Permutation (Mongoose.insert_desc key x l) (x :: l).
Proof.
    induction l as [| y l IH]; simpl; [apply Permutation_refl |].
    destruct (key x <? key y); [| apply Permutation_refl].
    eapply perm_trans; [apply perm_skip, IH | apply perm_swap].
Qed.

Lemma sort_desc_perm (l : list A) : Permutation (Mongoose.sort_desc key l) l.
Proof.
    induction l as [| x l IH]; simpl; [constructor |].
    eapply perm_trans; [apply insert_desc_perm | now apply perm_skip].
Qed.

Lemma insert_desc_sorted (x : A) (l : list A) :
    StronglySorted (fun a b => key b <= key a) l ->
    StronglySorted (fun a b => key b <= key a) (Mongoose.insert_desc key x l).
Proof.
    induction l as [| y l IH]; simpl; intros H.
    - repeat constructor.
    - inversion H as [| ? ? Hl Hy]; subst.
      destruct (Z.ltb_spec (key x) (key y)) as [Lt | Ge].
      + constructor; [now apply IH |].
        rewrite Forall_forall. intros z Hz.
        apply (Permutation_in _ (insert_desc_perm x l)) in Hz.
        destruct Hz as [<- | Hz]; [lia |].
        rewrite Forall_forall in Hy. now apply Hy.
      + constructor; [assumption |].
        constructor; [lia |].
        rewrite Forall_forall in *. intros z Hz. specialize (Hy z Hz). lia.
Qed.

Lemma sort_desc_sorted (l : list A) :
    StronglySorted (fun a b => key b <= key a) (Mongoose.sort_desc key l).
Proof.
    induction l as [| x l IH]; simpl; [constructor |].
    now apply insert_desc_sorted.
Qed.
End SortFacts.

Lemma present_cases (v : option string) :
  (present v = None /\ Js.truthy_opt v = false)
  \/ (exists s, present v = Some s /\ v = Some s).
Proof.
  destruct v as [[| c s] |]; simpl; [left | right | left]; try easy.
  now exists (String c s).
Qed.

(** Under literal patterns and a semester that parses, the store's find
    keeps the materials that satisfy the filters. *)
Lemma find_satisfies (q : ListQuery.t) (c : list Material.t) :
  literal_opt (ListQuery.subject q) = true ->
  literal_opt (ListQuery.search q) = true ->
  semester_parses q = true ->
  MM.find (build_query q) c = Some (Mongoose.Ok (filter (satisfies q) c)).
Proof.
  intros Hsubj Hsearch Hsem.
  unfold MM.find, build_query, semester_parses, satisfies in *.
  cbn [MM.q_semester MM.q_subject MM.q_or MM.q_department MM.q_type].
  destruct (option_map Js.parseInt (present (ListQuery.semester q)))
    as [[| z] |] eqn:Esem; try discriminate; cbn [MM.cast_semester].
  all: destruct (present_cases (ListQuery.subject q)) as [[-> _] | (s & -> & Es)];
    [| rewrite Es in Hsubj; simpl in Hsubj];
    destruct (present_cases (ListQuery.search q)) as [[-> _] | (t & -> & Et)];
    [| rewrite Et in Hsearch; simpl in Hsearch | | rewrite Et in Hsearch; simpl in Hsearch];
    cbn [MM.opt_compile option_map MM.compile_alts];
    rewrite ?(compile_literal _ Hsubj), ?(compile_literal _ Hsearch);
    cbn [option_map]; do 2 f_equal; apply filter_ext; intros m;
    unfold MM.matches;
    cbn [MM.c_department MM.c_semester MM.c_type MM.c_subject MM.c_or existsb MM.get];
    rewrite ?search_literal, ?orb_false_r, ?orb_assoc; reflexivity.
Qed.

(** * The claims *)

(** The dashboard answers the first five materials in the natural order of
    the collection. *)
Lemma dashboard_recent (now : Z) (authorization : option Jwt.token)
  (user : Jwt.claims) (db : Db) :
  authenticated now authorization user ->
  field "recentMaterials" (body (fst (get_dashboard now authorization db)))
  = Some (JArr (map recent_projection (firstn 5 (Materials db)))).
Proof.
  intros Hauth. unfold get_dashboard. rewrite Hauth. reflexivity.
Qed.

(** C1, on six materials uploaded at times 3000 to 8000: the dashboard
    answers the five oldest, oldest first, and leaves out the newest; the
    five most recent, newest first, are others. *)
Theorem C1_dashboard_oldest_five :
  let db := Example.six_materials in
  let answer := fst (get_dashboard 9000 (Some Example.student_token) db) in
  field "recentMaterials" (body answer)
  = Some (JArr (map recent_projection (firstn 5 (Materials db))))
  /\ map Material.createdAt (firstn 5 (Materials db))
     = [3000; 4000; 5000; 6000; 7000]
  /\ map Material.createdAt (five_most_recent (Materials db))
     = [8000; 7000; 6000; 5000; 4000]
  /\ field "recentMaterials" (body answer)
     <> Some (JArr (map recent_projection (five_most_recent (Materials db)))).
Proof.
  cbv zeta. repeat split; try (vm_compute; reflexivity).
  vm_compute. discriminate.
Qed.

(** C2 (as amended): for an authenticated ListMaterials request whose
    semester parameter does not parse as an integer, the filter is without
    effect only when the parameter is the empty string, and the answer is
    then the one of the same request without the parameter; when it is not
    empty the query carries semester NaN, the store refuses it when it
    casts the query, and the answer is 500 with the cast error: no material
    is returned. *)
Theorem C2_semester_not_parsed (now : Z) (authorization : option Jwt.token)
  (user : Jwt.claims) (q : ListQuery.t) (s : string) (db : Db) :
  authenticated now authorization user ->
  ListQuery.semester q = Some s ->
  Js.parseInt s = Js.NaN ->
  (s = EmptyString ->
   get_materials now authorization q db
   = get_materials now authorization (without_semester q) db)
  /\ (s <> EmptyString ->
      MM.q_semester (build_query q) = Some Js.NaN
      /\ get_materials now authorization q db
         = Some (error 500 (Mongoose.message
                   (Mongoose.CastError "Number" "NaN" "semester" "Material")))).
Proof.
  intros Hauth Hsem Hnan. split.
  - intros ->. unfold get_materials, build_query, without_semester.
    rewrite Hsem. reflexivity.
  - intros Hs. unfold get_materials, build_query. rewrite Hauth, Hsem.
    rewrite (present_some s Hs). unfold MM.find.
    cbn [option_map MM.q_semester]. rewrite Hnan. split; reflexivity.
Qed.

(** C3 (as amended): on an existing material whose likes hold no
    duplicate, two successive like requests by the same user answer, each,
    the new length of the likes array and whether the user is in it after
    the call; after the second the likes are the original ones up to order,
    so the second answers the original count, and isLiked as it was before
    the first call: false exactly when the user had not liked the material,
    in which case the array is restored as it was. *)
Theorem C3_toggle_like_twice (now1 now2 : Z) (tok1 tok2 : option Jwt.token)
  (user1 user2 : Jwt.claims) (id : ObjectId) (db : Db) (m : Material.t) :
  authenticated now1 tok1 user1 ->
  authenticated now2 tok2 user2 ->
  Jwt.userId user1 = Jwt.userId user2 ->
  MM.findById id (Materials db) = Some m ->
  NoDup (Material.likes m) ->
  let u := Jwt.userId user1 in
  let first := post_material_like now1 tok1 id db in
  let second := post_material_like now2 tok2 id (snd first) in
  exists m1 m2,
    MM.findById id (Materials (snd first)) = Some m1
    /\ MM.findById id (Materials (snd second)) = Some m2
    /\ fst first = reply 200 (like_body u (Material.likes m1))
    /\ fst second = reply 200 (like_body u (Material.likes m2))
    /\ Permutation (Material.likes m2) (Material.likes m)
    /\ fst second = reply 200 (JObj [
         ("message", JStr "Like updated");
         ("likes", JNum (Z.of_nat (List.length (Material.likes m))));
         ("isLiked", JBool (existsb (Nat.eqb u) (Material.likes m))) ])
    /\ (~ In u (Material.likes m) -> Material.likes m2 = Material.likes m).
Proof.
  intros H1 H2 Hu Hm Hnd u first second.
  pose proof (findById_id _ _ _ Hm) as Hid.
  set (m1 := Material.set_updatedAt now1
               (Material.set_likes (toggled u (Material.likes m)) m)).
  assert (E1 : first =
    (reply 200 (like_body u (toggled u (Material.likes m))),
     with_materials (MM.save now1
       (Material.set_likes (toggled u (Material.likes m)) m) (Materials db)) db)).
  { unfold first. now rewrite (like_found _ _ _ _ _ _ H1 Hm). }
  assert (F1 : MM.findById id (Materials (snd first)) = Some m1).
  { rewrite E1. simpl.
    apply (findById_save_found now1 id m); [exact Hm | exact Hid]. }
  set (l2 := toggled u (Material.likes m1)).
  assert (E2 : second =
    (reply 200 (like_body u l2),
     with_materials (MM.save now2 (Material.set_likes l2 m1)
       (Materials (snd first))) (snd first))).
  { unfold second. rewrite (like_found _ _ _ _ _ _ H2 F1).
    unfold l2, u. now rewrite Hu. }
  exists m1, (Material.set_updatedAt now2 (Material.set_likes l2 m1)).
  destruct (toggled_twice u (Material.likes m) Hnd) as [Hperm Hsame].
  assert (Hl2 : l2 = toggled u (toggled u (Material.likes m))) by reflexivity.
  split; [exact F1 |].
  split.
  { rewrite E2. simpl.
    apply (findById_save_found now2 id m1); [exact F1 | exact Hid]. }
  split; [rewrite E1; reflexivity |].
  split; [rewrite E2; reflexivity |].
  split; [simpl; rewrite Hl2; exact Hperm |].
  split.
  - rewrite E2. simpl. unfold like_body. rewrite Hl2.
    rewrite (Permutation_length Hperm).
    assert (Hb : existsb (Nat.eqb u) (toggled u (toggled u (Material.likes m)))
                 = existsb (Nat.eqb u) (Material.likes m)).
    { destruct (existsb (Nat.eqb u) (Material.likes m)) eqn:Eb.
      - apply existsb_eqb_In. apply existsb_eqb_In in Eb.
        now apply (Permutation_in _ (Permutation_sym Hperm)).
      - apply existsb_eqb_false. apply existsb_eqb_false in Eb.
        intros F. apply Eb. now apply (Permutation_in _ Hperm). }
    now rewrite Hb.
  - intros Hout. simpl. rewrite Hl2. now apply Hsame.
Qed.

(** C4 (as amended): for an authenticated ListMaterials request whose
    subject and search values hold no metacharacter of regular expressions,
    whose semester is absent, empty or parses as an integer, and whose page
    and limit are at least 1 (page defaults to 1 and limit to 100 when
    absent, unparsable or 0), the answer is a page of the materials that
    satisfy every non-empty filter (department and type by equality,
    semester by equality with the parsed integer, subject as a
    case-insensitive substring, search as a case-insensitive substring of
    the title, the description or the subject; an absent or empty filter
    constrains nothing), newest first: the page skips (page - 1) * limit
    of them and takes the next limit. *)
Theorem C4_list_materials (now : Z) (authorization : option Jwt.token)
  (user : Jwt.claims) (q : ListQuery.t) (db : Db) :
  authenticated now authorization user ->
  literal_opt (ListQuery.subject q) = true ->
  literal_opt (ListQuery.search q) = true ->
  semester_parses q = true ->
  1 <= page_of q ->
  1 <= limit_of q ->
  exists sorted,
    Permutation sorted (filter (satisfies q) (Materials db))
    /\ newest_first sorted
    /\ (forall m, In m sorted <-> In m (Materials db) /\ satisfies q m = true)
    /\ get_materials now authorization q db
       = Some (reply 200 (JArr (map with_id
           (firstn (Z.to_nat (limit_of q))
              (skipn (Z.to_nat ((page_of q - 1) * limit_of q)) sorted)))))
    /\ (ListQuery.page q = None -> page_of q = 1)
    /\ (ListQuery.limit q = None -> limit_of q = 100).
Proof.
  intros Hauth Hsubj Hsearch Hsem Hpage Hlimit.
  exists (Mongoose.sort_desc Material.createdAt
            (filter (satisfies q) (Materials db))).
  split; [apply sort_desc_perm |].
  split; [apply sort_desc_sorted |].
  split; [| split; [| split]].
  - intros m. rewrite <- filter_In. split; apply Permutation_in.
    + apply sort_desc_perm.
    + apply Permutation_sym, sort_desc_perm.
  - unfold get_materials. rewrite Hauth.
    rewrite (find_satisfies q _ Hsubj Hsearch Hsem).
    fold (page_of q). fold (limit_of q). unfold Mongoose.skip_limit.
    destruct (Z.ltb_spec ((page_of q - 1) * limit_of q) 0); [nia |].
    rewrite Zabs2Nat.abs_nat_nonneg by lia. reflexivity.
  - intros H. unfold page_of. now rewrite H.
  - intros H. unfold limit_of. now rewrite H.
Qed.

(** C5: DeleteMaterial with claims whose role is not faculty answers 403
    and leaves the store as it is; with the role faculty and the id of an
    existing material it answers 200, and from then on, whatever requests
    are served in between, every authenticated GetMaterial on that id
    answers 404 (the collection keeps _id unique and never hands an _id
    out twice). *)
Theorem C5_delete_material (now : Z) (authorization : option Jwt.token)
  (user : Jwt.claims) (id : ObjectId) (db : Db) :
  authenticated now authorization user ->
  (Jwt.role user <> "faculty" ->
   delete_material now authorization id db
   = (error 403 "Access denied. Faculty only.", db))
  /\ (Jwt.role user = "faculty" ->
      In id (ids (Materials db)) ->
      wf db ->
      let deleted := delete_material now authorization id db in
      fst deleted = reply 200 (JObj [("message", JStr "Material deleted successfully")])
      /\ forall (rs : list (Z * request)) (now' : Z)
           (authorization' : option Jwt.token) (user' : Jwt.claims),
           authenticated now' authorization' user' ->
           get_material now' authorization' id (serve rs (snd deleted))
           = (error 404 "Material not found", serve rs (snd deleted))).
Proof.
  intros Hauth. split.
  - intros Hrole. unfold delete_material. rewrite Hauth.
    unfold chain, facultyOnly.
    destruct (String.eqb_spec (Jwt.role user) "faculty"); [contradiction |].
    reflexivity.
  - intros Hrole Hin [Hnd Hfr].
    destruct (MM.findById id (Materials db)) as [m |] eqn:Hm.
    2: { apply findById_None in Hm. contradiction. }
    cbv zeta. rewrite (delete_found _ _ _ _ _ _ Hauth Hrole Hm).
    split; [reflexivity |].
    intros rs now' authorization' user' Hauth'.
    unfold get_material. rewrite Hauth'. unfold chain.
    rewrite serve_absent; [reflexivity | |].
    + simpl. rewrite Forall_forall in Hfr. now apply Hfr.
    + simpl. now apply findById_delete_same.
Qed.

(** C6: on an existing material, every authenticated RecordDownload
    answers the counter plus one; N such calls in sequence, at any times
    and by any users, leave the counter exactly N higher; and whatever
    requests the server handles, the counter of a material that is still
    there has not gone down (the collection keeps _id unique and never
    hands an _id out twice). *)
Theorem C6_record_download (db : Db) (id : ObjectId) (m : Material.t) :
  MM.findById id (Materials db) = Some m ->
  (forall now authorization user,
     authenticated now authorization user ->
     fst (post_material_download now authorization id db)
     = reply 200 (JObj [ ("message", JStr "Download count updated");
                         ("downloads", JNum (Material.downloads m + 1)) ]))
  /\ (forall calls : list (Z * option Jwt.token),
        all_authenticated calls ->
        exists m',
          MM.findById id (Materials (serve (downloads_of id calls) db)) = Some m'
          /\ Material.downloads m'
             = Material.downloads m + Z.of_nat (List.length calls))
  /\ (wf db ->
      forall (rs : list (Z * request)) (m' : Material.t),
        MM.findById id (Materials (serve rs db)) = Some m' ->
        Material.downloads m <= Material.downloads m').
Proof.
  intros Hm. split; [| split].
  - intros now authorization user Hauth.
    now rewrite (download_found _ _ _ _ _ _ Hauth Hm).
  - intros calls. revert db m Hm.
    induction calls as [| [now tok] calls IH]; intros db m Hm Hall.
    + exists m. split; [exact Hm | simpl; lia].
    + inversion Hall as [| ? ? [user Hauth] Hrest]; subst.
      simpl in Hauth. simpl serve at 1.
      unfold downloads_of. simpl map. simpl serve.
      rewrite (download_found _ _ _ _ _ _ Hauth Hm). simpl snd.
      pose proof (findById_id _ _ _ Hm) as Hid.
      destruct (IH (with_materials
                      (MM.save now (Material.set_downloads (Material.downloads m + 1) m)
                         (Materials db)) db)
                   (Material.set_updatedAt now
                      (Material.set_downloads (Material.downloads m + 1) m)))
        as (m' & Hm' & Hd).
      * simpl. apply (findById_save_found now id m); [exact Hm | exact Hid].
      * exact Hrest.
      * exists m'. split; [exact Hm' |].
        rewrite Hd. simpl Material.downloads.
        change (List.length ((now, tok) :: calls)) with (S (List.length calls)).
        lia.
  - intros Hwf rs m' Hm'. exact (serve_downloads rs db id m m' Hwf Hm Hm').
Qed.

(** C7 (as amended): after a Register call that was answered 201, and
    whatever requests were served in between, a Register call whose email
    is equal to the first up to case and surrounding white space creates no
    user; when its name, email, password and role are all non-empty it is
    answered 400 with User already exists with this email, whatever their
    values and those of the other fields, and when one of them is missing
    it is answered 400 with All fields are required. *)
Theorem C7_register_duplicate (now1 now2 : Z) (salt1 salt2 : string)
  (b1 b2 : RegisterBody.t) (e1 e2 : string) (db : Db)
  (rs : list (Z * request)) :
  status (fst (post_auth_register now1 salt1 b1 db)) = 201 ->
  RegisterBody.email b1 = Some e1 ->
  RegisterBody.email b2 = Some e2 ->
  Js.trim (Js.toLowerCase e1) = Js.trim (Js.toLowerCase e2) ->
  let db2 := serve rs (snd (post_auth_register now1 salt1 b1 db)) in
  let second := post_auth_register now2 salt2 b2 db2 in
  snd second = db2
  /\ (complete b2 = true ->
      fst second = error 400 "User already exists with this email")
  /\ (complete b2 = false -> fst second = error 400 "All fields are required").
Proof.
  intros H201 He1 He2 Hnorm db2 second.
  destruct (register_created _ _ _ _ H201) as (e & u & Hpres & Hemail & Husers).
  assert (e = e1).
  { rewrite He1 in Hpres. simpl in Hpres.
    destruct (Js.truthy e1); congruence. }
  subst e.
  destruct (serve_users rs (snd (post_auth_register now1 salt1 b1 db)))
    as [extra Hextra].
  fold db2 in Hextra. rewrite Husers in Hextra.
  assert (Hfound : exists v,
             MU.findOne_email (Js.trim (Js.toLowerCase e2)) (Users db2) = Some v).
  { rewrite Hextra, <- Hnorm, <- Hemail.
    destruct (findOne_email_last (Users db) u) as [v Hv].
    exists v. now apply findOne_email_app. }
  destruct Hfound as [v Hv].
  unfold second, post_auth_register, complete. rewrite He2.
  destruct (RegisterBody.name b2) as [[| c1 n] |];
    destruct e2 as [| c2 e2];
    destruct (RegisterBody.password b2) as [[| c3 p] |];
    destruct (RegisterBody.role b2) as [[| c4 r] |];
    simpl; repeat split; try discriminate; try reflexivity.
  all: unfold present in Hv; simpl in Hv; rewrite Hv; reflexivity.
Qed.

(** C8 (as amended): for every authenticated Chat request with a non-empty
    message, the answer is a function of the lower-cased message: the
    canned answer of the first keyword group, in the fixed order, one of
    whose keywords occurs in it as a substring, and the menu when there is
    none; and exactly one ChatEntry is appended, holding the user, the
    message and that answer.  (With an absent or empty message nothing is
    persisted.) *)
Theorem C8_chat_responder (now : Z) (authorization : option Jwt.token)
  (user : Jwt.claims) (message : string) (db : Db) :
  authenticated now authorization user ->
  message <> EmptyString ->
  let lowerMessage := Js.toLowerCase message in
  let answer := chat_response lowerMessage in
  selects lowerMessage keyword_groups answer
  /\ (exists entry,
        post_chat now authorization (Some message) db
        = (reply 200 (JObj [("response", JStr answer)]),
           {| Users := Users db; Materials := Materials db;
              Chats := (Chats db ++ [entry])%list; fresh := S (fresh db) |})
        /\ Chat.userId entry = Jwt.userId user
        /\ Chat.message entry = message
        /\ Chat.response entry = answer)
  /\ (forall message',
        Js.toLowerCase message' = lowerMessage ->
        fst (post_chat now authorization (Some message') db)
        = reply 200 (JObj [("response", JStr answer)])).
Proof.
  intros Hauth Hmsg lowerMessage answer. split; [| split].
  - unfold answer. rewrite chat_response_select. apply select_selects.
  - eexists. rewrite (chat_answered _ _ _ _ _ Hauth Hmsg).
    repeat split; reflexivity.
  - intros message' Hlow.
    assert (Hmsg' : message' <> EmptyString).
    { intros ->. simpl in Hlow. symmetry in Hlow.
      apply toLowerCase_empty in Hlow. contradiction. }
    rewrite (chat_answered _ _ _ _ _ Hauth Hmsg'). simpl.
    unfold answer. now rewrite Hlow.
Qed.

(** C9: whatever Register, Login or GetSelf answers, the stored password
    hash is absent from the payload.  A successful answer is, as a whole,
    the payload built from the id, name, email, role, department and
    semester of one stored user and the time of the call: that summary,
    with a message and a token for the id, role and address beside it for
    Register and Login, and nothing else; every other answer is, as a
    whole, one fixed error text under the key error.  In particular no
    key of the body, at any depth, is password, and the summary has
    exactly the six keys. *)
Theorem C9_password_never_sent (now : Z) (r : request) (db : Db)
  (resp : response) :
  returns_summary r = true ->
  fst (handle now r db) = Some resp ->
  ~ In "password" (all_keys (body resp))
  /\ (200 <= status resp < 300 ->
      exists u,
        In u (Users (snd (handle now r db)))
        /\ body resp
           = outbound now r (User._id u) (User.name u) (User.email u)
               (User.role u) (User.department u) (User.semester u)
        /\ summary_of r (body resp) = Some (summary u)
        /\ all_keys (summary u)
           = ["id"; "name"; "email"; "role"; "department"; "semester"])
  /\ (~ 200 <= status resp < 300 ->
      exists msg,
        In msg refusals /\ body resp = JObj [("error", JStr msg)]).
Proof.
  intros Hr Hresp.
  destruct r as [| salt b | b | tok | tok f b | tok q | tok i | tok i | tok i
                 | tok i | tok msg | tok | tok | tok];
    try discriminate; unfold handle, answered in *; cbn [fst snd] in *.
  all: injection Hresp as <-.
  - (* Register *)
    unfold post_auth_register.
    repeat (break_goal; simpl);
      (split; [intros F; simpl in F; intuition discriminate |]);
      (split; [try (intros [? ?]; lia) | refused]).
    intros _.
    match goal with
    | E : MU.create _ _ _ _ = Mongoose.Ok (?u, _) |- _ =>
        apply create_user_inv in E; destruct E as (-> & _ & _); exists u
    end.
    repeat split. apply in_or_app. right. now left.
  - (* Login *)
    unfold post_auth_login.
    repeat (break_goal; simpl);
      (split; [intros F; simpl in F; intuition discriminate |]);
      (split; [try (intros [? ?]; lia) | refused]).
    intros _.
    match goal with
    | E : MU.findOne_email _ _ = Some ?u |- _ =>
        apply find_some in E; destruct E as [E _]; exists u
    end.
    repeat split. assumption.
  - (* GetSelf *)
    unfold get_auth_me, authMiddleware, chain.
    destruct tok as [t |]; [destruct (Jwt.verify t now) as [decoded |] |];
      [destruct (MU.findById (Jwt.userId decoded) (Users db)) as [u |] eqn:E | |];
      simpl;
      (split; [intros F; simpl in F; intuition discriminate |]);
      (split; [try (intros [? ?]; lia) | refused]).
    intros _. apply find_some in E. destruct E as [E _]. exists u.
    repeat split. assumption.
Qed.

(** C10: an authenticated Chat request whose message is absent or empty
    answers 400 with the error Message is required; nothing is matched and
    no ChatEntry is persisted: the store is as it was. *)
Theorem C10_chat_message_required (now : Z) (authorization : option Jwt.token)
  (user : Jwt.claims) (message : option string) (db : Db) :
  authenticated now authorization user ->
  message = None \/ message = Some EmptyString ->
  post_chat now authorization message db
  = (error 400 "Message is required", db)
  /\ Chats (snd (handle now (POST_chat authorization message) db)) = Chats db.
Proof.
  intros Hauth Hmsg. unfold handle, answered, post_chat.
  rewrite Hauth. unfold chain.
  destruct Hmsg as [-> | ->]; simpl; split; reflexivity.
Qed.

(** * The claims on the running example *)

(** The store invariant on the example. *)
Lemma one_material_wf : wf Example.one_material.
Proof.
  split; vm_compute; repeat constructor. intros [].
Qed.

(** C2 as stated fails: with semester=abc the answer is the cast error,
    without the parameter it is the material. *)
Lemma C2_semester_counterexample :
  let q := Example.list_by (Some "abc") None in
  let db := Example.one_material in
  Js.parseInt "abc" = Js.NaN
  /\ get_materials 9000 (Some Example.student_token) q db
     = Some (error 500 (Mongoose.message
               (Mongoose.CastError "Number" "NaN" "semester" "Material")))
  /\ get_materials 9000 (Some Example.student_token) (without_semester q) db
     = Some (reply 200 (JArr [with_id Example.calc_notes]))
  /\ get_materials 9000 (Some Example.student_token) q db
     <> get_materials 9000 (Some Example.student_token) (without_semester q) db.
Proof.
  cbv zeta. repeat split; try (vm_compute; reflexivity).
  vm_compute. discriminate.
Qed.

(** C2 on the example: semester=abc is answered with the cast error. *)
Lemma C2_semester_witness :
  authenticated 9000 (Some Example.student_token) Example.student_claims
  /\ Js.parseInt "abc" = Js.NaN
  /\ get_materials 9000 (Some Example.student_token)
       (Example.list_by (Some "abc") None) Example.one_material
     = Some (error 500 (Mongoose.message
               (Mongoose.CastError "Number" "NaN" "semester" "Material"))).
Proof.
  split; [reflexivity |]. split; [reflexivity |].
  apply (C2_semester_not_parsed 9000 (Some Example.student_token)
Example.student_claims (Example.list_by (Some "abc") None) "abc"
Example.one_material); [reflexivity | reflexivity | reflexivity |].
  discriminate.
Defined.

(** C3 as stated fails: when the user already likes the material, the
    second of two like requests answers isLiked true. *)
Lemma C3_like_counterexample :
  let liked :=
    serve [(9000, POST_material_like (Some Example.student_token) 2%nat)]
Example.one_material in
  let first := post_material_like 9100 (Some Example.student_token) 2%nat liked in
  let second :=
    post_material_like 9200 (Some Example.student_token) 2%nat (snd first) in
  fst second = reply 200 (JObj [ ("message", JStr "Like updated");
                                 ("likes", JNum 1);
                                 ("isLiked", JBool true) ])
  /\ field "isLiked" (body (fst second)) <> Some (JBool false).
Proof.
  cbv zeta. split; [vm_compute; reflexivity | vm_compute; discriminate].
Qed.

(** C3 on the example: a student who had not liked the material likes it
    and takes the like back. *)
Lemma C3_like_witness :
  let first :=
    post_material_like 9100 (Some Example.student_token) 2%nat
Example.one_material in
  let second :=
    post_material_like 9200 (Some Example.student_token) 2%nat (snd first) in
  fst second = reply 200 (JObj [ ("message", JStr "Like updated");
                                 ("likes", JNum 0);
                                 ("isLiked", JBool false) ]).
Proof.
  destruct (C3_toggle_like_twice 9100 9200 (Some Example.student_token)
              (Some Example.student_token) Example.student_claims
Example.student_claims 2%nat Example.one_material
Example.calc_notes)
    as (m1 & m2 & _ & _ & _ & _ & _ & H & _);
    [reflexivity | reflexivity | reflexivity | reflexivity | constructor |].
  exact H.
Defined.

(** C4 as stated fails: the subject filter is a regular expression, and
    the dot matches a subject that does not contain a dot. *)
Lemma C4_list_counterexample :
  let q := Example.list_by None (Some ".") in
  get_materials 9000 (Some Example.student_token) q Example.one_material
  = Some (reply 200 (JArr [with_id Example.calc_notes]))
  /\ Material.subject Example.calc_notes = "Math"
  /\ ci_substring "." "Math" = false
  /\ satisfies q Example.calc_notes = false.
Proof.
  cbv zeta. repeat split; vm_compute; reflexivity.
Qed.

(** C4 on the example: semester 2 and a subject given in mixed case. *)
Lemma C4_list_witness :
  get_materials 9000 (Some Example.student_token)
    (Example.list_by (Some "2") (Some "mAt")) Example.one_material
  = Some (reply 200 (JArr [with_id Example.calc_notes])).
Proof.
  destruct (C4_list_materials 9000 (Some Example.student_token)
Example.student_claims (Example.list_by (Some "2") (Some "mAt"))
Example.one_material)
    as (sorted & Hperm & _ & _ & H & _);
    [reflexivity | reflexivity | reflexivity | reflexivity
    | vm_compute; discriminate | vm_compute; discriminate |].
  rewrite H. clear H.
  assert (E : filter (satisfies (Example.list_by (Some "2") (Some "mAt")))
                (Materials Example.one_material) = [Example.calc_notes])
    by (vm_compute; reflexivity).
  rewrite E in Hperm. apply Permutation_sym in Hperm.
  apply Permutation_length_1_inv in Hperm. subst sorted.
  reflexivity.
Defined.

(** C5 on the example: the student is refused; after the faculty member
    deletes the material it is not found. *)
Lemma C5_delete_witness :
  delete_material 9000 (Some Example.student_token) 2%nat Example.one_material
  = (error 403 "Access denied. Faculty only.", Example.one_material)
  /\ get_material 9500 (Some Example.student_token) 2%nat
       (snd (delete_material 9000 (Some Example.faculty_token) 2%nat
Example.one_material))
     = (error 404 "Material not found",
        snd (delete_material 9000 (Some Example.faculty_token) 2%nat
Example.one_material)).
Proof.
  split.
  - apply (C5_delete_material 9000 (Some Example.student_token)
Example.student_claims 2%nat Example.one_material);
      [reflexivity | vm_compute; discriminate].
  - destruct (C5_delete_material 9000 (Some Example.faculty_token)
Example.faculty_claims 2%nat Example.one_material)
      as [_ H]; [reflexivity |].
    destruct H as [_ H];
      [reflexivity | vm_compute; now left | exact one_material_wf |].
    exact (H [] 9500 (Some Example.student_token) Example.student_claims
             eq_refl).
Defined.

(** C6 on the example: three downloads by two users, and an upload in
    between that leaves the counter alone. *)
Lemma C6_download_witness :
  let calls := [ (9000, Some Example.student_token);
                 (9100, Some Example.student_token);
                 (9200, Some Example.faculty_token) ] in
  (exists m',
     MM.findById 2%nat
       (Materials (serve (downloads_of 2%nat calls) Example.one_material))
     = Some m'
     /\ Material.downloads m' = 3)
  /\ (forall m',
        MM.findById 2%nat
          (Materials (serve [Example.upload 9300 "Trees" "Math"]
Example.one_material)) = Some m' ->
        0 <= Material.downloads m').
Proof.
  cbv zeta.
  destruct (C6_record_download Example.one_material 2%nat Example.calc_notes)
    as (_ & H & Hmono); [reflexivity |].
  split.
  - apply (H [ (9000, Some Example.student_token);
               (9100, Some Example.student_token);
               (9200, Some Example.faculty_token) ]).
    repeat constructor.
    + now exists Example.student_claims.
    + now exists Example.student_claims.
    + now exists Example.faculty_claims.
  - exact (Hmono one_material_wf [Example.upload 9300 "Trees" "Math"]).
Defined.

(** C7 as stated fails: a second Register under the same address with an
    empty name is refused for the missing field, not as a duplicate. *)
Lemma C7_register_counterexample :
  let first := post_auth_register 1000 "salt1" Example.faculty empty_db in
  let second := post_auth_register 5000 "salt3" Example.nameless (snd first) in
  status (fst first) = 201
  /\ Js.trim (Js.toLowerCase "f@x.com") = Js.trim (Js.toLowerCase " F@X.com ")
  /\ fst second = error 400 "All fields are required"
  /\ fst second <> error 400 "User already exists with this email".
Proof.
  cbv zeta. repeat split; try (vm_compute; reflexivity).
  vm_compute. discriminate.
Qed.

(** C7 on the example: the address of the faculty member in other letter
    case, after another registration. *)
Lemma C7_register_witness :
  let first := post_auth_register 1000 "salt1" Example.faculty empty_db in
  let db2 := serve [(2000, POST_auth_register "salt2" Example.student)] (snd first) in
  post_auth_register 5000 "salt3" Example.impostor db2
  = (error 400 "User already exists with this email", db2).
Proof.
  cbv zeta.
  destruct (C7_register_duplicate 1000 5000 "salt1" "salt3" Example.faculty
Example.impostor "f@x.com" " F@X.com " empty_db
              [(2000, POST_auth_register "salt2" Example.student)])
    as (Hdb & Hdup & _);
    [reflexivity | reflexivity | reflexivity | reflexivity |].
  specialize (Hdup eq_refl).
  rewrite (surjective_pairing (post_auth_register _ _ _ _)).
  now rewrite Hdup, Hdb.
Defined.

(** C8 as stated fails: a Chat request with an empty message persists no
    ChatEntry. *)
Lemma C8_chat_counterexample :
  let served :=
    handle 9000 (POST_chat (Some Example.student_token) (Some EmptyString))
Example.one_material in
  authenticated 9000 (Some Example.student_token) Example.student_claims
  /\ fst served = Some (error 400 "Message is required")
  /\ Chats Example.one_material = []
  /\ Chats (snd served) = [].
Proof.
  cbv zeta. repeat split; vm_compute; reflexivity.
Qed.

(** C8 on the example: the first group wins over the last. *)
Lemma C8_chat_witness :
  fst (post_chat 9000 (Some Example.student_token)
         (Some "Where are the PYQ papers? Thanks") Example.one_material)
  = reply 200 (JObj [("response", JStr answer_pyq)]).
Proof.
  destruct (C8_chat_responder 9000 (Some Example.student_token)
Example.student_claims "Where are the PYQ papers? Thanks"
Example.one_material)
    as (_ & _ & H); [reflexivity | discriminate |].
  exact (H "Where are the PYQ papers? Thanks" eq_refl).
Defined.

(** C9 on the example: a successful login, and a refused one. *)
Lemma C9_password_witness :
  let resp := fst (post_auth_login 9000 Example.faculty_login Example.registered) in
  status resp = 200
  /\ ~ In "password" (all_keys (body resp))
  /\ (exists u,
        In u (Users Example.registered)
        /\ body resp
           = outbound 9000 (POST_auth_login Example.faculty_login)
               (User._id u) (User.name u) (User.email u) (User.role u)
               (User.department u) (User.semester u))
  /\ exists msg,
       In msg refusals
       /\ body (fst (post_auth_login 9000 Example.wrong_password
Example.registered))
          = JObj [("error", JStr msg)].
Proof.
  cbv zeta. split; [vm_compute; reflexivity |].
  destruct (C9_password_never_sent 9000
              (POST_auth_login Example.faculty_login) Example.registered
              (fst (post_auth_login 9000 Example.faculty_login
Example.registered))
              eq_refl eq_refl) as (Hkeys & Hok & _).
  split; [exact Hkeys |]. split.
  - destruct Hok as (u & Hin & Hbody & _); [vm_compute; split; [discriminate | reflexivity] |].
    exists u. split; [exact Hin | exact Hbody].
  - apply (C9_password_never_sent 9000
             (POST_auth_login Example.wrong_password) Example.registered
             (fst (post_auth_login 9000 Example.wrong_password
Example.registered))
             eq_refl eq_refl).
    vm_compute. intros [_ F]. discriminate F.
Defined.

(** C10 on the example: the empty message. *)
Lemma C10_chat_witness :
  post_chat 9000 (Some Example.student_token) (Some EmptyString)
Example.one_material
  = (error 400 "Message is required", Example.one_material).
Proof.
  apply (C10_chat_message_required 9000 (Some Example.student_token)
Example.student_claims (Some EmptyString) Example.one_material);
    [reflexivity | right; reflexivity].
Defined.

(** * Further properties of the routes *)

(** ** What the three creates store *)

Lemma create_user_stored (now : Z) (i : ObjectId) (d : MU.doc)
  (c c' : list User.t) (u : User.t) :
  MU.create now i d c = Mongoose.Ok (u, c') ->
  exists sem,
    MU.semester d = Js.Num sem
    /\ c' = (c ++ [u])%list
    /\ u = {| User._id := i; User.name := Js.trim (MU.name d);
              User.email := Js.trim (Js.toLowerCase (MU.email d));
              User.password := MU.password d; User.role := MU.role d;
              User.department := MU.department d; User.semester := sem;
              User.createdAt := now; User.updatedAt := now |}
    /\ MU.findOne_email (Js.trim (Js.toLowerCase (MU.email d))) c = None
    /\ Js.trim (Js.toLowerCase (MU.email d)) <> EmptyString
    /\ Js.trim (MU.name d) <> EmptyString
    /\ Mongoose.enum MU.roles (MU.role d) = true.
Proof.
  unfold MU.create. intros H.
  destruct (MU.semester d) as [| sem]; [discriminate |].
  destruct (Mongoose.required (Js.trim (MU.name d))) eqn:En; [| discriminate].
  destruct (Mongoose.required (Js.trim (Js.toLowerCase (MU.email d)))) eqn:Ee;
    [| discriminate].
  destruct (Mongoose.enum MU.roles (MU.role d)) eqn:Er; [| discriminate].
  destruct (MU.findOne_email _ c) eqn:Ef; [discriminate |].
  simpl in H. injection H as <- <-. exists sem.
  repeat split; try reflexivity; try assumption.
  - intros F. rewrite F in Ee. discriminate.
  - intros F. rewrite F in En. discriminate.
Qed.

Lemma required_path_some (v : option string) (s : string) :
  MM.required_path v = Some s -> v = Some s /\ s <> EmptyString.
Proof.
  destruct v as [[| c r] |]; simpl; intros H; try discriminate.
  injection H as <-. split; [reflexivity | discriminate].
Qed.

Lemma create_material_stored (now : Z) (i : ObjectId) (d : MM.doc)
  (c c' : list Material.t) (m : Material.t) :
  MM.create now i d c = Mongoose.Ok (m, c') ->
  c' = (c ++ [m])%list
  /\ Material._id m = i
  /\ Material.likes m = MM.likes d
  /\ Material.downloads m = MM.downloads d
  /\ Material.createdAt m = now
  /\ Material.uploadedBy m = MM.uploadedBy d
  /\ Material.fileUrl m = MM.fileUrl d
  /\ Mongoose.enum MM.types (Material.type m) = true
  /\ Material.title m <> EmptyString
  /\ option_map Js.trim (MM.title d) = Some (Material.title m).
Proof.
  unfold MM.create. intros H.
  destruct (MM.required_path (option_map Js.trim (MM.title d))) as [t |] eqn:Et;
    [| discriminate].
  destruct (MM.required_path (MM.subject d)); [| discriminate].
  destruct (MM.required_path (MM.department d)); [| discriminate].
  destruct (MM.semester d); [discriminate |].
  destruct (MM.required_path (MM.type d)) as [ty |]; [| discriminate].
  destruct (Mongoose.enum MM.types ty) eqn:Ety; [| discriminate].
  apply required_path_some in Et. destruct Et as [Et Hne].
  simpl in H.
  destruct (MM.year d) as [[| y] |]; try discriminate;
    destruct (Mongoose.required (MM.fileUrl d)); try discriminate;
    destruct (Mongoose.required (MM.fileName d)); try discriminate;
    simpl in H; injection H as <- <-; simpl; repeat split; assumption.
Qed.

(** ** The effect of a request *)

Lemma chain_effect {A : Type} (now : Z) (s : stage A) (db : Db)
  (k : A -> response * Db) :
  (forall a, effect now db (snd (k a))) ->
  effect now db (snd (chain s db k)).
Proof.
  intros H. destruct s as [r | a]; simpl; [now apply effect_none | apply H].
Qed.

Ltac no_effect := apply effect_none; reflexivity.

Lemma handle_effect (now : Z) (r : request) (db : Db) :
  effect now db (snd (handle now r db)).
Proof.
  destruct r as [| salt b | b | tok | tok f b | tok q | tok i | tok i | tok i
                 | tok i | tok msg | tok | tok | tok];
    unfold handle, answered; cbn [fst snd]; try no_effect.
  - (* register *)
    unfold post_auth_register.
    destruct (present (RegisterBody.name b)); [| no_effect].
    destruct (present (RegisterBody.email b)) as [e |]; [| no_effect].
    destruct (present (RegisterBody.password b)); [| no_effect].
    destruct (present (RegisterBody.role b)) as [role |]; [| no_effect].
    destruct (MU.findOne_email _ (Users db)); [no_effect |].
    destruct (MU.create _ _ _ _) as [[u users'] | ex] eqn:E; [| no_effect].
    apply create_user_stored in E.
    destruct E as (sem & _ & -> & Hu & Hnone & Hne & _ & Hrole).
    cbn [MU.email MU.role] in *.
    assert (He : User.email u = Js.trim (Js.toLowerCase (Js.trim (Js.toLowerCase e))))
      by (rewrite Hu; reflexivity).
    assert (Hr : User.role u = role) by (rewrite Hu; reflexivity).
    assert (Hi : User._id u = fresh db) by (rewrite Hu; reflexivity).
    cbn [snd]. apply (effect_user now _ _ u); try reflexivity; try assumption.
    + now rewrite He.
    + unfold normal. rewrite He. apply normalise_idem.
    + now rewrite He.
    + now rewrite Hr.
  - unfold post_auth_login.
    repeat (break_goal; cbn [snd]; try no_effect).
  - unfold get_auth_me. apply chain_effect; intros a. break_goal; no_effect.
  - (* upload *)
    unfold post_materials.
    apply chain_effect; intros a. apply chain_effect; intros _.
    apply chain_effect; intros rf.
    destruct rf as [[filename rf] |]; [| no_effect].
    destruct (MM.create _ _ _ _) as [[m c'] | e] eqn:E; [| no_effect].
    apply create_material_stored in E.
    destruct E as (-> & Hid & Hl & Hd & Hc & _ & _ & Hty & Hti & _).
    cbn [snd]. now apply (effect_material now _ _ m).
  - unfold get_material. apply chain_effect; intros a. break_goal; no_effect.
  - (* like *)
    unfold post_material_like. apply chain_effect; intros a.
    destruct (MM.findById i (Materials db)) as [m |] eqn:E; [| no_effect].
    pose proof (findById_id _ _ _ E) as Hid. subst i. cbn [snd].
    now apply (effect_like now _ _ m (Jwt.userId a)).
  - (* download *)
    unfold post_material_download. apply chain_effect; intros a.
    destruct (MM.findById i (Materials db)) as [m |] eqn:E; [| no_effect].
    pose proof (findById_id _ _ _ E) as Hid. subst i. cbn [snd].
    rewrite num_or_zero. now apply (effect_download now _ _ m).
  - (* delete *)
    unfold delete_material. apply chain_effect; intros a.
    apply chain_effect; intros _.
    destruct (MM.findById i (Materials db)) as [m |] eqn:E; [| no_effect].
    cbn [snd]. now apply (effect_delete now _ _ i m).
  - (* chat *)
    unfold post_chat. apply chain_effect; intros a.
    destruct (present msg) as [message |] eqn:Ep; [| no_effect].
    unfold Mongoose.Chats.create.
    destruct (Mongoose.required message) eqn:Em; cbn [negb]; [| no_effect].
    rewrite chat_response_required. cbn [negb snd].
    eapply effect_chat; try reflexivity.
    cbn [Chat.message]. intros ->. discriminate.
  - unfold get_chat_history. apply chain_effect; intros a. no_effect.
  - unfold get_dashboard. apply chain_effect; intros a. no_effect.
  - unfold get_stats. apply chain_effect; intros a. no_effect.
Qed.

(** ** The collections stay as the server keeps them *)

Lemma findOne_email_none (e : string) (c : list User.t) :
  MU.findOne_email e c = None <-> ~ In e (map User.email c).
Proof.
  unfold MU.findOne_email. induction c as [| x c IH]; simpl.
  - split; [intros _ [] | reflexivity].
  - destruct (String.eqb_spec (User.email x) e) as [E | E].
    + split; [discriminate | intros H; exfalso; apply H; now left].
    + rewrite IH. tauto.
Qed.

Lemma enum_roles (r : string) :
  Mongoose.enum MU.roles r = true <-> r = "student" \/ r = "faculty".
Proof.
  unfold Mongoose.enum, MU.roles. simpl. rewrite !orb_true_iff, !String.eqb_eq.
  intuition discriminate.
Qed.

Lemma effect_fresh (now : Z) (db db' : Db) :
  effect now db db' -> (fresh db <= fresh db')%nat.
Proof.
  intros [-> | u -> _ _ _ _ _ | m -> _ _ _ _ _ _ | m u _ -> | m _ ->
          | i m _ -> | e -> _ _ _ _]; simpl; lia.
Qed.

Lemma effect_users (now : Z) (db db' : Db) :
  effect now db db' ->
  (Users db' = Users db /\ (fresh db <= fresh db')%nat)
  \/ exists u, Users db' = (Users db ++ [u])%list
               /\ fresh db' = S (fresh db)
               /\ User._id u = fresh db
               /\ MU.findOne_email (User.email u) (Users db) = None
               /\ normal (User.email u) /\ User.email u <> EmptyString
               /\ Mongoose.enum MU.roles (User.role u) = true.
Proof.
  intros [-> | u -> Hi Hn Hnorm Hne Hr | m -> _ _ _ _ _ _ | m u _ -> | m _ ->
          | i m _ -> | e -> _ _ _ _]; simpl;
    try (left; split; [reflexivity | lia]).
  right. exists u. repeat split; assumption.
Qed.

Lemma effect_users_ok (now : Z) (db db' : Db) :
  users_ok db -> effect now db db' -> users_ok db'.
Proof.
  unfold users_ok. intros (Hnd & Hnorm & Hrole & Hid) Heff.
  destruct (effect_users _ _ _ Heff)
    as [[-> Hfr] | (u & -> & Hfr & Hi & Hnone & Hn & Hne & Hr)].
  - repeat split; try assumption.
    eapply Forall_impl; [| exact Hid]. simpl. intros. lia.
  - repeat split.
    + rewrite map_app. simpl. apply NoDup_app; [assumption | |].
      * repeat constructor. simpl. tauto.
      * intros x Hx [<- | []]. now apply findOne_email_none in Hnone.
    + apply Forall_app. split; [assumption |].
      apply Forall_cons; [now split | apply Forall_nil].
    + apply Forall_app. split; [assumption |].
      apply Forall_cons; [now apply enum_roles | apply Forall_nil].
    + apply Forall_app. split.
      * eapply Forall_impl; [| exact Hid]. simpl. intros. lia.
      * apply Forall_cons; [lia | apply Forall_nil].
Qed.

Lemma effect_materials_ok (now : Z) (db db' : Db) :
  materials_ok db -> effect now db db' -> materials_ok db'.
Proof.
  unfold materials_ok. intros H Heff.
  destruct Heff as [-> | u -> _ _ _ _ _ | m -> _ _ Hd Hty Hti _ | m u Hm ->
                    | m Hm -> | i m _ -> | e -> _ _ _ _]; simpl;
    try assumption.
  - apply Forall_app. split; [assumption |].
    apply Forall_cons; [| apply Forall_nil]. repeat split; try assumption. lia.
  - apply (save_Forall _ now m); [exact Hm | | assumption]. simpl. tauto.
  - apply (save_Forall _ now m); [exact Hm | | assumption]. simpl.
    intros (Hd & Hty & Hti). repeat split; try assumption. lia.
  - now apply delete_Forall.
Qed.

Lemma effect_chats_ok (now : Z) (db db' : Db) :
  chats_ok db -> effect now db db' -> chats_ok db'.
Proof.
  unfold chats_ok. intros H Heff.
  destruct Heff as [-> | u -> _ _ _ _ _ | m -> _ _ _ _ _ _ | m u _ ->
                    | m _ -> | i m _ -> | e -> _ Hm Hr _]; simpl;
    try assumption.
  apply Forall_app. split; [assumption |].
  apply Forall_cons; [now split | apply Forall_nil].
Qed.

Lemma serve_inv (P : Db -> Prop) :
  (forall now db db', P db -> effect now db db' -> P db') ->
  forall rs db, P db -> P (serve rs db).
Proof.
  intros Hstep rs. induction rs as [| [now r] rs IH]; simpl; intros db H;
    [assumption |].
  apply IH. eapply Hstep; [exact H | apply handle_effect].
Qed.

(** The users collection keeps its shape under any sequence of requests:
    addresses stay distinct, trimmed, in lower case and not empty, roles
    stay among student and faculty, and identifiers stay fresh; the empty
    store has this shape; and requests only ever append users: no stored
    user is changed or removed. *)
Theorem X_users_invariant (rs : list (Z * request)) (db : Db) :
  users_ok empty_db
  /\ (users_ok db -> users_ok (serve rs db))
  /\ exists added, Users (serve rs db) = (Users db ++ added)%list.
Proof.
  split; [| split].
  - repeat split; constructor.
  - apply (serve_inv users_ok effect_users_ok).
  - apply serve_users.
Qed.

(** In the materials collection the download counter is never negative, the
    type is one of the four of the schema and the title is not empty, under
    any sequence of requests. *)
Theorem X_materials_invariant (rs : list (Z * request)) (db : Db) :
  materials_ok empty_db /\ (materials_ok db -> materials_ok (serve rs db)).
Proof.
  split; [constructor | apply (serve_inv materials_ok effect_materials_ok)].
Qed.

(** Every entry of the chat log holds a non-empty message and the answer
    that the keyword cascade gives to it, under any sequence of requests;
    and a request only ever appends to the log: stored entries are neither
    changed nor removed. *)
Theorem X_chat_log (rs : list (Z * request)) (db : Db) :
  (chats_ok db -> chats_ok (serve rs db))
  /\ exists added, Chats (serve rs db) = (Chats db ++ added)%list.
Proof.
  split; [apply (serve_inv chats_ok effect_chats_ok) |].
  revert db. induction rs as [| [now r] rs IH]; intros db; simpl.
  - exists []. now rewrite app_nil_r.
  - destruct (IH (snd (handle now r db))) as [added Hadd]. rewrite Hadd.
    destruct (handle_effect now r db)
      as [-> | u -> _ _ _ _ _ | m -> _ _ _ _ _ _ | m u _ -> | m _ ->
          | i m _ -> | e -> _ _ _ _]; simpl;
      try (now exists added).
    exists (e :: added). now rewrite <- app_assoc.
Qed.

(** ** The access gate *)

Ltac split_goal :=
  match goal with
  | |- context [match ?x with _ => _ end] => destruct x
  end.

(** Behind authMiddleware, a request without a token is answered 401 and a
    request whose token is forged or expired is answered 400, before the
    role is looked at and before any handler runs: the store is as it was. *)
Theorem X_access_gate (now : Z) (r : request) (authz : option Jwt.token)
  (db : Db) :
  authorization_of r = Some authz ->
  (authz = None ->
   handle now r db
   = (Some (error 401 "Access denied. No token provided."), db))
  /\ (forall t, authz = Some t ->
        Jwt.genuine t = false \/ Jwt.exp t <= Jwt.seconds now ->
        handle now r db = (Some (error 400 "Invalid token."), db)).
Proof.
  intros Hr.
  assert (Hbad : forall t,
             Jwt.genuine t = false \/ Jwt.exp t <= Jwt.seconds now ->
             authMiddleware now (Some t) = Responded (error 400 "Invalid token.")).
  { intros t H. unfold authMiddleware, Jwt.verify.
    destruct H as [-> | H]; [reflexivity |].
    destruct (Z.ltb_spec (Jwt.seconds now) (Jwt.exp t)); [lia |].
    now rewrite andb_false_r. }
  destruct r as [| salt b | b | tok | tok f b | tok q | tok i | tok i | tok i
                 | tok i | tok msg | tok | tok | tok];
    try discriminate; injection Hr as ->; split.
  all: try (intros ->; reflexivity).
  all: intros t -> H; unfold handle, answered, get_auth_me, post_materials,
         get_materials, get_material, post_material_like,
         post_material_download, delete_material, post_chat,
         get_chat_history, get_dashboard, get_stats;
       rewrite (Hbad t H); reflexivity.
Qed.

(** ** Requests that fail change nothing *)

Lemma chain_cases {A : Type} (s : stage A) (db : Db) (k : A -> response * Db)
  (P : response * Db -> Prop) :
  (forall r, P (r, db)) -> (forall a, P (k a)) -> P (chain s db k).
Proof. intros H1 H2. destruct s; simpl; [apply H1 | apply H2]. Qed.

Ltac by_chain :=
  match goal with
  | |- context [chain ?s ?d ?k] =>
      pattern (chain s d k); apply chain_cases; intro; cbv beta
  end.

Ltac by_cases := repeat first [by_chain | split_goal].

Ltac unfold_routes :=
  unfold handle, answered, post_auth_register, post_auth_login, get_auth_me,
    post_materials, get_materials, get_material, post_material_like,
    post_material_download, delete_material, post_chat, get_chat_history,
    get_dashboard, get_stats, get_root.

(** A request answered with a status of 400 or more leaves the store
    exactly as it was, and so does every request to a route that only
    reads. *)
Theorem X_failure_changes_nothing (now : Z) (r : request) (db : Db) :
  (mutating r = false -> snd (handle now r db) = db)
  /\ (forall resp,
        fst (handle now r db) = Some resp -> 400 <= status resp ->
        snd (handle now r db) = db).
Proof.
  split.
  - destruct r; intros Hm; try discriminate Hm; unfold_routes; by_cases;
      reflexivity.
  - intros resp. destruct r; unfold_routes; by_cases; cbn [fst snd];
      intros H Hs; try reflexivity;
      injection H as <-; cbn [status reply error] in Hs; lia.
Qed.

(** ** Register, Login, GetSelf *)

Lemma present_inv (v : option string) (s : string) :
  present v = Some s -> v = Some s /\ s <> EmptyString.
Proof.
  destruct v as [[| c r] |]; simpl; intros H; try discriminate.
  injection H as <-. split; [reflexivity | discriminate].
Qed.

(** Login never writes, and it answers 200 only for a stored user whose
    address is the normal form of the one given and whose hash was made
    from the password given; the answer then carries the summary of that
    user and a token for the user's id, role and address. *)
Theorem X_login_sound (now : Z) (b : LoginBody.t) (db : Db) :
  snd (post_auth_login now b db) = db
  /\ (status (fst (post_auth_login now b db)) = 200 ->
      exists u e p,
        In u (Users db)
        /\ LoginBody.email b = Some e /\ LoginBody.password b = Some p
        /\ User.email u = Js.trim (Js.toLowerCase e)
        /\ Bcrypt.compare p (User.password u) = true
        /\ field "user" (body (fst (post_auth_login now b db)))
           = Some (summary u)
        /\ field "token" (body (fst (post_auth_login now b db)))
           = Some (JTok (Jwt.sign {| Jwt.userId := User._id u;
                                     Jwt.role := User.role u;
                                     Jwt.email := User.email u |} now))).
Proof.
  unfold post_auth_login.
  destruct (present (LoginBody.email b)) as [e |] eqn:Ee;
    [| split; [reflexivity | discriminate]].
  destruct (present (LoginBody.password b)) as [p |] eqn:Ep;
    [| split; [reflexivity | discriminate]].
  destruct (MU.findOne_email _ (Users db)) as [u |] eqn:Eu;
    [| split; [reflexivity | discriminate]].
  destruct (Bcrypt.compare p (User.password u)) eqn:Ec;
    cbn [negb]; (split; [reflexivity |]); [| discriminate].
  intros _. apply present_inv in Ee. apply present_inv in Ep.
  apply find_some in Eu. destruct Eu as [Hin Heq].
  apply String.eqb_eq in Heq.
  exists u, e, p. repeat split; try tauto; assumption.
Qed.

(** What a registration answered 201 has done. *)
Lemma register_inv (now : Z) (salt : string) (b : RegisterBody.t) (db : Db) :
  status (fst (post_auth_register now salt b db)) = 201 ->
  exists e p u,
    RegisterBody.email b = Some e /\ RegisterBody.password b = Some p
    /\ p <> EmptyString
    /\ MU.findOne_email (Js.trim (Js.toLowerCase e)) (Users db) = None
    /\ User.email u = Js.trim (Js.toLowerCase e)
    /\ User.email u <> EmptyString
    /\ User._id u = fresh db
    /\ User.password u = Bcrypt.hash p 10 salt
    /\ post_auth_register now salt b db
       = (reply 201 (JObj [
            ("message", JStr "User registered successfully!");
            ("token", JTok (Jwt.sign {| Jwt.userId := User._id u;
                                        Jwt.role := User.role u;
                                        Jwt.email := User.email u |} now));
            ("user", summary u) ]),
          {| Users := (Users db ++ [u])%list; Materials := Materials db;
             Chats := Chats db; fresh := S (fresh db) |}).
Proof.
  unfold post_auth_register.
  destruct (present (RegisterBody.name b)) as [name |]; [| discriminate].
  destruct (present (RegisterBody.email b)) as [e |] eqn:Ee; [| discriminate].
  destruct (present (RegisterBody.password b)) as [p |] eqn:Ep; [| discriminate].
  destruct (present (RegisterBody.role b)) as [role |]; [| discriminate].
  destruct (MU.findOne_email _ (Users db)) eqn:Ef; [discriminate |].
  destruct (MU.create _ _ _ _) as [[u users'] | ex] eqn:E; [| discriminate].
  intros _. apply create_user_stored in E.
  destruct E as (sem & _ & -> & Hu & _ & Hne & _ & _).
  cbn [MU.email] in Hne. rewrite normalise_idem in Hne.
  apply present_inv in Ee. apply present_inv in Ep.
  assert (Hemail : User.email u = Js.trim (Js.toLowerCase e)).
  { rewrite Hu. cbn [User.email MU.email]. apply normalise_idem. }
  assert (Hid : User._id u = fresh db) by (rewrite Hu; reflexivity).
  assert (Hpw : User.password u = Bcrypt.hash p 10 salt)
    by (rewrite Hu; reflexivity).
  exists e, p, u.
  repeat split; try reflexivity; try tauto; try assumption.
  now rewrite Hemail.
Qed.

Lemma findOne_email_new (e : string) (c : list User.t) (u : User.t) :
  MU.findOne_email e c = None -> User.email u = e ->
  MU.findOne_email e (c ++ [u]) = Some u.
Proof.
  unfold MU.findOne_email. intros Hn He.
  induction c as [| x c IH]; simpl in *.
  - rewrite He, String.eqb_refl. reflexivity.
  - destruct (String.eqb (User.email x) e); [discriminate | now apply IH].
Qed.

(** After a registration answered 201, and whatever is served in between,
    a login under an address with the same normal form and with the
    password registered is answered 200 with the summary that the
    registration answered and a token for the same user id; with any other
    password it is answered 400. *)
Theorem X_login_after_register (now1 now2 : Z) (salt : string)
  (b : RegisterBody.t) (e p e' p' : string) (db : Db)
  (rs : list (Z * request)) :
  status (fst (post_auth_register now1 salt b db)) = 201 ->
  RegisterBody.email b = Some e ->
  RegisterBody.password b = Some p ->
  Js.trim (Js.toLowerCase e') = Js.trim (Js.toLowerCase e) ->
  p' <> EmptyString ->
  let registered := post_auth_register now1 salt b db in
  let db1 := serve rs (snd registered) in
  let login :=
    post_auth_login now2
      {| LoginBody.email := Some e'; LoginBody.password := Some p' |} db1 in
  (p' = p ->
   exists u,
     field "user" (body (fst registered)) = Some (summary u)
     /\ login
        = (reply 200 (JObj [
             ("message", JStr "Login successful!");
             ("token", JTok (Jwt.sign {| Jwt.userId := User._id u;
                                         Jwt.role := User.role u;
                                         Jwt.email := User.email u |} now2));
             ("user", summary u) ]),
           db1))
  /\ (p' <> p -> login = (error 400 "Invalid email or password", db1)).
Proof.
  intros H201 He Hp Hnorm Hp' registered db1 login.
  destruct (register_inv _ _ _ _ H201)
    as (e0 & p0 & u & He0 & Hp0 & _ & Hnone & Hemail & Hne & _ & Hpw & Hreg).
  assert (e0 = e) by congruence. assert (p0 = p) by congruence. subst e0 p0.
  assert (Hfound : MU.findOne_email (Js.trim (Js.toLowerCase e')) (Users db1)
                   = Some u).
  { destruct (serve_users rs (snd registered)) as [extra Hx].
    fold db1 in Hx. rewrite Hx. apply findOne_email_app.
    unfold registered. rewrite Hreg. cbn [snd Users]. rewrite Hnorm.
    now apply findOne_email_new. }
  assert (He' : e' <> EmptyString).
  { intros ->. apply Hne. rewrite Hemail, <- Hnorm. reflexivity. }
  assert (Hlogin : login =
    if negb (Bcrypt.compare p' (User.password u))
    then (error 400 "Invalid email or password", db1)
    else (reply 200 (JObj [
            ("message", JStr "Login successful!");
            ("token", JTok (Jwt.sign {| Jwt.userId := User._id u;
                                        Jwt.role := User.role u;
                                        Jwt.email := User.email u |} now2));
            ("user", summary u) ]), db1)).
  { unfold login, post_auth_login. cbn [LoginBody.email LoginBody.password].
    rewrite (present_some _ He'), (present_some _ Hp'), Hfound. reflexivity. }
  rewrite Hlogin, Hpw. unfold Bcrypt.compare, Bcrypt.hash. split.
  - intros ->. rewrite String.eqb_refl. exists u. split; [| reflexivity].
    unfold registered. rewrite Hreg. reflexivity.
  - intros Hd. apply String.eqb_neq in Hd. now rewrite Hd.
Qed.

Lemma findById_user_new (c : list User.t) (u : User.t) (n : nat) :
  Forall (fun x => (User._id x < n)%nat) c -> User._id u = n ->
  MU.findById n (c ++ [u]) = Some u.
Proof.
  unfold MU.findById. intros Hc Hu. induction c as [| x c IH]; simpl.
  - rewrite Hu, Nat.eqb_refl. reflexivity.
  - inversion Hc; subst.
    destruct (Nat.eqb_spec (User._id x) (User._id u)); [lia | now apply IH].
Qed.

Lemma findById_user_app (i : ObjectId) (c extra : list User.t) (u : User.t) :
  MU.findById i c = Some u -> MU.findById i (c ++ extra) = Some u.
Proof.
  unfold MU.findById. induction c as [| x c IH]; simpl; [discriminate |].
  destruct (Nat.eqb (User._id x) i); [easy | exact IH].
Qed.

(** The token that a registration answers opens GetSelf for seven days:
    until then, whatever is served in between, GetSelf with it answers the
    summary that the registration answered; from then on it answers 400. *)
Theorem X_me_after_register (now now' : Z) (salt : string)
  (b : RegisterBody.t) (db : Db) (rs : list (Z * request)) :
  users_ok db ->
  status (fst (post_auth_register now salt b db)) = 201 ->
  let registered := post_auth_register now salt b db in
  let db1 := serve rs (snd registered) in
  exists t s,
    field "token" (body (fst registered)) = Some (JTok t)
    /\ field "user" (body (fst registered)) = Some s
    /\ (Jwt.seconds now' < Jwt.seconds now + 7 * 24 * 60 * 60 ->
        get_auth_me now' (Some t) db1 = (reply 200 s, db1))
    /\ (Jwt.seconds now + 7 * 24 * 60 * 60 <= Jwt.seconds now' ->
        get_auth_me now' (Some t) db1 = (error 400 "Invalid token.", db1)).
Proof.
  intros (_ & _ & _ & Hids) H201 registered db1.
  destruct (register_inv _ _ _ _ H201)
    as (e & p & u & _ & _ & _ & _ & _ & _ & Hid & _ & Hreg).
  unfold registered. rewrite Hreg. cbn [fst body reply].
  eexists _, _. split; [reflexivity |]. split; [reflexivity |].
  assert (Hfound : MU.findById (User._id u) (Users db1) = Some u).
  { destruct (serve_users rs (snd registered)) as [extra Hx].
    fold db1 in Hx. rewrite Hx. apply findById_user_app.
    unfold registered. rewrite Hreg. cbn [snd Users].
    rewrite Hid. now apply findById_user_new. }
  fold registered. fold db1.
  unfold get_auth_me, authMiddleware, Jwt.verify, Jwt.sign.
  cbn [Jwt.genuine Jwt.exp Jwt.payload andb]. unfold Jwt.seven_days.
  split; intros Ht.
  - destruct (Z.ltb_spec (Jwt.seconds now') (Jwt.seconds now + 7 * 24 * 60 * 60));
      [| lia].
    cbn [chain Jwt.userId]. rewrite Hfound. reflexivity.
  - destruct (Z.ltb_spec (Jwt.seconds now') (Jwt.seconds now + 7 * 24 * 60 * 60));
      [lia | reflexivity].
Qed.

(** A registration answered 201 has stored, under the next identifier, the
    name trimmed, the address in normal form, the role given, which is
    student or faculty, the department given or Computer Science when it is
    absent or empty, the semester parsed or 1 when it is absent or empty,
    and a hash of the password given; no stored user had the address. *)
Theorem X_register_stores (now : Z) (salt : string) (b : RegisterBody.t)
  (db : Db) :
  status (fst (post_auth_register now salt b db)) = 201 ->
  exists name e p role u,
    RegisterBody.name b = Some name /\ RegisterBody.email b = Some e
    /\ RegisterBody.password b = Some p /\ RegisterBody.role b = Some role
    /\ Users (snd (post_auth_register now salt b db)) = (Users db ++ [u])%list
    /\ User._id u = fresh db
    /\ User.name u = Js.trim name /\ User.name u <> EmptyString
    /\ User.email u = Js.trim (Js.toLowerCase e)
    /\ ~ In (User.email u) (map User.email (Users db))
    /\ User.role u = role /\ (role = "student" \/ role = "faculty")
    /\ Bcrypt.compare p (User.password u) = true
    /\ User.department u
       = Js.or_else (RegisterBody.department b) "Computer Science"
    /\ Js.Num (User.semester u)
       = (if Js.truthy_opt (RegisterBody.semester b)
          then Js.parseInt_opt (RegisterBody.semester b) else Js.Num 1).
Proof.
  unfold post_auth_register.
  destruct (present (RegisterBody.name b)) as [name |] eqn:En; [| discriminate].
  destruct (present (RegisterBody.email b)) as [e |] eqn:Ee; [| discriminate].
  destruct (present (RegisterBody.password b)) as [p |] eqn:Ep; [| discriminate].
  destruct (present (RegisterBody.role b)) as [role |] eqn:Er; [| discriminate].
  destruct (MU.findOne_email _ (Users db)) eqn:Ef; [discriminate |].
  destruct (MU.create _ _ _ _) as [[u users'] | ex] eqn:E; [| discriminate].
  intros _. apply create_user_stored in E.
  destruct E as (sem & Hsem & -> & Hu & Hnone & _ & Hname & Hrole).
  cbn [MU.email MU.name MU.role MU.semester] in *.
  rewrite normalise_idem in Hnone. rewrite trim_idem in Hname.
  apply present_inv in En. apply present_inv in Ee.
  apply present_inv in Ep. apply present_inv in Er.
  exists name, e, p, role, u. rewrite Hu.
  cbn [User.email User.name User._id User.password User.role User.department
       User.semester MU.email MU.name MU.role MU.password MU.department snd Users].
  rewrite normalise_idem, trim_idem.
  repeat split; try tauto; try assumption.
  - now apply findOne_email_none.
  - now apply enum_roles.
  - unfold Bcrypt.compare, Bcrypt.hash. apply String.eqb_refl.
  - now rewrite Hsem.
Qed.

(** ** Upload *)

Lemma create_material_fields (now : Z) (i : ObjectId) (d : MM.doc)
  (c c' : list Material.t) (m : Material.t) :
  MM.create now i d c = Mongoose.Ok (m, c') ->
  MM.subject d = Some (Material.subject m)
  /\ Material.subject m <> EmptyString
  /\ MM.department d = Some (Material.department m)
  /\ Material.department m <> EmptyString
  /\ MM.semester d = Js.Num (Material.semester m)
  /\ MM.type d = Some (Material.type m)
  /\ Material.description m = MM.description d
  /\ Material.fileName m = MM.fileName d
  /\ Material.fileName m <> EmptyString
  /\ Material.uploadedByName m = MM.uploadedByName d
  /\ MM.year d <> Some Js.NaN
  /\ option_map Js.Num (Material.year m) = MM.year d.
Proof.
  unfold MM.create. intros H.
  destruct (MM.required_path (option_map Js.trim (MM.title d))) as [t |];
    [| discriminate].
  destruct (MM.required_path (MM.subject d)) as [su |] eqn:Es; [| discriminate].
  destruct (MM.required_path (MM.department d)) as [de |] eqn:Ed;
    [| discriminate].
  destruct (MM.semester d) as [| z]; [discriminate |].
  destruct (MM.required_path (MM.type d)) as [ty |] eqn:Et; [| discriminate].
  destruct (Mongoose.enum MM.types ty); [| discriminate].
  apply required_path_some in Es. apply required_path_some in Ed.
  apply required_path_some in Et.
  simpl in H.
  destruct (MM.year d) as [[| y] |]; try discriminate;
    destruct (Mongoose.required (MM.fileUrl d)); try discriminate;
    destruct (Mongoose.required (MM.fileName d)) eqn:Ef; try discriminate;
    simpl in H; injection H as <- <-; simpl;
    repeat split; try tauto; try discriminate;
    intros F; rewrite F in Ef; discriminate.
Qed.

(** What an upload answered 201 has done. *)
Lemma upload_inv (now : Z) (authorization : option Jwt.token)
  (file : option File.t) (b : UploadBody.t) (db : Db) :
  status (fst (post_materials now authorization file b db)) = 201 ->
  exists user f m d,
    authenticated now authorization user /\ Jwt.role user = "faculty"
    /\ file = Some f /\ File.size f <= fileSize_limit
    /\ MM.create now (fresh db) d (Materials db)
       = Mongoose.Ok (m, (Materials db ++ [m])%list)
    /\ MM.title d = UploadBody.title b
    /\ MM.subject d = UploadBody.subject b
    /\ MM.department d = UploadBody.department b
    /\ MM.semester d = Js.parseInt_opt (UploadBody.semester b)
    /\ MM.type d = UploadBody.type b
    /\ MM.description d = Js.or_else (UploadBody.description b) EmptyString
    /\ MM.fileName d = File.originalname f
    /\ MM.fileUrl d = "/uploads/" ++ Js.toString now ++ "-" ++ File.originalname f
    /\ MM.uploadedBy d = Jwt.userId user
    /\ MM.likes d = [] /\ MM.downloads d = 0
    /\ post_materials now authorization file b db
       = (reply 201 (JObj [ ("message", JStr "Material uploaded successfully!");
                            ("material", with_id m) ]),
          {| Users := Users db; Materials := (Materials db ++ [m])%list;
             Chats := Chats db; fresh := S (fresh db) |}).
Proof.
  unfold post_materials.
  destruct (authMiddleware now authorization) as [r | user] eqn:Ea;
    cbn [chain fst].
  { unfold authMiddleware in Ea.
    destruct authorization as [t |]; [destruct (Jwt.verify t now) |];
      try discriminate Ea; injection Ea as <-; discriminate. }
  unfold facultyOnly.
  destruct (String.eqb_spec (Jwt.role user) "faculty") as [Hrole | Hrole];
    cbn [negb chain fst]; [| discriminate].
  unfold upload_single. destruct file as [f |]; cbn [chain fst]; [| discriminate].
  destruct (Z.ltb_spec fileSize_limit (File.size f)) as [Hs | Hs];
    cbn [chain fst]; [discriminate |].
  match goal with
  | |- context [MM.create ?n ?i ?d ?c] =>
      destruct (MM.create n i d c) as [[m c'] | ex] eqn:E; [| discriminate];
      intros _; exists user, f, m, d
  end.
  pose proof (create_material_stored _ _ _ _ _ _ E) as (-> & _).
  repeat split; try assumption; reflexivity.
Qed.

(** An upload answered 201 came from a faculty token with a file of at
    most 50 MB, and what it stored is what was sent: the title trimmed and
    not empty, the subject and department as given and not empty, the
    semester parsed, the type as given and one of the four of the schema,
    the description or the empty text, the file under /uploads/ with the
    time and a dash before its name, and the uploader's id. *)
Theorem X_upload_stores (now : Z) (authorization : option Jwt.token)
  (file : option File.t) (b : UploadBody.t) (db : Db) :
  status (fst (post_materials now authorization file b db)) = 201 ->
  exists user f m,
    authenticated now authorization user /\ Jwt.role user = "faculty"
    /\ file = Some f /\ File.size f <= 50 * 1024 * 1024
    /\ Materials (snd (post_materials now authorization file b db))
       = (Materials db ++ [m])%list
    /\ option_map Js.trim (UploadBody.title b) = Some (Material.title m)
    /\ Material.title m <> EmptyString
    /\ UploadBody.subject b = Some (Material.subject m)
    /\ Material.subject m <> EmptyString
    /\ UploadBody.department b = Some (Material.department m)
    /\ Material.department m <> EmptyString
    /\ Js.parseInt_opt (UploadBody.semester b) = Js.Num (Material.semester m)
    /\ UploadBody.type b = Some (Material.type m)
    /\ In (Material.type m) ["notes"; "pyq"; "syllabus"; "reference"]
    /\ Material.description m = Js.or_else (UploadBody.description b) EmptyString
    /\ Material.fileName m = File.originalname f
    /\ Material.fileUrl m
       = "/uploads/" ++ Js.toString now ++ "-" ++ File.originalname f
    /\ Material.uploadedBy m = Jwt.userId user.
Proof.
  intros H201.
  destruct (upload_inv _ _ _ _ _ H201)
    as (user & f & m & d & Hauth & Hrole & Hfile & Hsize & E & Dti & Dsu & Dde
        & Dse & Dty & Ddesc & Dfn & Durl & Dby & _ & _ & Hpost).
  pose proof (create_material_fields _ _ _ _ _ _ E) as Hf.
  apply create_material_stored in E.
  destruct E as (_ & _ & _ & _ & _ & Hby & Hurl & Hty & Hti & Htitle).
  destruct Hf as (Hsu & Hsu' & Hde & Hde' & Hse & Htype & Hdesc & Hfn & _ & _).
  exists user, f, m. rewrite Hpost. cbn [snd Materials].
  unfold fileSize_limit in Hsize.
  repeat split; try assumption; try congruence.
  unfold Mongoose.enum, MM.types in Hty. apply existsb_exists in Hty.
  destruct Hty as (x & Hin & Hx). apply String.eqb_eq in Hx. now subst x.
Qed.

(** Under the store's guarantee on identifiers, an upload answered 201 has
    stored its material under the next identifier with no like and no
    download, the answer shows it, and GetMaterial on that identifier
    answers the same material; every material stored before is found as
    before. *)
Theorem X_upload_then_get (now now' : Z) (authorization authorization' : option Jwt.token)
  (user' : Jwt.claims) (file : option File.t) (b : UploadBody.t) (db : Db) :
  wf db ->
  status (fst (post_materials now authorization file b db)) = 201 ->
  authenticated now' authorization' user' ->
  let uploaded := post_materials now authorization file b db in
  exists m,
    Material._id m = fresh db
    /\ Material.likes m = [] /\ Material.downloads m = 0
    /\ Material.createdAt m = now
    /\ field "material" (body (fst uploaded)) = Some (with_id m)
    /\ get_material now' authorization' (Material._id m) (snd uploaded)
       = (reply 200 (with_id m), snd uploaded)
    /\ forall j old,
         MM.findById j (Materials db) = Some old ->
         MM.findById j (Materials (snd uploaded)) = Some old.
Proof.
  intros [_ Hfr] H201 Hauth'. cbv zeta.
  destruct (upload_inv _ _ _ _ _ H201)
    as (user & f & m & d & _ & _ & _ & _ & E & _ & _ & _ & _ & _ & _ & _ & _
        & _ & Dl & Dd & Hpost).
  apply create_material_stored in E.
  destruct E as (_ & Hid & Hl & Hdl & Hc & _).
  rewrite Hpost. exists m. cbn [fst snd body reply Materials].
  assert (Hnew : MM.findById (fresh db) (Materials db) = None).
  { apply findById_None. intros F. rewrite Forall_forall in Hfr.
    apply Hfr in F. lia. }
  repeat split; try congruence.
  - unfold get_material. rewrite Hauth'. cbn [chain Materials].
    rewrite findById_app, Hid, Hnew, Nat.eqb_refl. reflexivity.
  - intros j old Hj. now rewrite findById_app, Hj.
Qed.

(** ** Likes, downloads, delete *)

(** A like request, whatever its answer, leaves every download counter as
    it was and touches no other material; a download request leaves every
    likes array as it was and touches no other material. *)
Theorem X_like_and_download_apart (now : Z) (authorization : option Jwt.token)
  (id j : ObjectId) (db : Db) (m : Material.t) :
  MM.findById j (Materials db) = Some m ->
  (exists m',
     MM.findById j (Materials (snd (post_material_like now authorization id db)))
     = Some m'
     /\ Material.downloads m' = Material.downloads m
     /\ (j <> id -> m' = m))
  /\ (exists m',
        MM.findById j
          (Materials (snd (post_material_download now authorization id db)))
        = Some m'
        /\ Material.likes m' = Material.likes m
        /\ (j <> id -> m' = m)).
Proof.
  intros Hm. split.
  - unfold post_material_like.
    destruct (authMiddleware now authorization) as [r | user]; cbn [chain snd];
      [now exists m |].
    destruct (MM.findById id (Materials db)) as [x |] eqn:Hx; cbn [snd];
      [| now exists m].
    pose proof (findById_id _ _ _ Hx) as Hid. cbn [Materials with_materials].
    destruct (Nat.eq_dec j id) as [-> | Hne].
    + assert (x = m) by congruence. subst x.
      eexists. split; [apply (findById_save_found now id m); [exact Hm | exact Hid] |].
      split; [reflexivity | congruence].
    + exists m. rewrite findById_save_other by (simpl; congruence).
      repeat split. exact Hm.
  - unfold post_material_download.
    destruct (authMiddleware now authorization) as [r | user]; cbn [chain snd];
      [now exists m |].
    destruct (MM.findById id (Materials db)) as [x |] eqn:Hx; cbn [snd];
      [| now exists m].
    pose proof (findById_id _ _ _ Hx) as Hid. cbn [Materials with_materials].
    destruct (Nat.eq_dec j id) as [-> | Hne].
    + assert (x = m) by congruence. subst x.
      eexists. split; [apply (findById_save_found now id m); [exact Hm | exact Hid] |].
      split; [reflexivity | congruence].
    + exists m. rewrite findById_save_other by (simpl; congruence).
      repeat split. exact Hm.
Qed.

(** On a material whose likes hold no duplicate, one like request flips the
    state of the user: when the user was not in the likes it answers one
    like more and isLiked true, when the user was in them it answers one
    like less and isLiked false. *)
Theorem X_like_flips (now : Z) (authorization : option Jwt.token)
  (user : Jwt.claims) (id : ObjectId) (db : Db) (m : Material.t) :
  authenticated now authorization user ->
  MM.findById id (Materials db) = Some m ->
  NoDup (Material.likes m) ->
  let n := Z.of_nat (List.length (Material.likes m)) in
  let liked := existsb (Nat.eqb (Jwt.userId user)) (Material.likes m) in
  fst (post_material_like now authorization id db)
  = reply 200 (JObj [ ("message", JStr "Like updated");
                      ("likes", JNum (if liked then n - 1 else n + 1));
                      ("isLiked", JBool (negb liked)) ]).
Proof.
  intros Hauth Hm Hnd n liked.
  rewrite (like_found _ _ _ _ _ _ Hauth Hm). cbn [fst]. unfold like_body.
  set (u := Jwt.userId user) in *.
  destruct liked eqn:El; unfold liked in El.
  - apply existsb_eqb_In in El.
    destruct (toggled_present u _ El) as (a & b & Hl & Ha & ->).
    assert (Hout : ~ In u (a ++ b)).
    { rewrite Hl in Hnd. now apply NoDup_remove_2 in Hnd. }
    apply existsb_eqb_false in Hout. rewrite Hout.
    assert (Hlen : Z.of_nat (List.length (a ++ b)) = n - 1).
    { unfold n. rewrite Hl, !length_app. simpl. lia. }
    rewrite Hlen. reflexivity.
  - apply existsb_eqb_false in El. rewrite (toggled_absent u _ El).
    assert (Hin : In u (Material.likes m ++ [u]))
      by (apply in_or_app; right; now left).
    apply existsb_eqb_In in Hin. rewrite Hin.
    assert (Hlen : Z.of_nat (List.length (Material.likes m ++ [u])) = n + 1).
    { unfold n. rewrite length_app. simpl. lia. }
    rewrite Hlen. reflexivity.
Qed.

Lemma delete_is_filter (i : ObjectId) (c : list Material.t) :
  NoDup (ids c) ->
  MM.findByIdAndDelete i c
  = filter (fun m => negb (Nat.eqb (Material._id m) i)) c.
Proof.
  unfold ids. induction c as [| x c IH]; simpl; intros H; [reflexivity |].
  inversion H as [| ? ? Hx Hc]; subst.
  destruct (Nat.eqb_spec (Material._id x) i) as [E | E]; simpl.
  - symmetry. apply forallb_filter_id. apply forallb_forall. intros y Hy.
    apply negb_true_iff, Nat.eqb_neq. intros F. apply Hx.
    rewrite E, <- F. now apply in_map.
  - f_equal. now apply IH.
Qed.

Lemma delete_length (i : ObjectId) (c : list Material.t) (m : Material.t) :
  MM.findById i c = Some m ->
  S (List.length (MM.findByIdAndDelete i c)) = List.length c.
Proof.
  unfold MM.findById. induction c as [| x c IH]; simpl; [discriminate |].
  destruct (Nat.eqb (Material._id x) i); [reflexivity |].
  intros H. simpl. f_equal. now apply IH.
Qed.

(** Under the store's guarantee on identifiers, a delete by a faculty
    member of an existing material removes that material and nothing else:
    the collection is the one before without the documents of that id, in
    the same order, it is one shorter, and every other material is found
    as before. *)
Theorem X_delete_exactly_one (now : Z) (authorization : option Jwt.token)
  (user : Jwt.claims) (id : ObjectId) (db : Db) (m : Material.t) :
  authenticated now authorization user ->
  Jwt.role user = "faculty" ->
  wf db ->
  MM.findById id (Materials db) = Some m ->
  let db' := snd (delete_material now authorization id db) in
  Materials db'
  = filter (fun x => negb (Nat.eqb (Material._id x) id)) (Materials db)
  /\ S (List.length (Materials db')) = List.length (Materials db)
  /\ Users db' = Users db /\ Chats db' = Chats db
  /\ forall j, j <> id ->
       MM.findById j (Materials db') = MM.findById j (Materials db).
Proof.
  intros Hauth Hrole [Hnd _] Hm. cbv zeta.
  rewrite (delete_found _ _ _ _ _ _ Hauth Hrole Hm).
  cbn [snd with_materials Materials Users Chats].
  repeat split.
  - now apply delete_is_filter.
  - now apply (delete_length id _ m).
  - intros j Hj. now apply findById_delete_other.
Qed.

(** ** Dashboard and statistics *)

Lemma count_roles (c : list User.t) :
  Forall (fun u => User.role u = "student" \/ User.role u = "faculty") c ->
  MU.countDocuments_role "student" c + MU.countDocuments_role "faculty" c
  = Z.of_nat (List.length c).
Proof.
  unfold MU.countDocuments_role. intros H. rewrite <- Nat2Z.inj_add. f_equal.
  induction c as [| x c IH]; [reflexivity |].
  inversion H as [| ? ? Hx Hc]; subst. specialize (IH Hc). simpl.
  destruct Hx as [-> | ->]; simpl; lia.
Qed.

Lemma fold_downloads (l : list Material.t) (a : Z) :
  fold_left (fun sum m => sum + Js.num_or (Js.Num (Material.downloads m)) 0) l a
  = a + sum_downloads l.
Proof.
  unfold sum_downloads. revert a.
  induction l as [| x l IH]; intros a; cbn [fold_left].
  - lia.
  - rewrite (IH (a + _)), (IH (0 + _)). lia.
Qed.

Lemma sum_downloads_cons (x : Material.t) (l : list Material.t) :
  sum_downloads (x :: l) = Material.downloads x + sum_downloads l.
Proof.
  unfold sum_downloads at 1. cbn [fold_left].
  rewrite fold_downloads, num_or_zero. lia.
Qed.

Lemma sum_downloads_save (now : Z) (m m' : Material.t) (c : list Material.t) :
  MM.findById (Material._id m') c = Some m ->
  sum_downloads (MM.save now m' c)
  = sum_downloads c - Material.downloads m + Material.downloads m'.
Proof.
  unfold MM.findById. induction c as [| x c IH]; simpl; [discriminate |].
  destruct (Nat.eqb (Material._id x) (Material._id m')).
  - intros [= ->]. rewrite !sum_downloads_cons. simpl. lia.
  - intros H. rewrite !sum_downloads_cons, (IH H). lia.
Qed.

Lemma sum_downloads_nonneg (c : list Material.t) :
  Forall (fun m => 0 <= Material.downloads m) c -> 0 <= sum_downloads c.
Proof.
  induction c as [| x c IH]; intros H; [reflexivity |].
  inversion H; subst. rewrite sum_downloads_cons. specialize (IH H3). lia.
Qed.

(** For an authenticated caller the dashboard and the statistics route
    report the same totals; the students and the faculty members add up to
    the users, the question papers are among the materials, and the total
    of downloads is not negative, in a store as the server keeps it. *)
Theorem X_counts (now : Z) (authorization : option Jwt.token)
  (user : Jwt.claims) (db : Db) :
  authenticated now authorization user ->
  users_ok db -> materials_ok db ->
  exists materials pyqs downloads students faculty,
    dashboard_stat "totalMaterials" now authorization db = Some materials
    /\ dashboard_stat "totalPYQs" now authorization db = Some pyqs
    /\ dashboard_stat "totalDownloads" now authorization db = Some downloads
    /\ dashboard_stat "totalStudents" now authorization db = Some students
    /\ dashboard_stat "totalFaculty" now authorization db = Some faculty
    /\ stat "totalMaterials" now authorization db = Some materials
    /\ stat "totalDownloads" now authorization db = Some downloads
    /\ stat "totalStudents" now authorization db = Some students
    /\ stat "totalFaculty" now authorization db = Some faculty
    /\ materials = Z.of_nat (List.length (Materials db))
    /\ students + faculty = Z.of_nat (List.length (Users db))
    /\ 0 <= pyqs <= materials
    /\ 0 <= downloads.
Proof.
  intros Hauth (_ & _ & Hroles & _) Hmat.
  unfold dashboard_stat, stat, get_dashboard, get_stats. rewrite Hauth.
  cbn [chain fst body reply].
  eexists _, _, _, _, _.
  repeat (split; [reflexivity |]).
  split; [now apply count_roles |].
  split.
  - split; [lia |]. apply Nat2Z.inj_le. apply filter_length_le.
  - apply sum_downloads_nonneg. eapply Forall_impl; [| exact Hmat].
    simpl. tauto.
Qed.

(** After an authenticated download of an existing material the total of
    downloads that the statistics route reports is exactly one higher;
    after a like it is as before. *)
Theorem X_total_downloads (now now' : Z)
  (authorization authorization' : option Jwt.token)
  (user user' : Jwt.claims) (id : ObjectId) (db : Db) (m : Material.t) :
  authenticated now authorization user ->
  authenticated now' authorization' user' ->
  MM.findById id (Materials db) = Some m ->
  exists total,
    stat "totalDownloads" now' authorization' db = Some total
    /\ stat "totalDownloads" now' authorization'
         (snd (post_material_download now authorization id db))
       = Some (total + 1)
    /\ stat "totalDownloads" now' authorization'
         (snd (post_material_like now authorization id db))
       = Some total.
Proof.
  intros Hauth Hauth' Hm.
  pose proof (findById_id _ _ _ Hm) as Hid.
  rewrite (download_found _ _ _ _ _ _ Hauth Hm).
  rewrite (like_found _ _ _ _ _ _ Hauth Hm).
  assert (Hd : sum_downloads
                 (MM.save now
                    (Material.set_downloads (Material.downloads m + 1) m)
                    (Materials db))
               = sum_downloads (Materials db) + 1).
  { rewrite (sum_downloads_save now m); [| simpl; now rewrite Hid].
    cbn [Material.downloads Material.set_downloads]. lia. }
  assert (Hl : forall l,
             sum_downloads
               (MM.save now (Material.set_likes l m) (Materials db))
             = sum_downloads (Materials db)).
  { intros l. rewrite (sum_downloads_save now m); [| simpl; now rewrite Hid].
    cbn [Material.downloads Material.set_likes]. lia. }
  unfold stat, get_stats. rewrite Hauth'.
  cbn [chain fst snd body reply with_materials Materials Users].
  rewrite Hd, Hl.
  exists (sum_downloads (Materials db)). repeat split.
Qed.

(** ** Chat history *)

Lemma In_firstn {A : Type} (n : nat) (l : list A) (x : A) :
  In x (firstn n l) -> In x l.
Proof.
  intros H. rewrite <- (firstn_skipn n l). apply in_or_app. now left.
Qed.

Lemma In_skipn {A : Type} (n : nat) (l : list A) (x : A) :
  In x (skipn n l) -> In x l.
Proof.
  intros H. rewrite <- (firstn_skipn n l). apply in_or_app. now right.
Qed.

Lemma StronglySorted_firstn {A : Type} (R : A -> A -> Prop) (n : nat)
  (l : list A) :
  StronglySorted R l -> StronglySorted R (firstn n l).
Proof.
  revert l. induction n as [| n IH]; intros l H; [constructor |].
  destruct l as [| x l]; [constructor |].
  inversion H as [| ? ? Hl Hx]; subst. simpl. constructor; [now apply IH |].
  rewrite Forall_forall in *. intros y Hy. apply Hx.
  now apply (In_firstn n).
Qed.

Lemma StronglySorted_skipn {A : Type} (R : A -> A -> Prop) (n : nat)
  (l : list A) :
  StronglySorted R l -> StronglySorted R (skipn n l).
Proof.
  revert l. induction n as [| n IH]; intros l H; [exact H |].
  destruct l as [| x l]; [constructor |].
  inversion H; subst. simpl. now apply IH.
Qed.

(** The chat history of an authenticated caller is read without writing:
    at most 50 entries, newest first, each one a stored entry of the
    caller; when the caller has at most 50 entries, all of them. *)
Theorem X_chat_history (now : Z) (authorization : option Jwt.token)
  (user : Jwt.claims) (db : Db) :
  authenticated now authorization user ->
  exists l,
    get_chat_history now authorization db
    = (reply 200 (JArr (map history_entry l)), db)
    /\ (List.length l <= 50)%nat
    /\ newest_chat_first l
    /\ (forall e, In e l ->
          In e (Chats db) /\ Chat.userId e = Jwt.userId user)
    /\ ((List.length (Mongoose.Chats.find_userId (Jwt.userId user) (Chats db))
         <= 50)%nat ->
        Permutation l
          (Mongoose.Chats.find_userId (Jwt.userId user) (Chats db))).
Proof.
  intros Hauth. unfold get_chat_history. rewrite Hauth. cbn [chain].
  set (own := Mongoose.Chats.find_userId (Jwt.userId user) (Chats db)).
  exists (firstn 50 (Mongoose.sort_desc Chat.createdAt own)).
  split; [reflexivity |].
  split; [apply firstn_le_length |].
  split; [apply StronglySorted_firstn, sort_desc_sorted |].
  split.
  - intros e He. apply In_firstn in He.
    apply (Permutation_in _ (sort_desc_perm Chat.createdAt own)) in He.
    unfold own, Mongoose.Chats.find_userId in He. apply filter_In in He.
    destruct He as [Hin Hu]. apply Nat.eqb_eq in Hu. now split.
  - intros Hlen. rewrite firstn_all2; [apply sort_desc_perm |].
    rewrite (Permutation_length (sort_desc_perm Chat.createdAt own)).
    exact Hlen.
Qed.

Lemma sort_desc_newest {A : Type} (key : A -> Z) (l : list A) (e : A) :
  Forall (fun x => key x < key e) l ->
  Mongoose.sort_desc key (l ++ [e]) = e :: Mongoose.sort_desc key l.
Proof.
  induction l as [| x l IH]; intros H; [reflexivity |].
  inversion H as [| ? ? Hx Hl]; subst. simpl. rewrite (IH Hl). simpl.
  destruct (Z.ltb_spec (key x) (key e)); [reflexivity | lia].
Qed.

(** A chat exchange made after every stored one is the first entry of the
    history that the same user then reads: it holds the message and the
    answer that the chat request returned. *)
Theorem X_chat_then_history (now now' : Z)
  (authorization authorization' : option Jwt.token)
  (user user' : Jwt.claims) (message : string) (db : Db) :
  authenticated now authorization user ->
  authenticated now' authorization' user' ->
  Jwt.userId user' = Jwt.userId user ->
  message <> EmptyString ->
  Forall (fun e => Chat.createdAt e < now) (Chats db) ->
  let chatted := post_chat now authorization (Some message) db in
  exists e rest,
    fst (get_chat_history now' authorization' (snd chatted))
    = reply 200 (JArr (history_entry e :: rest))
    /\ Chat.message e = message
    /\ fst chatted = reply 200 (JObj [("response", JStr (Chat.response e))])
    /\ Chat.userId e = Jwt.userId user
    /\ Chat.createdAt e = now.
Proof.
  intros Hauth Hauth' Hu Hmsg Hold. cbv zeta.
  rewrite (chat_answered _ _ _ _ _ Hauth Hmsg). cbn [fst snd].
  unfold get_chat_history. rewrite Hauth'. cbn [chain fst Chats].
  unfold Mongoose.Chats.find_userId. rewrite filter_app. cbn [filter Chat.userId].
  rewrite Hu, Nat.eqb_refl.
  rewrite sort_desc_newest.
  - cbn [firstn map]. eexists _, _. repeat split.
  - cbn [Chat.createdAt]. apply Forall_forall. intros x Hx.
    apply filter_In in Hx. destruct Hx as [Hx _].
    rewrite Forall_forall in Hold. now apply Hold.
Qed.

(** ** ListMaterials *)

Lemma find_incl (q : MM.query) (c found : list Material.t) :
  MM.find q c = Some (Mongoose.Ok found) -> incl found c.
Proof.
  unfold MM.find. intros H.
  destruct (MM.cast_semester (MM.q_semester q)); [| discriminate].
  destruct (MM.opt_compile Regex.compile (MM.q_subject q)); [| discriminate].
  destruct (MM.opt_compile MM.compile_alts (MM.q_or q)); [| discriminate].
  injection H as <-. intros x Hx. apply filter_In in Hx. tauto.
Qed.

(** What a ListMaterials answer of status 200 is made of. *)
Lemma list_inv (now : Z) (authorization : option Jwt.token) (q : ListQuery.t)
  (db : Db) (resp : response) :
  get_materials now authorization q db = Some resp ->
  status resp = 200 ->
  exists found,
    MM.find (build_query q) (Materials db) = Some (Mongoose.Ok found)
    /\ 0 <= (page_of q - 1) * limit_of q
    /\ resp = reply 200 (JArr (map with_id
         (firstn (Z.abs_nat (limit_of q))
            (skipn (Z.to_nat ((page_of q - 1) * limit_of q))
               (Mongoose.sort_desc Material.createdAt found))))).
Proof.
  unfold get_materials. fold (page_of q). fold (limit_of q).
  destruct (authMiddleware now authorization) as [r | user] eqn:Ea.
  { unfold authMiddleware in Ea. intros [= <-].
    destruct authorization as [t |]; [destruct (Jwt.verify t now) |];
      try discriminate Ea; injection Ea as <-; discriminate. }
  destruct (MM.find (build_query q) (Materials db)) as [[found | ex] |];
    [| intros [= <-]; discriminate | discriminate].
  unfold Mongoose.skip_limit.
  destruct (Z.ltb_spec ((page_of q - 1) * limit_of q) 0);
    [intros [= <-]; discriminate |].
  intros [= <-] _. exists found. repeat split. assumption.
Qed.

(** A ListMaterials answer of status 200 is an array of stored materials,
    newest first, of at most limit entries in absolute value, hence of at
    most 100 when the request names no limit. *)
Theorem X_list_page_bound (now : Z) (authorization : option Jwt.token)
  (q : ListQuery.t) (db : Db) (resp : response) :
  get_materials now authorization q db = Some resp ->
  status resp = 200 ->
  exists ms,
    body resp = JArr (map with_id ms)
    /\ (List.length ms <= Z.abs_nat (limit_of q))%nat
    /\ (ListQuery.limit q = None -> (List.length ms <= 100)%nat)
    /\ incl ms (Materials db)
    /\ newest_first ms.
Proof.
  intros H H200. destruct (list_inv _ _ _ _ _ H H200) as (found & Hf & _ & ->).
  eexists. split; [reflexivity |].
  split; [apply firstn_le_length |].
  split.
  - intros Hl. replace 100%nat with (Z.abs_nat (limit_of q));
      [apply firstn_le_length |].
    unfold limit_of. rewrite Hl. reflexivity.
  - split.
    + intros x Hx. apply In_firstn, In_skipn in Hx.
      apply (Permutation_in _ (sort_desc_perm Material.createdAt found)) in Hx.
      now apply (find_incl _ _ _ Hf).
    + apply StronglySorted_firstn, StronglySorted_skipn, sort_desc_sorted.
Qed.

Lemma build_query_filters (q1 q2 : ListQuery.t) :
  same_filters q1 q2 -> build_query q1 = build_query q2.
Proof.
  intros (Hd & Hs & Hsu & Ht & Hse). unfold build_query.
  now rewrite Hd, Hs, Hsu, Ht, Hse.
Qed.

(** Pages tile the result: for two requests with the same filters and the
    same limit n, at pages p and p + 1, the second answer continues the
    first: both are windows of n entries of one list of materials, newest
    first, starting at (p - 1) n and at p n. *)
Theorem X_pages_tile (now : Z) (authorization : option Jwt.token)
  (q1 q2 : ListQuery.t) (db : Db) (resp1 : response) :
  same_filters q1 q2 ->
  limit_of q2 = limit_of q1 -> 1 <= limit_of q1 ->
  1 <= page_of q1 -> page_of q2 = page_of q1 + 1 ->
  get_materials now authorization q1 db = Some resp1 ->
  status resp1 = 200 ->
  let n := Z.to_nat (limit_of q1) in
  let k := Z.to_nat ((page_of q1 - 1) * limit_of q1) in
  exists whole,
    newest_first whole
    /\ incl whole (Materials db)
    /\ resp1 = reply 200 (JArr (map with_id (firstn n (skipn k whole))))
    /\ get_materials now authorization q2 db
       = Some (reply 200 (JArr (map with_id (firstn n (skipn (k + n) whole)))))
    /\ (firstn n (skipn k whole) ++ firstn n (skipn (k + n) whole))%list
       = firstn (2 * n) (skipn k whole).
Proof.
  intros Hsame Hlim Hn Hp Hp2 H1 H200. cbv zeta.
  destruct (list_inv _ _ _ _ _ H1 H200) as (found & Hf & Hk & ->).
  exists (Mongoose.sort_desc Material.createdAt found).
  split; [apply sort_desc_sorted |].
  split.
  { intros x Hx.
    apply (Permutation_in _ (sort_desc_perm Material.createdAt found)) in Hx.
    now apply (find_incl _ _ _ Hf). }
  rewrite Zabs2Nat.abs_nat_nonneg by lia.
  split; [reflexivity |].
  split.
  - unfold get_materials. fold (page_of q2). fold (limit_of q2).
    assert (Hauth : exists user, authMiddleware now authorization = Next user).
    { revert H1. unfold get_materials.
      destruct (authMiddleware now authorization) as [r | user] eqn:Ea;
        [| now exists user].
      intros [= E]. exfalso. unfold authMiddleware in Ea.
      destruct authorization as [t |]; [destruct (Jwt.verify t now) |];
        try discriminate Ea; injection Ea as <-; discriminate E. }
    destruct Hauth as [user ->].
    rewrite <- (build_query_filters _ _ Hsame), Hf, Hlim, Hp2.
    unfold Mongoose.skip_limit.
    destruct (Z.ltb_spec ((page_of q1 + 1 - 1) * limit_of q1) 0); [nia |].
    rewrite Zabs2Nat.abs_nat_nonneg by lia.
    replace (Z.to_nat ((page_of q1 + 1 - 1) * limit_of q1))
      with (Z.to_nat ((page_of q1 - 1) * limit_of q1) + Z.to_nat (limit_of q1))%nat
      by nia.
    reflexivity.
  - set (n := Z.to_nat (limit_of q1)).
    set (k := Z.to_nat ((page_of q1 - 1) * limit_of q1)).
    set (w := Mongoose.sort_desc Material.createdAt found).
    rewrite (Nat.add_comm k n), <- skipn_skipn.
    generalize (skipn k w) as l. intros l.
    replace (2 * n)%nat with (n + n)%nat by lia.
    rewrite <- (firstn_skipn n (firstn (n + n) l)) at 1.
    rewrite firstn_firstn, Nat.min_l by lia.
    f_equal. rewrite skipn_firstn_comm. f_equal. lia.
Qed.

(** ** Who can change what *)

(** Only a request with a valid faculty token adds or removes a material:
    after any other request the collection holds the same identifiers in
    the same order. *)
Theorem X_only_faculty_adds_or_removes (now : Z) (r : request) (db : Db) :
  from_faculty now r = false ->
  ids (Materials (snd (handle now r db))) = ids (Materials db).
Proof.
  unfold from_faculty. intros H.
  destruct r as [| salt b | b | tok | tok f b | tok q | tok i | tok i | tok i
                 | tok i | tok msg | tok | tok | tok];
    cbn [authorization_of] in H; unfold_routes; cbn [fst snd].
  all: try reflexivity.
  all: try (by_cases; reflexivity).
  - (* upload *)
    unfold authMiddleware, facultyOnly.
    destruct tok as [t |]; [| reflexivity].
    destruct (Jwt.verify t now) as [user |]; [| reflexivity].
    cbn [chain]. rewrite H. reflexivity.
  - (* like *)
    by_cases; cbn [snd with_materials Materials]; try reflexivity;
      apply ids_save.
  - (* download *)
    by_cases; cbn [snd with_materials Materials]; try reflexivity;
      apply ids_save.
  - (* delete *)
    unfold authMiddleware, facultyOnly.
    destruct tok as [t |]; [| reflexivity].
    destruct (Jwt.verify t now) as [user |]; [| reflexivity].
    cbn [chain]. rewrite H. reflexivity.
Qed.

(** Under the store's guarantee on identifiers, once a material is deleted
    its identifier is dead: whatever requests are served afterwards, a
    like, a download or another delete on it is answered 404 and changes
    nothing. *)
Theorem X_deleted_stays_gone (now now' : Z)
  (authorization authorization' : option Jwt.token)
  (user user' : Jwt.claims) (id : ObjectId) (db : Db)
  (rs : list (Z * request)) :
  authenticated now authorization user ->
  Jwt.role user = "faculty" ->
  wf db ->
  In id (ids (Materials db)) ->
  authenticated now' authorization' user' ->
  let later := serve rs (snd (delete_material now authorization id db)) in
  post_material_like now' authorization' id later
  = (error 404 "Material not found", later)
  /\ post_material_download now' authorization' id later
     = (error 404 "Material not found", later)
  /\ (Jwt.role user' = "faculty" ->
      delete_material now' authorization' id later
      = (error 404 "Material not found", later)).
Proof.
  intros Hauth Hrole [Hnd Hfr] Hin Hauth'. cbv zeta.
  destruct (MM.findById id (Materials db)) as [m |] eqn:Hm.
  2: { apply findById_None in Hm. contradiction. }
  rewrite (delete_found _ _ _ _ _ _ Hauth Hrole Hm). cbn [snd].
  set (later := serve rs _).
  assert (Hgone : MM.findById id (Materials later) = None).
  { apply serve_absent.
    - simpl. rewrite Forall_forall in Hfr. now apply Hfr.
    - simpl. now apply findById_delete_same. }
  unfold post_material_like, post_material_download, delete_material.
  rewrite Hauth'. cbn [chain]. rewrite Hgone.
  repeat split. intros Hr. unfold facultyOnly. rewrite Hr. reflexivity.
Qed.

(** ** The outcomes of Register *)

Lemma complete_present (b : RegisterBody.t) :
  complete b = true ->
  exists name e p role,
    RegisterBody.name b = Some name /\ RegisterBody.email b = Some e
    /\ RegisterBody.password b = Some p /\ RegisterBody.role b = Some role
    /\ present (RegisterBody.name b) = Some name
    /\ present (RegisterBody.email b) = Some e
    /\ present (RegisterBody.password b) = Some p
    /\ present (RegisterBody.role b) = Some role.
Proof.
  unfold complete. intros H.
  destruct (RegisterBody.name b) as [[| c1 n] |]; try discriminate.
  destruct (RegisterBody.email b) as [[| c2 e] |]; try discriminate.
  destruct (RegisterBody.password b) as [[| c3 p] |]; try discriminate.
  destruct (RegisterBody.role b) as [[| c4 r] |]; try discriminate.
  eexists _, _, _, _. repeat split.
Qed.

(** Register has four outcomes.  A body that lacks one of name, email,
    password and role is answered 400 (all fields are required); with the
    four, an address already stored, in normal form, is answered 400 (user
    already exists); otherwise the schema decides: a name or an address of
    white space only, a role other than student and faculty, or a semester
    that does not parse is answered 500, and anything else 201.  Only the
    last one writes. *)
Theorem X_register_outcomes (now : Z) (salt : string) (b : RegisterBody.t)
  (db : Db) :
  let registered := post_auth_register now salt b db in
  (complete b = false ->
   registered = (error 400 "All fields are required", db))
  /\ (complete b = true ->
      forall e, RegisterBody.email b = Some e ->
        (In (Js.trim (Js.toLowerCase e)) (map User.email (Users db)) ->
         registered = (error 400 "User already exists with this email", db))
        /\ (~ In (Js.trim (Js.toLowerCase e)) (map User.email (Users db)) ->
            (schema_accepts b = false ->
             registered
             = (error 500 "Registration failed. Please try again.", db))
            /\ (schema_accepts b = true ->
                status (fst registered) = 201
                /\ List.length (Users (snd registered))
                   = S (List.length (Users db))))).
Proof.
  cbv zeta. split.
  - unfold complete, post_auth_register. intros H.
    destruct (RegisterBody.name b) as [[| c1 n] |];
      destruct (RegisterBody.email b) as [[| c2 e] |];
      destruct (RegisterBody.password b) as [[| c3 p] |];
      destruct (RegisterBody.role b) as [[| c4 r] |];
      try discriminate H; reflexivity.
  - intros Hc e He.
    destruct (complete_present b Hc)
      as (name & e0 & p & role & Hn & He0 & Hp & Hr & Pn & Pe & Pp & Pr).
    assert (e0 = e) by congruence. subst e0.
    unfold post_auth_register, schema_accepts.
    rewrite Pn, Pe, Pp, Pr, Hn, He, Hr. split.
    + intros Hin.
      destruct (MU.findOne_email _ (Users db)) eqn:Ef; [reflexivity |].
      apply findOne_email_none in Ef. contradiction.
    + intros Hout. apply findOne_email_none in Hout. rewrite Hout.
      unfold MU.create.
      cbn [MU.name MU.email MU.role MU.semester MU.password MU.department].
      rewrite normalise_idem, trim_idem, Hout. unfold Mongoose.required.
      destruct (if Js.truthy_opt (RegisterBody.semester b)
                then Js.parseInt_opt (RegisterBody.semester b)
                else Js.Num 1) as [| sem];
        [rewrite andb_false_r; split; [reflexivity | discriminate] |].
      rewrite andb_true_r.
      destruct (Js.truthy (Js.trim name)); cbn [negb andb];
        [| split; [reflexivity | discriminate]].
      destruct (Js.truthy (Js.trim (Js.toLowerCase e))); cbn [negb andb];
        [| split; [reflexivity | discriminate]].
      destruct (Mongoose.enum MU.roles role); cbn [negb];
        [| split; [reflexivity | discriminate]].
      split; [discriminate |]. intros _. cbn [fst snd status reply Users].
      split; [reflexivity |]. rewrite length_app. simpl. lia.
Qed.

(** ** Stored file names *)

Lemma length_string_app (a b : string) :
  String.length (a ++ b) = (String.length a + String.length b)%nat.
Proof.
  induction a as [| c a IH]; simpl; [reflexivity | now rewrite IH].
Qed.

Lemma string_app_cancel_r (a b c : string) : a ++ c = b ++ c -> a = b.
Proof.
  revert b. induction a as [| x a IH]; intros [| y b] H; simpl in H.
  - reflexivity.
  - apply (f_equal String.length) in H. simpl in H.
    rewrite length_string_app in H. lia.
  - apply (f_equal String.length) in H. simpl in H.
    rewrite length_string_app in H. lia.
  - injection H as -> H. f_equal. now apply IH.
Qed.

Lemma to_int_proper (z : Z) :
  Z.to_int z <> Decimal.Pos Decimal.Nil /\ Z.to_int z <> Decimal.Neg Decimal.Nil.
Proof.
  destruct z as [| p | p]; simpl; split; try discriminate;
    intros [= H]; now apply DecimalPos.Unsigned.to_uint_nonnil in H.
Qed.

Lemma Js_toString_inj (a b : Z) : Js.toString a = Js.toString b -> a = b.
Proof.
  unfold Js.toString. intros H.
  destruct (to_int_proper a) as [Ha1 Ha2]. destruct (to_int_proper b) as [Hb1 Hb2].
  pose proof (DecimalString.NilZero.isi _ Ha1 Ha2) as Ia.
  pose proof (DecimalString.NilZero.isi _ Hb1 Hb2) as Ib.
  rewrite H in Ia. rewrite Ia in Ib. injection Ib as Hab.
  rewrite <- (DecimalZ.of_to a), <- (DecimalZ.of_to b). now rewrite Hab.
Qed.

(** Two uploads answered 201 of files with the same name, made at
    different milliseconds, are stored under different file locations. *)
Theorem X_upload_urls_differ (now1 now2 : Z)
  (authorization1 authorization2 : option Jwt.token) (f1 f2 : File.t)
  (b1 b2 : UploadBody.t) (db1 db2 : Db) :
  status (fst (post_materials now1 authorization1 (Some f1) b1 db1)) = 201 ->
  status (fst (post_materials now2 authorization2 (Some f2) b2 db2)) = 201 ->
  File.originalname f1 = File.originalname f2 ->
  now1 <> now2 ->
  exists m1 m2,
    Materials (snd (post_materials now1 authorization1 (Some f1) b1 db1))
    = (Materials db1 ++ [m1])%list
    /\ Materials (snd (post_materials now2 authorization2 (Some f2) b2 db2))
       = (Materials db2 ++ [m2])%list
    /\ Material.fileName m1 = Material.fileName m2
    /\ Material.fileUrl m1 <> Material.fileUrl m2.
Proof.
  intros H1 H2 Hname Hnow.
  destruct (upload_inv _ _ _ _ _ H1)
    as (u1 & g1 & m1 & d1 & _ & _ & Hg1 & _ & E1 & _ & _ & _ & _ & _ & _ & Dn1
        & Du1 & _ & _ & _ & P1).
  destruct (upload_inv _ _ _ _ _ H2)
    as (u2 & g2 & m2 & d2 & _ & _ & Hg2 & _ & E2 & _ & _ & _ & _ & _ & _ & Dn2
        & Du2 & _ & _ & _ & P2).
  injection Hg1 as <-. injection Hg2 as <-.
  pose proof (create_material_fields _ _ _ _ _ _ E1) as F1.
  pose proof (create_material_fields _ _ _ _ _ _ E2) as F2.
  apply create_material_stored in E1. apply create_material_stored in E2.
  destruct E1 as (_ & _ & _ & _ & _ & _ & U1 & _).
  destruct E2 as (_ & _ & _ & _ & _ & _ & U2 & _).
  destruct F1 as (_ & _ & _ & _ & _ & _ & _ & N1 & _).
  destruct F2 as (_ & _ & _ & _ & _ & _ & _ & N2 & _).
  exists m1, m2. rewrite P1, P2. cbn [snd Materials].
  repeat split.
  - congruence.
  - rewrite U1, U2, Du1, Du2, Hname. intros H. apply Hnow.
    injection H as H.
    apply string_app_cancel_r in H. now apply Js_toString_inj.
Qed.

(** * The further properties on the running example *)

Lemma registered_users_ok : users_ok Example.registered.
Proof.
  apply (serve_inv users_ok effect_users_ok). repeat split; constructor.
Qed.

Lemma one_material_users_ok : users_ok Example.one_material.
Proof.
  apply (serve_inv users_ok effect_users_ok). exact registered_users_ok.
Qed.

Lemma one_material_ok : materials_ok Example.one_material.
Proof.
  apply (serve_inv materials_ok effect_materials_ok).
  apply (serve_inv materials_ok effect_materials_ok). constructor.
Qed.

Lemma registered_wf : wf Example.registered.
Proof. apply serve_wf. split; constructor. Qed.

Lemma X_users_invariant_witness :
  users_ok Example.registered
  /\ exists added, Users Example.one_material = (Users empty_db ++ added)%list.
Proof.
  split.
  - apply (X_users_invariant
             [ (1000, POST_auth_register "salt1" Example.faculty);
               (2000, POST_auth_register "salt2" Example.student) ] empty_db).
    repeat split; constructor.
  - apply (X_users_invariant
             [ (1000, POST_auth_register "salt1" Example.faculty);
               (2000, POST_auth_register "salt2" Example.student);
Example.upload 3000 "Calc Notes" "Math" ] empty_db).
Defined.

Lemma X_materials_invariant_witness : materials_ok Example.six_materials.
Proof.
  apply (X_materials_invariant
           [ Example.upload 3000 "Calc Notes" "Math";
Example.upload 4000 "Algebra" "Math";
Example.upload 5000 "Python" "Programming";
Example.upload 6000 "Graphs" "Math";
Example.upload 7000 "Logic" "Math";
Example.upload 8000 "Sets" "Math" ] Example.registered).
  vm_compute. constructor.
Defined.

Lemma X_chat_log_witness : chats_ok Tour.chatted.
Proof.
  apply (X_chat_log
           [ (9000, POST_chat (Some Example.student_token) (Some "Any notes?")) ]
Example.one_material).
  vm_compute. constructor.
Defined.

Lemma X_access_gate_witness :
  handle 9000 (GET_dashboard None) Example.one_material
  = (Some (error 401 "Access denied. No token provided."), Example.one_material)
  /\ handle 9000 (DELETE_material (Some Tour.forged) 2%nat) Example.one_material
     = (Some (error 400 "Invalid token."), Example.one_material).
Proof.
  split.
  - apply (proj1 (X_access_gate 9000 (GET_dashboard None) None
Example.one_material eq_refl)).
    reflexivity.
  - apply (proj2 (X_access_gate 9000 (DELETE_material (Some Tour.forged) 2%nat)
                    (Some Tour.forged) Example.one_material eq_refl)
             Tour.forged eq_refl).
    left. reflexivity.
Defined.

Lemma X_failure_changes_nothing_witness :
  snd (handle 9000 (GET_stats (Some Example.student_token)) Example.one_material)
  = Example.one_material
  /\ snd (handle 9000 (POST_auth_register "s" Example.nameless)
Example.one_material)
     = Example.one_material.
Proof.
  split.
  - apply (X_failure_changes_nothing 9000
             (GET_stats (Some Example.student_token)) Example.one_material).
    reflexivity.
  - apply (proj2 (X_failure_changes_nothing 9000
                    (POST_auth_register "s" Example.nameless)
Example.one_material)
             (error 400 "All fields are required"));
      [reflexivity | vm_compute; discriminate].
Defined.

Lemma X_login_sound_witness :
  exists u, In u (Users Example.registered)
            /\ User.email u = "f@x.com"
            /\ Bcrypt.compare "pw1" (User.password u) = true.
Proof.
  destruct (X_login_sound 9000 Example.faculty_login Example.registered)
    as [_ H].
  destruct (H eq_refl) as (u & e & p & Hin & He & Hp & Hemail & Hc & _).
  injection He as <-. injection Hp as <-.
  exists u. repeat split; assumption.
Defined.

Lemma X_login_after_register_witness :
  let db1 :=
    serve [(2000, POST_auth_register "salt2" Example.student)]
      (snd (post_auth_register 1000 "salt1" Example.faculty empty_db)) in
  post_auth_login 9000
    {| LoginBody.email := Some " F@X.com "; LoginBody.password := Some "guess" |}
    db1
  = (error 400 "Invalid email or password", db1).
Proof.
  cbv zeta.
  apply (X_login_after_register 1000 9000 "salt1" Example.faculty
           "f@x.com" "pw1" " F@X.com " "guess" empty_db
           [(2000, POST_auth_register "salt2" Example.student)]);
    try reflexivity; discriminate.
Defined.

Lemma X_me_after_register_witness :
  exists t s,
    field "token" (body (fst (post_auth_register 1000 "salt1" Example.faculty
                                   empty_db))) = Some (JTok t)
    /\ get_auth_me 9000 (Some t) Example.registered
       = (reply 200 s, Example.registered).
Proof.
  destruct (X_me_after_register 1000 9000 "salt1" Example.faculty empty_db
              [(2000, POST_auth_register "salt2" Example.student)])
    as (t & s & Ht & _ & Hin & _).
  - repeat split; constructor.
  - reflexivity.
  - exists t, s. split; [exact Ht |]. apply Hin. vm_compute. reflexivity.
Defined.

Lemma X_register_stores_witness :
  exists u,
    Users (snd (post_auth_register 2000 "salt2" Example.student
                  (snd (post_auth_register 1000 "salt1" Example.faculty empty_db))))
    = (Users (snd (post_auth_register 1000 "salt1" Example.faculty empty_db))
       ++ [u])%list
    /\ User.email u = "s@x.com" /\ User.semester u = 3.
Proof.
  destruct (X_register_stores 2000 "salt2" Example.student
              (snd (post_auth_register 1000 "salt1" Example.faculty empty_db))
              eq_refl)
    as (name & e & p & role & u & _ & He & _ & _ & Hu & _ & _ & _ & Hemail
        & _ & _ & _ & _ & _ & Hsem).
  injection He as <-. exists u. split; [exact Hu |]. split; [exact Hemail |].
  vm_compute in Hsem. now injection Hsem.
Defined.

Lemma X_register_outcomes_witness :
  post_auth_register 9000 "salt3" Tour.blank_name Example.registered
  = (error 500 "Registration failed. Please try again.", Example.registered).
Proof.
  destruct (X_register_outcomes 9000 "salt3" Tour.blank_name Example.registered)
    as [_ H].
  destruct (H eq_refl "b@x.com" eq_refl) as [_ H'].
  apply H'; [| reflexivity].
  vm_compute. intros [F | [F | []]]; discriminate.
Defined.

Lemma X_upload_stores_witness :
  exists m,
    Materials Example.one_material = (Materials Example.registered ++ [m])%list
    /\ Material.title m = "Calc Notes"
    /\ Material.fileUrl m = "/uploads/3000-a.pdf".
Proof.
  destruct (X_upload_stores 3000 (Some Example.faculty_token)
              (Some Example.pdf) (Example.notes "Calc Notes" "Math")
Example.registered eq_refl)
    as (user & f & m & _ & _ & Hf & _ & Hm & Ht & _ & _ & _ & _ & _ & _ & _
        & _ & _ & _ & Hurl & _).
  injection Hf as <-. exists m. split; [exact Hm |]. split.
  - vm_compute in Ht. now injection Ht.
  - exact Hurl.
Defined.

Lemma X_upload_then_get_witness :
  exists m,
    Material._id m = 2%nat
    /\ get_material 9000 (Some Example.student_token) (Material._id m)
Example.one_material
       = (reply 200 (with_id m), Example.one_material).
Proof.
  destruct (X_upload_then_get 3000 9000 (Some Example.faculty_token)
              (Some Example.student_token) Example.student_claims
              (Some Example.pdf) (Example.notes "Calc Notes" "Math")
Example.registered registered_wf eq_refl eq_refl)
    as (m & Hid & _ & _ & _ & _ & Hget & _).
  exists m. split; [exact Hid | exact Hget].
Defined.

Lemma X_upload_urls_differ_witness :
  exists m1 m2,
    Materials (snd (post_materials 3000 (Some Example.faculty_token)
                      (Some Example.pdf) (Example.notes "Calc Notes" "Math")
Example.registered))
    = (Materials Example.registered ++ [m1])%list
    /\ Materials (snd (post_materials 4000 (Some Example.faculty_token)
                         (Some Example.pdf) (Example.notes "Algebra" "Math")
Example.one_material))
       = (Materials Example.one_material ++ [m2])%list
    /\ Material.fileName m1 = Material.fileName m2
    /\ Material.fileUrl m1 <> Material.fileUrl m2.
Proof.
  apply (X_upload_urls_differ 3000 4000 (Some Example.faculty_token)
           (Some Example.faculty_token) Example.pdf Example.pdf
           (Example.notes "Calc Notes" "Math") (Example.notes "Algebra" "Math")
Example.registered Example.one_material eq_refl eq_refl eq_refl).
  discriminate.
Defined.

Lemma X_like_and_download_apart_witness :
  exists m',
    MM.findById 2%nat
      (Materials (snd (post_material_like 9000 (Some Example.student_token)
                         2%nat Example.one_material)))
    = Some m'
    /\ Material.downloads m' = 0.
Proof.
  destruct (X_like_and_download_apart 9000 (Some Example.student_token)
              2%nat 2%nat Example.one_material Example.calc_notes eq_refl)
    as [(m' & Hm & Hd & _) _].
  exists m'. split; [exact Hm | exact Hd].
Defined.

Lemma X_like_flips_witness :
  fst (post_material_like 9000 (Some Example.student_token) 2%nat
Example.one_material)
  = reply 200 (JObj [ ("message", JStr "Like updated"); ("likes", JNum 1);
                      ("isLiked", JBool true) ]).
Proof.
  apply (X_like_flips 9000 (Some Example.student_token) Example.student_claims
           2%nat Example.one_material Example.calc_notes eq_refl eq_refl).
  constructor.
Defined.

Lemma X_delete_exactly_one_witness :
  S (List.length
       (Materials (snd (delete_material 9000 (Some Example.faculty_token) 4%nat
Example.six_materials))))
  = List.length (Materials Example.six_materials).
Proof.
  destruct (MM.findById 4%nat (Materials Example.six_materials))
    as [m |] eqn:Hm; [| vm_compute in Hm; discriminate].
  apply (X_delete_exactly_one 9000 (Some Example.faculty_token)
Example.faculty_claims 4%nat Example.six_materials m eq_refl eq_refl).
  - apply serve_wf. exact registered_wf.
  - exact Hm.
Defined.

Lemma X_deleted_stays_gone_witness :
  let later :=
    serve [ Example.upload 9500 "Calc Notes" "Math" ]
      (snd (delete_material 9000 (Some Example.faculty_token) 2%nat
Example.one_material)) in
  post_material_download 9900 (Some Example.student_token) 2%nat later
  = (error 404 "Material not found", later).
Proof.
  cbv zeta.
  apply (X_deleted_stays_gone 9000 9900 (Some Example.faculty_token)
           (Some Example.student_token) Example.faculty_claims
Example.student_claims 2%nat Example.one_material
           [ Example.upload 9500 "Calc Notes" "Math" ] eq_refl eq_refl).
  - apply serve_wf. exact registered_wf.
  - left. reflexivity.
  - reflexivity.
Defined.

Lemma X_only_faculty_adds_or_removes_witness :
  ids (Materials (snd (handle 9000
                         (DELETE_material (Some Example.student_token) 2%nat)
Example.one_material)))
  = ids (Materials Example.one_material).
Proof.
  apply (X_only_faculty_adds_or_removes 9000
           (DELETE_material (Some Example.student_token) 2%nat)
Example.one_material).
  reflexivity.
Defined.

Lemma X_counts_witness :
  exists students faculty,
    stat "totalStudents" 9000 (Some Example.student_token) Example.one_material
    = Some students
    /\ stat "totalFaculty" 9000 (Some Example.student_token)
Example.one_material
       = Some faculty
    /\ students + faculty = 2.
Proof.
  destruct (X_counts 9000 (Some Example.student_token) Example.student_claims
Example.one_material eq_refl one_material_users_ok
              one_material_ok)
    as (materials & pyqs & downloads & students & faculty & _ & _ & _ & _ & _
        & _ & _ & Hs & Hf & _ & Hsum & _).
  exists students, faculty. split; [exact Hs |]. split; [exact Hf | exact Hsum].
Defined.

Lemma X_total_downloads_witness :
  exists total,
    stat "totalDownloads" 9500 (Some Example.faculty_token) Example.one_material
    = Some total
    /\ stat "totalDownloads" 9500 (Some Example.faculty_token)
         (snd (post_material_download 9000 (Some Example.student_token) 2%nat
Example.one_material))
       = Some (total + 1).
Proof.
  destruct (X_total_downloads 9000 9500 (Some Example.student_token)
              (Some Example.faculty_token) Example.student_claims
Example.faculty_claims 2%nat Example.one_material
Example.calc_notes eq_refl eq_refl eq_refl)
    as (total & H0 & H1 & _).
  exists total. split; [exact H0 | exact H1].
Defined.

Lemma X_chat_history_witness :
  exists l,
    get_chat_history 9500 (Some Example.student_token) Tour.chatted
    = (reply 200 (JArr (map history_entry l)), Tour.chatted)
    /\ (List.length l <= 50)%nat.
Proof.
  destruct (X_chat_history 9500 (Some Example.student_token)
Example.student_claims Tour.chatted eq_refl)
    as (l & Hl & Hlen & _).
  exists l. split; [exact Hl | exact Hlen].
Defined.

Lemma X_chat_then_history_witness :
  exists e rest,
    fst (get_chat_history 9500 (Some Example.student_token) Tour.chatted)
    = reply 200 (JArr (history_entry e :: rest))
    /\ Chat.message e = "Any notes?".
Proof.
  destruct (X_chat_then_history 9000 9500 (Some Example.student_token)
              (Some Example.student_token) Example.student_claims
Example.student_claims "Any notes?" Example.one_material
              eq_refl eq_refl eq_refl)
    as (e & rest & Hh & Hm & _).
  - discriminate.
  - vm_compute. constructor.
  - exists e, rest. split; [exact Hh | exact Hm].
Defined.

Lemma X_list_page_bound_witness :
  exists ms,
    option_map body
      (get_materials 9000 (Some Example.student_token) (Tour.page "2")
Example.six_materials)
    = Some (JArr (map with_id ms))
    /\ (List.length ms <= 1)%nat.
Proof.
  destruct (get_materials 9000 (Some Example.student_token) (Tour.page "2")
Example.six_materials) as [resp |] eqn:E;
    [| vm_compute in E; discriminate].
  destruct (X_list_page_bound 9000 (Some Example.student_token)
              (Tour.page "2") Example.six_materials resp E)
    as (ms & Hb & Hlen & _).
  - vm_compute in E. injection E as <-. reflexivity.
  - exists ms. split; [simpl; now rewrite Hb | exact Hlen].
Defined.

Lemma X_pages_tile_witness :
  exists whole resp1,
    newest_first whole
    /\ get_materials 9000 (Some Example.student_token) (Tour.page "1")
Example.six_materials
       = Some resp1
    /\ resp1 = reply 200 (JArr (map with_id (firstn 1 (skipn 0 whole))))
    /\ get_materials 9000 (Some Example.student_token) (Tour.page "2")
Example.six_materials
       = Some (reply 200 (JArr (map with_id (firstn 1 (skipn 1 whole))))).
Proof.
  destruct (get_materials 9000 (Some Example.student_token) (Tour.page "1")
Example.six_materials) as [resp1 |] eqn:E;
    [| vm_compute in E; discriminate].
  destruct (X_pages_tile 9000 (Some Example.student_token) (Tour.page "1")
              (Tour.page "2") Example.six_materials resp1)
    as (whole & Hs & _ & H1 & H2 & _).
  - repeat split.
  - reflexivity.
  - vm_compute. discriminate.
  - vm_compute. discriminate.
  - reflexivity.
  - exact E.
  - vm_compute in E. injection E as <-. reflexivity.
  - exists whole, resp1. repeat split; assumption.
Defined.
